(** * Appointment scheduling engine of the mental-health backend

    A shallow embedding of the booking, lifecycle, slot and analytics code of
    - [src/routes/appointment.ts]  (POST /book, PUT /:id/status, PUT /:id/cancel,
      GET /available-slots/:therapistId),
    - [src/routes/chatbot.ts]      (POST /appointments/:id/review,
      POST /book-appointment, whose body repeats POST /book line for line),
    - [src/routes/therapist.ts]    (PUT /appointments/:id/status, GET /analytics),
    - the admin routes             (GET /analytics with getPlatformStats and
      getRevenueData),
    - the Appointment and Therapist mongoose schemas.

    Further parts of the same files and of the files they call or are
    called from:
    - the listings                 (GET /therapist of the appointment routes,
      GET /appointments of the therapist routes and of the user routes,
      GET /appointments/:id),
    - the other reports            (GET /dashboard and the monthly trends of
      the therapist routes, getAppointmentStatus and getGrowthData of the
      admin routes),
    - the therapist collection     (POST /register/therapist, PUT /profile,
      PUT /therapists/:id/verify, PUT /users/:id/toggle-status,
      getTherapistStats, the filter of GET /therapists),
    - accounts                     (POST /login, POST /login/therapist,
      POST /login/admin, GET /me, the authentication middleware and its
      guards, the mounting of the routers in [index.ts]),
    - the chat routes              (POST /send, GET /history, GET /sessions).

    Conventions of the embedding.
    - A JavaScript number that holds an integer below 2^53 is a [Z]; [NaN]
      is [None] in [option Z].  Money ([hourlyRate], [amount]) is a binary64
      number, a primitive [float]: amounts are computed and added with the
      rounding of the code.
    - A field of a request body is the JSON scalar [express.json()] parsed;
      arrays and objects as field values are left out.  The validators read
      a value through its string, so that [isInt] lets a JSON string of
      digits through as it does a JSON number: a [duration] is a
      [Duration], a number or a string, and is used by the handler as it
      was sent.  (The rating of a review and the hourly rate of a therapist
      are only stored, and the schema's cast makes the same number of
      either form.)
    - Strings are [string]; MongoDB's [$lt]/[$gt] on strings is the binary
      (lexicographic) order, [String.ltb].
    - The appointment collection is a [list Appointment]; the [_id] of a
      document is its position.  No route of the repository deletes an
      appointment, so positions are stable.
    - A [Date] is its epoch value in milliseconds, a [Z]: the date of a
      request is a text that [new Date] reads.
    - Every handler is a function from the collection to the new collection
      and the response; a failing handler returns the collection it was given.
    - What the platform and the libraries provide (dates, the text of
      numbers beyond 2^53, the aggregation operators [$sum], [$avg] and
      [$month], the cursor of the database driver, password hashes and
      tokens, the language model) is a type class; what a theorem needs of
      it is a hypothesis of that theorem.
*)

From Stdlib Require Import ZArith QArith Qcanon String Ascii List Lia DecimalString Permutation Sorted.
From Stdlib Require Import Floats.
From stdpp Require Import base list strings numbers.

Local Open Scope string_scope.
Local Open Scope Z_scope.
Local Open Scope list_scope.

(** ** JavaScript string and number helpers used by the routes *)

Module JS.

(** A JavaScript number holding an integer, or [NaN]. *)
Definition number := option Z.

Definition isDigit (c : ascii) : bool :=
  (48 <=? Z.of_nat (nat_of_ascii c)) && (Z.of_nat (nat_of_ascii c) <=? 57).

Definition digitVal (c : ascii) : Z := Z.of_nat (nat_of_ascii c) - 48.

(** [parseIntFrom acc s]: the decimal digits at the front of [s], read
    after the digits already collected in [acc]. *)
Fixpoint parseIntFrom (acc : Z) (s : string) : Z :=
  match s with
  | String c s' => if isDigit c then parseIntFrom (10 * acc + digitVal c) s' else acc
  | EmptyString => acc
  end.

(** [parseInt] on a string that starts with neither white space, a sign nor
    a [0x] prefix (the pieces of a validated start time are digits only):
    the longest prefix of decimal digits, [NaN] when there is none.
    [parseInt(undefined)] is [NaN]. *)
Definition parseInt (s : option string) : number :=
  match s with
  | Some (String c s') => if isDigit c then Some (parseIntFrom 0 (String c s')) else None
  | _ => None
  end.

(** [Number.prototype.toString()] of an integer or [NaN]. *)
Definition toString (n : number) : string :=
  match n with
  | Some z => NilEmpty.string_of_int (Z.to_int z)
  | None => "NaN"
  end.

Fixpoint repeat0 (n : nat) : string :=
  match n with
  | O => EmptyString
  | S n' => String "0" (repeat0 n')
  end.

(** [s.padStart(n, '0')]. *)
Definition padStart0 (n : nat) (s : string) : string :=
  (repeat0 (n - String.length s) ++ s)%string.

(** [s.split(':')]. *)
Fixpoint splitColon (cur : string) (s : string) : list string :=
  match s with
  | EmptyString => [cur]
  | String c s' =>
      if Ascii.eqb c ":" then cur :: splitColon EmptyString s'
      else splitColon (cur ++ String c EmptyString)%string s'
  end.

Definition split (s : string) : list string := splitColon EmptyString s.

Definition mul (a b : number) : number :=
  match a, b with Some x, Some y => Some (x * y) | _, _ => None end.

Definition add (a b : number) : number :=
  match a, b with Some x, Some y => Some (x + y) | _, _ => None end.

(** [Math.floor(a / 60)] for an integer [a]. *)
Definition floorDiv60 (a : number) : number :=
  match a with Some x => Some (x / 60) | None => None end.

(** [a % 60]: the remainder has the sign of the dividend. *)
Definition rem60 (a : number) : number :=
  match a with Some x => Some (Z.rem x 60) | None => None end.

(** A string of decimal digits, possibly empty. *)
Fixpoint digits (s : string) : bool :=
  match s with
  | String c s' => isDigit c && digits s'
  | EmptyString => true
  end.

(** validator.js [isInt] on a string, leading zeroes allowed (the default):
    the regular expression [/^[-+]?[0-9]+$/]. *)
Definition isIntText (s : string) : bool :=
  match s with
  | String c s' =>
      if Ascii.eqb c "+" || Ascii.eqb c "-"
      then digits s' && negb (String.eqb s' EmptyString)
      else digits s
  | EmptyString => false
  end.

(** [Number(s)] for a string that [isIntText] accepts. *)
Definition numberOfIntText (s : string) : Z :=
  match s with
  | String c s' =>
      if Ascii.eqb c "-" then - parseIntFrom 0 s'
      else if Ascii.eqb c "+" then parseIntFrom 0 s'
      else parseIntFrom 0 s
  | EmptyString => 0
  end.

(** The binary64 number nearest to an integer. *)
Definition Number_ofZ (n : Z) : float := SF2Prim (binary_normalize prec emax n 0 false).

(** A falsy number: [0], [-0] or [NaN]. *)
Definition falsy (x : float) : bool := PrimFloat.eqb x 0 || PrimFloat.is_nan x.

(** [x || 0] on numbers. *)
Definition orZero (x : float) : float := if falsy x then 0%float else x.

End JS.

(** What the runtime makes of a number beyond the integers binary64 holds
    exactly: [Math.floor(t / 60).toString()] and [(t % 60).toString()] for
    a string [t] of more than fifteen decimal digits. *)
Class Runtime := {
  hoursOfLongText : string -> string;
  minutesOfLongText : string -> string
}.

(** ** Data model: the Appointment and Therapist schemas *)

Inductive Status := pending | confirmed | cancelled | completed | no_show.
Inductive SessionType := individual | group | couple.
Inductive SessionMode := video | audio | chat | in_person.
Inductive PaymentStatus := payment_pending | paid | refunded.

#[global] Instance Status_eq_dec : EqDecision Status.
Proof. solve_decision. Defined.
#[global] Instance SessionType_eq_dec : EqDecision SessionType.
Proof. solve_decision. Defined.

Record Appointment := mkAppointment {
  user : nat;
  therapist : nat;
  date : Z;
  startTime : string;
  endTime : string;
  duration : Z;
  status : Status;
  sessionType : SessionType;
  sessionMode : SessionMode;
  notes : option string;
  cancellationReason : option string;
  rating : option Z;
  review : option string;
  paymentStatus : PaymentStatus;
  amount : float;
  createdAt : Z
}.

Record Therapist := mkTherapist {
  isActive : bool;
  isVerified : bool;
  hourlyRate : float
}.

(** [Therapist.findById]: the provider lookup the routes consume. *)
Definition TherapistCollection := nat -> option Therapist.

Inductive Error :=
  | ValidationError      (* 400 with the validator's errors, or a missing date *)
  | ProviderUnavailable  (* 404 'Therapist not found or unavailable' *)
  | ProviderNotFound     (* 404 'Therapist not found' *)
  | SlotConflict         (* 400 'Time slot is not available' *)
  | NotFound             (* 404 'Appointment not found' *)
  | NotCancellable       (* 404 'Appointment not found or cannot be cancelled' *)
  | NotReviewable        (* 404 'Appointment not found or not completed' *)
  | InvalidTransition    (* named by the interface; no route answers with it *)
  | SaveRejected.        (* [save] throws: the document fails its schema, [next(error)] *)

Inductive Response (A : Type) :=
  | Ok (a : A)
  | Err (e : Error).
Arguments Ok {A} a.
Arguments Err {A} e.

Definition isOk {A} (r : Response A) : bool :=
  match r with Ok _ => true | Err _ => false end.

Definition is_active (s : Status) : bool :=
  match s with pending | confirmed => true | _ => false end.

Definition is_terminal (s : Status) : bool := negb (is_active s).

(** ** Time of day *)

(** The validator of [startTime]: [/^([0-1]?[0-9]|2[0-3]):[0-5][0-9]$/]. *)
Definition matchesStartTime (s : string) : bool :=
  let d09 := JS.isDigit in
  let d01 c := Ascii.eqb c "0" || Ascii.eqb c "1" in
  let d03 c := d01 c || Ascii.eqb c "2" || Ascii.eqb c "3" in
  let d05 c := d03 c || Ascii.eqb c "4" || Ascii.eqb c "5" in
  match s with
  | String h (String c (String m1 (String m2 EmptyString))) =>
      d09 h && Ascii.eqb c ":" && d05 m1 && d09 m2
  | String h1 (String h2 (String c (String m1 (String m2 EmptyString)))) =>
      ((d01 h1 && d09 h2) || (Ascii.eqb h1 "2" && d03 h2))
      && Ascii.eqb c ":" && d05 m1 && d09 m2
  | _ => false
  end.

(** [parseInt(startTime.split(':')[0]) * 60 + parseInt(startTime.split(':')[1])]. *)
Definition startTimeMinutes (startTime : string) : JS.number :=
  JS.add (JS.mul (JS.parseInt (JS.split startTime !! 0%nat)) (Some 60))
         (JS.parseInt (JS.split startTime !! 1%nat)).

(** The template string of the end time:
    [`${Math.floor(m / 60).toString().padStart(2, '0')}:${(m % 60).toString().padStart(2, '0')}`]. *)
Definition formatTime (m : JS.number) : string :=
  (JS.padStart0 2 (JS.toString (JS.floorDiv60 m)) ++ ":" ++
   JS.padStart0 2 (JS.toString (JS.rem60 m)))%string.

(** The [duration] of a request body: a JSON number (holding an integer; a
    number with a fraction fails [isInt]) or a JSON string. *)
Inductive Duration :=
  | DNumber (n : Z)
  | DString (s : string).

(** [body('duration').isInt({ min: 30, max: 180 })]: the pattern of [isInt]
    on the string of the value, then [str >= 30] and [str <= 180]. *)
Definition validDuration (d : Duration) : bool :=
  match d with
  | DNumber n => (30 <=? n) && (n <=? 180)
  | DString s =>
      JS.isIntText s && (30 <=? JS.numberOfIntText s) && (JS.numberOfIntText s <=? 180)
  end.

(** [Number(duration)]: what [*] makes of the value, and the schema's cast
    when the document is built. *)
Definition durationNumber (d : Duration) : Z :=
  match d with
  | DNumber n => n
  | DString s => JS.numberOfIntText s
  end.

(** The value of [startTimeMinutes + duration]: a number when the duration
    is a number, the concatenation of the two texts when it is a string. *)
Inductive NumberOrText :=
  | ANumber (n : JS.number)
  | AText (t : string).

Definition endTimeMinutes (startTime : string) (duration : Duration) : NumberOrText :=
  match duration with
  | DNumber n => ANumber (JS.add (startTimeMinutes startTime) (Some n))
  | DString s => AText (JS.toString (startTimeMinutes startTime) ++ s)%string
  end.

(** The template of the end time on a text, which [/] and [%] turn into a
    number: the text is the decimal digits of the start minutes followed by
    a string [isInt] accepted, so it is [NaN] when that string has a sign,
    and an integer otherwise. *)
Definition formatTimeOfText `{Runtime} (t : string) : string :=
  if negb (JS.digits t) then formatTime None
  else if Nat.leb (String.length t) 15 then formatTime (Some (JS.parseIntFrom 0 t))
  else (JS.padStart0 2 (hoursOfLongText t) ++ ":" ++ JS.padStart0 2 (minutesOfLongText t))%string.

Definition computeEndTime `{Runtime} (startTime : string) (duration : Duration) : string :=
  match endTimeMinutes startTime duration with
  | ANumber n => formatTime n
  | AText t => formatTimeOfText t
  end.

(** The time of day a stored [HH:MM] string denotes, in minutes. *)
Definition minutesOf (t : string) : Z :=
  match startTimeMinutes t with Some m => m | None => 0 end.

(** ** Booking: POST /book and POST /book-appointment *)

Record BookRequest := mkBookRequest {
  req_user : nat;                  (* req.user._id, set by requireUser *)
  therapistId : nat;
  req_date : Z;                    (* new Date(date) *)
  req_startTime : string;
  req_duration : Duration;
  req_sessionType : SessionType;
  req_sessionMode : SessionMode;
  req_notes : option string        (* after the validator's trim *)
}.

Definition optLengthAtMost (n : nat) (s : option string) : bool :=
  match s with Some t => Nat.leb (String.length t) n | None => true end.

(** The validation chain of the route: start time pattern, duration an
    integer of [30, 180], notes of at most 1000 characters.  (The session
    type, session mode, id and date checks are carried by the types.) *)
Definition validBookRequest (r : BookRequest) : bool :=
  matchesStartTime (req_startTime r)
  && validDuration (req_duration r)
  && optLengthAtMost 1000 (req_notes r).

(** The filter of the conflict query:
    [{ therapist, date, status: {$in: ['pending','confirmed']},
       $or: [{ startTime: {$lt: endTime}, endTime: {$gt: startTime} }] }]. *)
Definition conflictFilter (therapistId' : nat) (date' : Z) (startTime' endTime' : string)
    (a : Appointment) : bool :=
  Nat.eqb (therapist a) therapistId'
  && Z.eqb (date a) date'
  && is_active (status a)
  && (String.ltb (startTime a) endTime' && String.ltb startTime' (endTime a)).

(** [Model.findOne(filter)]. *)
Definition findOne (filter : Appointment -> bool) (apps : list Appointment) : option Appointment :=
  List.find filter apps.

(** [Model.find(filter)]. *)
Definition findAll (filter : Appointment -> bool) (apps : list Appointment) : list Appointment :=
  List.filter filter apps.

(** [(therapist.hourlyRate / 60) * duration], in binary64; [*] takes the
    number of a duration sent as a string. *)
Definition computeAmount (hourlyRate : float) (duration : Duration) : float :=
  (hourlyRate / 60 * JS.Number_ofZ (durationNumber duration))%float.

(** [new Appointment({ user, therapist, date, startTime, endTime, duration,
    sessionType, sessionMode, notes, amount })]; the duration is cast to a
    number, status and payment status take the schema defaults, [createdAt]
    is set when the document is saved. *)
Definition newAppointment (r : BookRequest) (endTime' : string) (amount' : float) (now : Z)
    : Appointment :=
  {| user := req_user r;
     therapist := therapistId r;
     date := req_date r;
     startTime := req_startTime r;
     endTime := endTime';
     duration := durationNumber (req_duration r);
     status := pending;
     sessionType := req_sessionType r;
     sessionMode := req_sessionMode r;
     notes := req_notes r;
     cancellationReason := None;
     rating := None;
     review := None;
     paymentStatus := payment_pending;
     amount := amount';
     createdAt := now |}.

(** The handler up to [new Appointment(...)]: validation, the provider
    lookup, the end time, the conflict query on the collection as it is
    when the query is answered, the amount, the new document. *)
Definition prepareBooking `{Runtime} (Therapist_findById : TherapistCollection) (now : Z)
    (apps : list Appointment) (r : BookRequest) : Response Appointment :=
  if negb (validBookRequest r) then Err ValidationError else
  match Therapist_findById (therapistId r) with
  | None => Err ProviderUnavailable
  | Some th =>
      if negb (isActive th) || negb (isVerified th) then Err ProviderUnavailable else
      let endTime' := computeEndTime (req_startTime r) (req_duration r) in
      match findOne (conflictFilter (therapistId r) (req_date r) (req_startTime r) endTime') apps with
      | Some conflictingAppointment => Err SlotConflict
      | None =>
          let amount' := computeAmount (hourlyRate th) (req_duration r) in
          Ok (newAppointment r endTime' amount' now)
      end
  end.

(** What [save] checks of the new document that the validators of the route
    have not: [amount] is [required] with [min: 0], and [NaN] is no number
    for the schema. *)
Definition schemaAccepts (a : Appointment) : bool := PrimFloat.leb 0 (amount a).

(** [await appointment.save()], on the collection as it is when the
    document is written. *)
Definition save (apps : list Appointment) (appointment : Appointment)
    : list Appointment * Response Appointment :=
  if schemaAccepts appointment then (apps ++ [appointment], Ok appointment)
  else (apps, Err SaveRejected).

(** A request served with no other write between its conflict query and its
    [save]. *)
Definition book `{Runtime} (Therapist_findById : TherapistCollection) (now : Z)
    (apps : list Appointment) (r : BookRequest) : list Appointment * Response Appointment :=
  match prepareBooking Therapist_findById now apps r with
  | Ok appointment => save apps appointment
  | Err e => (apps, Err e)
  end.

(** Two requests served together, the conflict query of each answered
    before the document of the other is written: neither route takes a lock
    or runs a transaction, and the schema has no unique index. *)
Definition bookTogether `{Runtime} (Therapist_findById : TherapistCollection) (now : Z)
    (apps : list Appointment) (r1 r2 : BookRequest) : list Appointment :=
  let first := prepareBooking Therapist_findById now apps r1 in
  let second := prepareBooking Therapist_findById now apps r2 in
  let apps1 := match first with Ok a1 => fst (save apps a1) | Err _ => apps end in
  match second with Ok a2 => fst (save apps1 a2) | Err _ => apps1 end.

(** ** Lifecycle: status set, cancel, review *)

Definition withStatus (s : Status) (a : Appointment) : Appointment :=
  {| user := user a; therapist := therapist a; date := date a;
     startTime := startTime a; endTime := endTime a; duration := duration a;
     status := s;
     sessionType := sessionType a; sessionMode := sessionMode a;
     notes := notes a; cancellationReason := cancellationReason a;
     rating := rating a; review := review a;
     paymentStatus := paymentStatus a; amount := amount a; createdAt := createdAt a |}.

Definition withNotes (n : option string) (a : Appointment) : Appointment :=
  {| user := user a; therapist := therapist a; date := date a;
     startTime := startTime a; endTime := endTime a; duration := duration a;
     status := status a;
     sessionType := sessionType a; sessionMode := sessionMode a;
     notes := n; cancellationReason := cancellationReason a;
     rating := rating a; review := review a;
     paymentStatus := paymentStatus a; amount := amount a; createdAt := createdAt a |}.

Definition withCancellationReason (c : option string) (a : Appointment) : Appointment :=
  {| user := user a; therapist := therapist a; date := date a;
     startTime := startTime a; endTime := endTime a; duration := duration a;
     status := status a;
     sessionType := sessionType a; sessionMode := sessionMode a;
     notes := notes a; cancellationReason := c;
     rating := rating a; review := review a;
     paymentStatus := paymentStatus a; amount := amount a; createdAt := createdAt a |}.

Definition withReview (r : option Z) (v : option string) (a : Appointment) : Appointment :=
  {| user := user a; therapist := therapist a; date := date a;
     startTime := startTime a; endTime := endTime a; duration := duration a;
     status := status a;
     sessionType := sessionType a; sessionMode := sessionMode a;
     notes := notes a; cancellationReason := cancellationReason a;
     rating := r; review := v;
     paymentStatus := paymentStatus a; amount := amount a; createdAt := createdAt a |}.

(** A query by [_id] with further conditions on the document. *)
Definition findById (filter : Appointment -> bool) (id : nat) (apps : list Appointment)
    : option Appointment :=
  match apps !! id with
  | Some a => if filter a then Some a else None
  | None => None
  end.

(** JavaScript truthiness of an optional string: defined and not empty. *)
Definition truthy (s : option string) : bool :=
  match s with Some (String _ _) => true | _ => false end.

(** [body('status').isIn(['confirmed', 'cancelled', 'completed', 'no-show'])]. *)
Definition validNewStatus (s : Status) : bool :=
  match s with pending => false | _ => true end.

(** PUT /appointments/:id/status of the therapist routes: [findOne] by id and
    therapist, then assignment of the status (and of notes and cancellation
    reason when given), then [save]. *)
Definition setStatus (apps : list Appointment) (id : nat) (actor : nat)
    (newStatus : Status) (notes' cancellationReason' : option string)
    : list Appointment * Response Appointment :=
  if negb (validNewStatus newStatus && optLengthAtMost 1000 notes'
           && optLengthAtMost 500 cancellationReason')
  then (apps, Err ValidationError) else
  match findById (fun a => Nat.eqb (therapist a) actor) id apps with
  | None => (apps, Err NotFound)
  | Some appointment =>
      let a1 := withStatus newStatus appointment in
      let a2 := if truthy notes' then withNotes notes' a1 else a1 in
      let a3 := if truthy cancellationReason' then withCancellationReason cancellationReason' a2 else a2 in
      (<[id := a3]> apps, Ok a3)
  end.

(** PUT /:id/status of the appointment routes:
    [findOneAndUpdate({_id, therapist}, {status}, {new: true})]. *)
Definition updateStatus (apps : list Appointment) (id : nat) (actor : nat)
    (newStatus : Status) : list Appointment * Response Appointment :=
  if negb (validNewStatus newStatus) then (apps, Err ValidationError) else
  match findById (fun a => Nat.eqb (therapist a) actor) id apps with
  | None => (apps, Err NotFound)
  | Some appointment =>
      (<[id := withStatus newStatus appointment]> apps, Ok (withStatus newStatus appointment))
  end.

(** PUT /:id/cancel:
    [findOneAndUpdate({_id, user, status: {$in: ['pending','confirmed']}},
                      {status: 'cancelled'}, {new: true})]. *)
Definition cancel (apps : list Appointment) (id : nat) (clientId : nat)
    : list Appointment * Response Appointment :=
  match findById (fun a => Nat.eqb (user a) clientId && is_active (status a)) id apps with
  | None => (apps, Err NotCancellable)
  | Some appointment =>
      (<[id := withStatus cancelled appointment]> apps, Ok (withStatus cancelled appointment))
  end.

(** POST /appointments/:id/review: [rating] validated as an integer of
    [1, 5], [findOne({_id, user, status: 'completed'})], then assignment of
    rating and review, then [save]. *)
Definition submitReview (apps : list Appointment) (id : nat) (clientId : nat)
    (rating' : Z) (review' : option string) : list Appointment * Response Appointment :=
  if negb ((1 <=? rating') && (rating' <=? 5) && optLengthAtMost 1000 review')
  then (apps, Err ValidationError) else
  match findById (fun a => Nat.eqb (user a) clientId && bool_decide (status a = completed)) id apps with
  | None => (apps, Err NotReviewable)
  | Some appointment =>
      (<[id := withReview (Some rating') review' appointment]> apps,
       Ok (withReview (Some rating') review' appointment))
  end.

(** ** Slots: GET /available-slots/:therapistId *)

Record Slot := mkSlot { slot_startTime : string; slot_endTime : string }.

(** [hour.toString().padStart(2, '0') + ':00']. *)
Definition hourLabel (hour : Z) : string :=
  (JS.padStart0 2 (JS.toString (Some hour)) ++ ":00")%string.

(** [bookedTimeSlots.includes(timeSlot)]. *)
Definition includes (l : list string) (s : string) : bool :=
  existsb (String.eqb s) l.

(** The body of [for (let hour = 9; hour < 18; hour++)], run for [n] rounds
    from [hour]. *)
Fixpoint slotLoop (n : nat) (hour : Z) (bookedTimeSlots : list string) : list Slot :=
  match n with
  | O => []
  | S n' =>
      let timeSlot := hourLabel hour in
      (if negb (includes bookedTimeSlots timeSlot)
       then [mkSlot timeSlot (hourLabel (hour + 1))] else [])
      ++ slotLoop n' (hour + 1) bookedTimeSlots
  end.

Definition bookedFilter (therapistId' : nat) (date' : Z) (a : Appointment) : bool :=
  Nat.eqb (therapist a) therapistId' && Z.eqb (date a) date' && is_active (status a).

Definition availableSlots (Therapist_findById : TherapistCollection)
    (apps : list Appointment) (therapistId' : nat) (date' : option Z) : Response (list Slot) :=
  match date' with
  | None => Err ValidationError
  | Some selectedDate =>
      match Therapist_findById therapistId' with
      | None => Err ProviderNotFound
      | Some _ =>
          let bookedSlots := findAll (bookedFilter therapistId' selectedDate) apps in
          let bookedTimeSlots := map startTime bookedSlots in
          Ok (slotLoop 9 9 bookedTimeSlots)
      end
  end.

(** ** Insertion-ordered maps and sorting, as the analytics code uses them *)

(** A JavaScript [Map] (and the output of a [$group] stage): keys in order of
    first insertion, one entry per key. *)
Section InsertionOrderedMap.
Context {K V : Type} `{EqDecision K}.

Fixpoint Map_get (k : K) (m : list (K * V)) : option V :=
  match m with
  | [] => None
  | (k', v) :: m' => if decide (k' = k) then Some v else Map_get k m'
  end.

Fixpoint Map_set (k : K) (v : V) (m : list (K * V)) : list (K * V) :=
  match m with
  | [] => [(k, v)]
  | (k', v') :: m' =>
      if decide (k' = k) then (k, v) :: m' else (k', v') :: Map_set k v m'
  end.

(** [m.set(k, f(m.get(k)))]. *)
Definition Map_upsert (k : K) (f : option V -> V) (m : list (K * V)) : list (K * V) :=
  Map_set k (f (Map_get k m)) m.
End InsertionOrderedMap.

(** [Array.prototype.sort(cmp)] and a [$sort] stage, as a stable insertion
    sort; [cmp a b <= 0] keeps [a] before [b]. *)
Section Sort.
Context {A : Type} (cmp : A -> A -> Z).

Fixpoint insertBy (x : A) (l : list A) : list A :=
  match l with
  | [] => [x]
  | y :: l' => if cmp x y <=? 0 then x :: y :: l' else y :: insertBy x l'
  end.

Definition sortBy (l : list A) : list A := foldr insertBy [] l.
End Sort.

(** [[...new Set(l)]]: the distinct elements in order of first occurrence. *)
Fixpoint distinct (seen : list nat) (l : list nat) : list nat :=
  match l with
  | [] => []
  | x :: l' =>
      if existsb (Nat.eqb x) seen then distinct seen l'
      else x :: distinct (x :: seen) l'
  end.

(** ** Analytics *)

Inductive DateFormat :=
  | MonthShortDay   (* { month: 'short', day: 'numeric' } *)
  | MonthLong       (* { month: 'long' } *)
  | LocaleDefault.  (* no options *)

(** The [Date] and date-formatting functions of the platform the analytics
    code calls; they are the runtime's, not the repository's. *)
Class Calendar := {
  getFullYear : Z -> Z;
  getMonth : Z -> Z;
  newDate : Z -> Z -> Z -> Z;                    (* new Date(year, month, day) *)
  toLocaleDateString : DateFormat -> Z -> string;
  Date_getTime : string -> JS.number;            (* new Date(label).getTime() *)
  dateToString : string -> Z -> string           (* $dateToString *)
}.

(** The operators of the aggregation pipeline the reports use; they are the
    database's, not the repository's: [$month] of a date, and the
    accumulators [$sum] and [$avg] of a group, given the numbers of the
    group's documents in the order the stage receives them. *)
Class Aggregation := {
  monthOf : Z -> Z;
  sumOf : list float -> float;
  avgOf : list float -> float
}.

(** [User.findById] as [populate('user')] uses it: whether an id names a
    document of the user collection.  (The id of a therapist or an admin
    who books through the client routes does not.) *)
Definition UserCollection := nat -> bool.

Record Series (V : Type) := mkSeries { labels : list string; data : list V }.
Arguments mkSeries {V} labels data.
Arguments labels {V} s.
Arguments data {V} s.

Record ClientStats := mkClientStats {
  totalClients : Z;
  newClients : Z;
  returningClients : Z;
  averageRating : float
}.

Record TherapistAnalytics := mkTherapistAnalytics {
  earnings : Series float;
  appointments : Series Z;
  clientStats : ClientStats;
  sessionTypes : list (SessionType * Z)
}.

Record RevenueData := mkRevenueData {
  rev_labels : list string;
  revenue : list float;
  rev_appointments : list Z
}.

Record PlatformStats := mkPlatformStats {
  totalAppointments : Z;
  completedAppointments : Z;
  totalRevenue : float
}.

Section Analytics.
Context `{Calendar} `{Aggregation}.

(** The [switch (period)] of both analytics routes. *)
Definition startDateOf (period : string) (now : Z) : Z :=
  if String.eqb period "week" then now - 7 * 24 * 60 * 60 * 1000
  else if String.eqb period "year" then newDate (getFullYear now) 0 1
  else if String.eqb period "quarter" then
    let quarter := getMonth now / 3 in
    newDate (getFullYear now) (quarter * 3) 1
  else newDate (getFullYear now) (getMonth now) 1.

Definition labelFormat (period : string) (d : Z) : string :=
  if String.eqb period "week" || String.eqb period "month" then toLocaleDateString MonthShortDay d
  else if String.eqb period "year" || String.eqb period "quarter" then toLocaleDateString MonthLong d
  else toLocaleDateString LocaleDefault d.

(** [(a, b) => new Date(a[0]).getTime() - new Date(b[0]).getTime()];
    a [NaN] result counts as zero in [sort]. *)
Definition byLabelDate {V : Type} (a b : string * V) : Z :=
  match Date_getTime (fst a), Date_getTime (fst b) with
  | Some x, Some y => x - y
  | _, _ => 0
  end.

(** [m.get(key) || 0]. *)
Definition orZero (v : option float) : float :=
  match v with Some x => JS.orZero x | None => 0%float end.
Definition orZeroZ (v : option Z) : Z := match v with Some x => x | None => 0 end.

(** The body of [appointmentsInRange.forEach] that fills the two maps. *)
Definition bucketStep (period : string)
    (acc : list (string * float) * list (string * Z)) (app : Appointment)
    : list (string * float) * list (string * Z) :=
  let '(earningsData, appointmentsData) := acc in
  let key := labelFormat period (date app) in
  let earningsData' :=
    if bool_decide (status app = completed)
    then Map_upsert key (fun v => (orZero v + amount app)%float) earningsData
    else earningsData in
  (earningsData', Map_upsert key (fun v => orZeroZ v + 1) appointmentsData).

(** [$group: { _id: '$user', firstAppointment: { $min: '$date' } }]. *)
Definition groupFirstAppointment (apps : list Appointment) : list (nat * Z) :=
  fold_left (fun m a => Map_upsert (user a)
               (fun v => match v with Some d => Z.min d (date a) | None => date a end) m)
            apps [].

(** The aggregate behind [newClientIds]:
    [$match: { user: { $in: clientIds } }], the group above, then
    [$match: { firstAppointment: { $gte: startDate } }]. *)
Definition newClientIdsOf (apps : list Appointment) (clientIds : list nat) (startDate : Z)
    : list nat :=
  match clientIds with
  | [] => []
  | _ =>
      map fst
        (List.filter (fun g => startDate <=? snd g)
           (groupFirstAppointment
              (findAll (fun a => existsb (Nat.eqb (user a)) clientIds) apps)))
  end.

(** [averageRatingResult[0]?.avgRating || 0]: the [$avg] of the ratings of
    the therapist's completed, rated appointments, [0] when there is none. *)
Definition averageRatingOf (apps : list Appointment) (therapistId' : nat) : float :=
  let rated := omap rating
                 (findAll (fun a => Nat.eqb (therapist a) therapistId'
                                    && bool_decide (status a = completed)) apps) in
  match rated with
  | [] => 0%float
  | _ => JS.orZero (avgOf (map JS.Number_ofZ rated))
  end.

(** [app.user?._id?.toString()] after [populate('user')], kept by
    [filter(id => id)]: the client of an appointment, when the id names a
    user. *)
Definition populatedUser (User_findById : UserCollection) (app : Appointment) : option nat :=
  if User_findById (user app) then Some (user app) else None.

(** GET /analytics of the therapist routes (without [monthlyTrends]). *)
Definition therapistAnalytics (User_findById : UserCollection) (apps : list Appointment)
    (therapistId' : nat) (period : string) (now : Z) : TherapistAnalytics :=
  let startDate := startDateOf period now in
  let appointmentsInRange :=
    findAll (fun a => Nat.eqb (therapist a) therapistId' && (startDate <=? date a)) apps in
  let '(earningsData, appointmentsData) :=
    fold_left (bucketStep period) appointmentsInRange ([], []) in
  let sortedEarnings := sortBy byLabelDate earningsData in
  let sortedAppointments := sortBy byLabelDate appointmentsData in
  let clientIds := distinct [] (omap (populatedUser User_findById) appointmentsInRange) in
  let newClientIds := newClientIdsOf apps clientIds startDate in
  let newClientsCount := Z.of_nat (length newClientIds) in
  let sessionTypes' :=
    fold_left (fun m app => Map_upsert (sessionType app) (fun v => orZeroZ v + 1) m)
              appointmentsInRange [] in
  {| earnings := mkSeries (map fst sortedEarnings) (map snd sortedEarnings);
     appointments := mkSeries (map fst sortedAppointments) (map snd sortedAppointments);
     clientStats :=
       {| totalClients := Z.of_nat (length clientIds);
          newClients := newClientsCount;
          returningClients := Z.of_nat (length clientIds) - newClientsCount;
          averageRating := averageRatingOf apps therapistId' |};
     sessionTypes := sessionTypes' |}.

(** [result[0]?.total || 0] for a [$group] with [_id: null] and
    [total: { $sum: '$amount' }]: no group when no document matches. *)
Definition totalOf (matching : list Appointment) : float :=
  match matching with
  | [] => 0%float
  | _ => JS.orZero (sumOf (map amount matching))
  end.

(** [getPlatformStats]: the counts and the revenue total over the
    appointments created since [startDate] (the user, therapist and chat
    message counts of the same object are not part of the ledger). *)
Definition getPlatformStats (apps : list Appointment) (startDate : Z) : PlatformStats :=
  {| totalAppointments :=
       Z.of_nat (length (findAll (fun a => startDate <=? createdAt a) apps));
     completedAppointments :=
       Z.of_nat (length (findAll (fun a => bool_decide (status a = completed)
                                           && (startDate <=? createdAt a)) apps));
     totalRevenue :=
       totalOf (findAll (fun a => bool_decide (status a = completed)
                                  && (startDate <=? createdAt a)) apps) |}.

(** The documents of a [$group] stage, key by key: the amounts of a key's
    appointments in the order the stage receives them, and their number. *)
Definition groupAmounts {K : Type} `{EqDecision K} (key : Appointment -> K)
    (apps : list Appointment) : list (K * (list float * Z)) :=
  fold_left (fun m a => Map_upsert (key a)
               (fun v => match v with
                         | Some (amounts, count) => (amounts ++ [amount a], count + 1)
                         | None => ([amount a], 1)
                         end) m)
            apps [].

(** The [$group] stage of [getRevenueData]: per key, the [$sum] of the
    amounts and the number of appointments. *)
Definition groupRevenue (format : string) (apps : list Appointment)
    : list (string * (float * Z)) :=
  map (fun g => (fst g, (sumOf (fst (snd g)), snd (snd g))))
      (groupAmounts (fun a => dateToString format (date a)) apps).

(** [$sort: { _id: 1 }] on string keys. *)
Definition byKey {V : Type} (a b : string * V) : Z :=
  match String.compare (fst a) (fst b) with Lt => -1 | Eq => 0 | Gt => 1 end.

Definition getRevenueData (apps : list Appointment) (startDate : Z) (period : string)
    : RevenueData :=
  let format :=
    if String.eqb period "week" || String.eqb period "month" then "%Y-%m-%d" else "%Y-%m" in
  let revenue' :=
    sortBy byKey
      (groupRevenue format
         (findAll (fun a => bool_decide (status a = completed) && (startDate <=? date a)) apps)) in
  {| rev_labels := map fst revenue';
     revenue := map (fun r => fst (snd r)) revenue';
     rev_appointments := map (fun r => snd (snd r)) revenue' |}.

(** GET /analytics of the admin routes, restricted to the parts computed
    from the appointment ledger. *)
Definition adminAnalytics (apps : list Appointment) (period : string) (now : Z)
    : PlatformStats * RevenueData :=
  let startDate := startDateOf period now in
  (getPlatformStats apps startDate, getRevenueData apps startDate period).
End Analytics.

(** ** Further reports: status histogram, growth, dashboard, monthly trends *)

(** The string the schema stores for a status. *)
Definition statusName (s : Status) : string :=
  match s with
  | pending => "pending"
  | confirmed => "confirmed"
  | cancelled => "cancelled"
  | completed => "completed"
  | no_show => "no-show"
  end.

Record GrowthData := mkGrowthData {
  growth_labels : list string;
  growth_users : list Z;
  growth_therapists : list Z
}.

Record Dashboard := mkDashboard {
  dash_totalAppointments : Z;
  dash_pendingAppointments : Z;
  dash_completedThisMonth : Z;
  dash_totalEarnings : float
}.

(** [monthNames[d._id - 1]] is [undefined] when the index is off the array. *)
Record MonthlyTrends := mkMonthlyTrends {
  trend_labels : list (option string);
  trend_appointments : list Z;
  trend_earnings : list float
}.

(** [[...new Set(l)]] on strings. *)
Fixpoint distinctStrings (seen : list string) (l : list string) : list string :=
  match l with
  | [] => []
  | x :: l' =>
      if existsb (String.eqb x) seen then distinctStrings seen l'
      else x :: distinctStrings (x :: seen) l'
  end.

(** [.sort()] without a comparator, and [$sort: { _id: 1 }] on strings. *)
Definition byString (a b : string) : Z :=
  match String.compare a b with Lt => -1 | Eq => 0 | Gt => 1 end.

(** [$sort: { _id: 1 }] on numbers. *)
Definition byNumber {V : Type} (a b : Z * V) : Z :=
  match Z.compare (fst a) (fst b) with Lt => -1 | Eq => 0 | Gt => 1 end.

Definition monthNames : list string :=
  ["Jan"; "Feb"; "Mar"; "Apr"; "May"; "Jun"; "Jul"; "Aug"; "Sep"; "Oct"; "Nov"; "Dec"].

(** [monthNames[i]] for a JavaScript number [i] that holds an integer. *)
Definition monthName (i : Z) : option string :=
  if 0 <=? i then monthNames !! Z.to_nat i else None.

Section Reports.
Context `{Calendar} `{Aggregation}.

(** [getAppointmentStatus]: the appointments created since [startDate],
    counted by status.  The groups are listed in order of first
    occurrence; the database promises no order. *)
Definition getAppointmentStatus (apps : list Appointment) (startDate : Z) : Series Z :=
  let statuses :=
    fold_left (fun m a => Map_upsert (status a) (fun v => orZeroZ v + 1) m)
              (findAll (fun a => startDate <=? createdAt a) apps) [] in
  mkSeries (map (fun s => statusName (fst s)) statuses) (map snd statuses).

(** One [$match], [$group] by [$dateToString] of [createdAt], [$sort] stage
    of [getGrowthData], on the creation times of a collection. *)
Definition growthGroups (format : string) (startDate : Z) (created : list Z)
    : list (string * Z) :=
  sortBy byKey
    (fold_left (fun m t => Map_upsert (dateToString format t) (fun v => orZeroZ v + 1) m)
               (List.filter (fun t => startDate <=? t) created) []).

(** [groups.find(g => g._id === label)?.count || 0]. *)
Definition countAt (groups : list (string * Z)) (label : string) : Z :=
  match List.find (fun g => String.eqb (fst g) label) groups with
  | Some g => snd g
  | None => 0
  end.

(** [getGrowthData], from the creation times of the users and of the
    therapists. *)
Definition getGrowthData (usersCreatedAt therapistsCreatedAt : list Z)
    (startDate : Z) (period : string) : GrowthData :=
  let format :=
    if String.eqb period "week" || String.eqb period "month" then "%Y-%m-%d" else "%Y-%m" in
  let users := growthGroups format startDate usersCreatedAt in
  let therapists := growthGroups format startDate therapistsCreatedAt in
  let labels' := sortBy byString (distinctStrings [] (map fst users ++ map fst therapists)) in
  {| growth_labels := labels';
     growth_users := map (countAt users) labels';
     growth_therapists := map (countAt therapists) labels' |}.

(** GET /dashboard of the therapist routes. *)
Definition dashboard (apps : list Appointment) (therapistId' : nat) (today : Z) : Dashboard :=
  let startOfMonth := newDate (getFullYear today) (getMonth today) 1 in
  let endOfMonth := newDate (getFullYear today) (getMonth today + 1) 0 in
  {| dash_totalAppointments :=
       Z.of_nat (length (findAll (fun a => Nat.eqb (therapist a) therapistId') apps));
     dash_pendingAppointments :=
       Z.of_nat (length (findAll (fun a => Nat.eqb (therapist a) therapistId'
                                           && bool_decide (status a = pending)) apps));
     dash_completedThisMonth :=
       Z.of_nat (length (findAll (fun a => Nat.eqb (therapist a) therapistId'
                                           && bool_decide (status a = completed)
                                           && ((startOfMonth <=? date a) && (date a <=? endOfMonth)))
                                 apps));
     dash_totalEarnings :=
       totalOf (findAll (fun a => Nat.eqb (therapist a) therapistId'
                                  && bool_decide (status a = completed)) apps) |}.

(** The [monthlyData] aggregate of GET /analytics: the provider's completed
    appointments dated from [startDate] on, grouped by [$month], with their
    number and the sum of their amounts, sorted by month. *)
Definition monthlyData (apps : list Appointment) (therapistId' : nat) (startDate : Z)
    : list (Z * (Z * float)) :=
  sortBy byNumber
    (map (fun g => (fst g, (snd (snd g), sumOf (fst (snd g)))))
       (groupAmounts (fun a => monthOf (date a))
          (findAll (fun a => Nat.eqb (therapist a) therapistId'
                             && (startDate <=? date a)
                             && bool_decide (status a = completed)) apps))).

(** The [monthlyTrends] of GET /analytics, filled for the year view only. *)
Definition monthlyTrends (apps : list Appointment) (therapistId' : nat)
    (period : string) (now : Z) : MonthlyTrends :=
  if String.eqb period "year" then
    let monthlyData' := monthlyData apps therapistId' (startDateOf period now) in
    {| trend_labels := map (fun d => monthName (fst d - 1)) monthlyData';
       trend_appointments := map (fun d => fst (snd d)) monthlyData';
       trend_earnings := map (fun d => snd (snd d)) monthlyData' |}
  else {| trend_labels := []; trend_appointments := []; trend_earnings := [] |}.
End Reports.

(** ** Listings: GET /therapist of the appointment routes, GET /appointments
       of the therapist routes and of the user routes *)

(** The cursor methods of the database driver that the listing routes
    chain; they are the driver's, not the repository's.  The arguments of
    [skip] and [limit] are JavaScript numbers; [None] is a query the
    driver rejects, which the routes pass to [next(error)]. *)
Class QueryEngine := {
  Query_sort : forall {A : Type}, (A -> A -> Z) -> list A -> list A;
  Query_skip : forall {A : Type}, JS.number -> list A -> option (list A);
  Query_limit : forall {A : Type}, JS.number -> list A -> option (list A)
}.

Record ListResponse := mkListResponse {
  list_appointments : list Appointment;
  list_totalPages : option Z;      (* [null] in the JSON body when NaN or infinite *)
  list_currentPage : JS.number;
  list_total : Z
}.

(** [Math.ceil(total / limit)] as the JSON body shows it: a division by
    zero or by [NaN] gives [NaN] or an infinity, which are printed [null]. *)
Definition Math_ceil_div (total' : Z) (limit : JS.number) : option Z :=
  match limit with
  | Some l => if l =? 0 then None else Some (- ((- total') / l))
  | None => None
  end.

(** [if (status) filter.status = status]: an absent or empty [status]
    leaves the filter open. *)
Definition statusFilter (status' : option string) (a : Appointment) : bool :=
  match status' with
  | Some (String c s) => String.eqb (statusName (status a)) (String c s)
  | _ => true
  end.

(** [if (date) filter.date = new Date(date)], the date given as the
    epoch value it parses to. *)
Definition dateFilter (date' : option Z) (a : Appointment) : bool :=
  match date' with
  | Some d => Z.eqb (date a) d
  | None => true
  end.

(** [sort({ date: 1, startTime: 1 })]. *)
Definition byDateThenStartTime (a b : Appointment) : Z :=
  match Z.compare (date a) (date b) with
  | Lt => -1
  | Gt => 1
  | Eq => match String.compare (startTime a) (startTime b) with Lt => -1 | Eq => 0 | Gt => 1 end
  end.

(** [sort({ date: -1 })]. *)
Definition byDateDescending (a b : Appointment) : Z :=
  match Z.compare (date b) (date a) with Lt => -1 | Eq => 0 | Gt => 1 end.

Section Listings.
Context `{QueryEngine}.

(** GET /therapist of the appointment routes and GET /appointments of the
    therapist routes, which repeat each other line for line; [page] and
    [limit] are the values of [parseInt(page)] and [parseInt(limit)]. *)
Definition listTherapistAppointments (apps : list Appointment) (actor : nat)
    (status' : option string) (date' : option Z) (page limit : JS.number)
    : option ListResponse :=
  let filter := fun a => Nat.eqb (therapist a) actor && statusFilter status' a
                         && dateFilter date' a in
  match Query_skip (JS.mul (JS.add page (Some (-1))) limit)
          (Query_sort byDateThenStartTime (findAll filter apps)) with
  | None => None
  | Some skipped =>
      match Query_limit (JS.mul limit (Some 1)) skipped with
      | None => None
      | Some appointments' =>
          let total' := Z.of_nat (length (findAll filter apps)) in
          Some {| list_appointments := appointments';
                  list_totalPages := Math_ceil_div total' limit;
                  list_currentPage := page;
                  list_total := total' |}
      end
  end.

(** GET /appointments of the user routes. *)
Definition listUserAppointments (apps : list Appointment) (actor : nat)
    (status' : option string) (page limit : JS.number) : option ListResponse :=
  let filter := fun a => Nat.eqb (user a) actor && statusFilter status' a in
  match Query_skip (JS.mul (JS.add page (Some (-1))) limit)
          (Query_sort byDateDescending (findAll filter apps)) with
  | None => None
  | Some skipped =>
      match Query_limit (JS.mul limit (Some 1)) skipped with
      | None => None
      | Some appointments' =>
          let total' := Z.of_nat (length (findAll filter apps)) in
          Some {| list_appointments := appointments';
                  list_totalPages := Math_ceil_div total' limit;
                  list_currentPage := page;
                  list_total := total' |}
      end
  end.

(** GET /appointments/:id of the user routes:
    [findOne({ _id, user })]. *)
Definition getUserAppointment (apps : list Appointment) (id : nat) (actor : nat)
    : Response Appointment :=
  match findById (fun a => Nat.eqb (user a) actor) id apps with
  | None => Err NotFound
  | Some appointment => Ok appointment
  end.
End Listings.

(** ** The therapist collection: registration, profile, verification, status *)

(** The therapist collection as a list, the [_id] of a document being its
    position; no route deletes a therapist. *)
Definition Therapist_findById (therapists : list Therapist) : TherapistCollection :=
  fun id => therapists !! id.

(** POST /register/therapist, as far as the flags and the rate of the
    saved document go.  [valid] is the outcome of the validators on the
    fields the model does not carry, [existing] the outcome of the query
    for a therapist with the same email or licence number.  The saved
    document takes the schema defaults [isActive: true] and
    [isVerified: false]; the answer is its [_id]. *)
Definition registerTherapist (therapists : list Therapist) (valid existing : bool)
    (hourlyRate' : float) : list Therapist * Response nat :=
  if negb (valid && PrimFloat.leb 0 hourlyRate') then (therapists, Err ValidationError)
  else if existing then (therapists, Err ValidationError)
  else (therapists ++ [ {| isActive := true; isVerified := false; hourlyRate := hourlyRate' |} ],
        Ok (length therapists)).

(** The keys of a request body that are paths of the therapist schema,
    among the fields of the model. *)
Record TherapistUpdates := mkTherapistUpdates {
  upd_isActive : option bool;
  upd_isVerified : option bool;
  upd_hourlyRate : option float
}.

(** [{ $set: updates }]. *)
Definition applyUpdates (updates : TherapistUpdates) (th : Therapist) : Therapist :=
  {| isActive := match upd_isActive updates with Some b => b | None => isActive th end;
     isVerified := match upd_isVerified updates with Some b => b | None => isVerified th end;
     hourlyRate := match upd_hourlyRate updates with Some r => r | None => hourlyRate th end |}.

(** PUT /profile of the therapist routes: the validators look at the name,
    the bio, the lists and the rate ([hourlyRate] optional, a float of at
    least 0); the whole body is then handed to
    [findByIdAndUpdate(req.user._id, { $set: updates })].  The answer is
    the updated document, or [null]. *)
Definition updateProfile (therapists : list Therapist) (actor : nat)
    (updates : TherapistUpdates) : list Therapist * Response (option Therapist) :=
  if negb (match upd_hourlyRate updates with
           | Some r => PrimFloat.leb 0 r
           | None => true
           end)
  then (therapists, Err ValidationError)
  else match therapists !! actor with
       | None => (therapists, Ok None)
       | Some th =>
           (<[actor := applyUpdates updates th]> therapists, Ok (Some (applyUpdates updates th)))
       end.

(** PUT /therapists/:id/verify of the admin routes:
    [findByIdAndUpdate(id, { isVerified: true }, { new: true })]. *)
Definition verifyTherapist (therapists : list Therapist) (id : nat)
    : list Therapist * Response Therapist :=
  match therapists !! id with
  | None => (therapists, Err ProviderNotFound)
  | Some th =>
      let therapist' :=
        {| isActive := isActive th; isVerified := true; hourlyRate := hourlyRate th |} in
      (<[id := therapist']> therapists, Ok therapist')
  end.

(** PUT /users/:id/toggle-status of the admin routes with
    [userType = 'therapist']: [findById], then
    [findByIdAndUpdate(id, { $set: { isActive: !doc.isActive } })]. *)
Definition toggleTherapistStatus (therapists : list Therapist) (id : nat)
    : list Therapist * Response Therapist :=
  match therapists !! id with
  | None => (therapists, Err NotFound)
  | Some doc =>
      let user' :=
        {| isActive := negb (isActive doc); isVerified := isVerified doc;
           hourlyRate := hourlyRate doc |} in
      (<[id := user']> therapists, Ok user')
  end.



(** The filter of GET /therapists of the user routes:
    [{ $and: [{ isActive: true, isVerified: true }, ...] }], the further
    conditions (search, specialization, language, rating, price) being
    [further]. *)
Definition browseFilter (further : Therapist -> bool) (t : Therapist) : bool :=
  Bool.eqb (isActive t) true && Bool.eqb (isVerified t) true && further t.

(** ** Accounts, login and the authentication middleware *)

Inductive UserType := UserT | TherapistT | AdminT.

#[global] Instance UserType_eq_dec : EqDecision UserType.
Proof. solve_decision. Defined.

Definition userTypeName (t : UserType) : string :=
  match t with UserT => "user" | TherapistT => "therapist" | AdminT => "admin" end.

(** The fields of a user, therapist or admin document that the login
    routes and the middleware read or write. *)
Record Account := mkAccount {
  acc_email : string;
  acc_password : string;          (* the stored hash *)
  acc_isActive : bool;
  acc_lastLogin : option Z
}.

Record Database := mkDatabase {
  db_users : list Account;
  db_therapists : list Account;
  db_admins : list Account
}.

(** The decoded payload of a token: [{ userId, userType }], a field being
    [None] when it is missing or empty. *)
Record Payload := mkPayload {
  payload_userId : option nat;
  payload_userType : option string
}.

(** The library calls of the login routes and of the middleware:
    [bcrypt.compare(candidate, hash)], [jwt.sign({ userId, userType },
    secret, { expiresIn: '7d' })] at a time, and [jwt.verify(token,
    secret)] at a time, [None] when it throws. *)
Class Credentials := {
  bcrypt_compare : string -> string -> bool;
  jwt_sign : nat -> string -> Z -> string;
  jwt_verify : string -> Z -> option Payload
}.

(** [s.replace(pattern, replacement)] with a string pattern: the first
    occurrence only. *)
Fixpoint stripPrefix (pattern s : string) : option string :=
  match pattern, s with
  | EmptyString, _ => Some s
  | String a pattern', String b s' => if Ascii.eqb a b then stripPrefix pattern' s' else None
  | String _ _, EmptyString => None
  end.

Fixpoint String_replace (pattern replacement s : string) : string :=
  match stripPrefix pattern s with
  | Some rest => (replacement ++ rest)%string
  | None =>
      match s with
      | EmptyString => EmptyString
      | String c s' => String c (String_replace pattern replacement s')
      end
  end.

Inductive LoginResult :=
  | LoginRejected              (* 400 with the validator's errors, or 'Invalid user type' *)
  | InvalidCredentials         (* 'Invalid credentials' *)
  | AccountDeactivated         (* 401 'Account is deactivated' *)
  | LoggedIn (token : string) (id : nat).

Inductive AuthResult :=
  | NoToken                    (* 401 'No token, authorization denied' *)
  | TokenNotValid              (* 401 'Token is not valid' *)
  | TokenMissingData           (* 401 'Token is missing required data' *)
  | InvalidUserType            (* 401 'Invalid user type in token' *)
  | UserNotFound               (* 401 'Token is not valid, user not found' *)
  | Authenticated (id : nat) (userType : UserType).   (* next() with req.user, req.userType *)

(** [req.user] (by its [_id]) and [req.userType]. *)
Record AuthRequest := mkAuthRequest {
  auth_user : option nat;
  auth_userType : option UserType
}.

Inductive Guard :=
  | Next
  | Denied401                  (* 401 'Access denied' *)
  | Denied403.                 (* 403 'Access denied...' *)

Inductive MeResult :=
  | NotAuthenticated           (* 401 'Not authenticated' *)
  | Me (user' : nat) (userType : option UserType).

Section Authentication.
Context `{Credentials}.

(** [Model.findOne({ email })]: the first document with that email, with
    its [_id]. *)
Fixpoint findByEmail (email : string) (id : nat) (docs : list Account) : option (nat * Account) :=
  match docs with
  | [] => None
  | doc :: docs' =>
      if String.eqb (acc_email doc) email then Some (id, doc)
      else findByEmail email (S id) docs'
  end.

Definition withLastLogin (t : Z) (a : Account) : Account :=
  {| acc_email := acc_email a; acc_password := acc_password a;
     acc_isActive := acc_isActive a; acc_lastLogin := Some t |}.

(** The body of POST /login once [Model] is chosen. *)
Definition loginWith (docs : list Account) (userType : string) (email password : string)
    (now : Z) : list Account * LoginResult :=
  match findByEmail email 0 docs with
  | None => (docs, InvalidCredentials)
  | Some (id, user') =>
      if negb (acc_isActive user') then (docs, AccountDeactivated)
      else if negb (bcrypt_compare password (acc_password user')) then (docs, InvalidCredentials)
      else (<[id := withLastLogin now user']> docs, LoggedIn (jwt_sign id userType now) id)
  end.

(** POST /login.  [emailValid] is the outcome of [isEmail] on the email as
    sent, [email] the email after [normalizeEmail]. *)
Definition login (db : Database) (emailValid : bool) (email password userType : string)
    (now : Z) : Database * LoginResult :=
  let isIn := String.eqb userType "user" || String.eqb userType "therapist"
              || String.eqb userType "admin" in
  if negb (emailValid && negb (String.eqb password "") && isIn) then (db, LoginRejected)
  else if String.eqb userType "user" then
    let '(docs, r) := loginWith (db_users db) userType email password now in
    ({| db_users := docs; db_therapists := db_therapists db; db_admins := db_admins db |}, r)
  else if String.eqb userType "therapist" then
    let '(docs, r) := loginWith (db_therapists db) userType email password now in
    ({| db_users := db_users db; db_therapists := docs; db_admins := db_admins db |}, r)
  else if String.eqb userType "admin" then
    let '(docs, r) := loginWith (db_admins db) userType email password now in
    ({| db_users := db_users db; db_therapists := db_therapists db; db_admins := docs |}, r)
  else (db, LoginRejected).

(** The body shared by POST /login/therapist and POST /login/admin:
    neither looks at [isActive], neither writes [lastLogin]; the password
    only has to exist. *)
Definition loginDirect (docs : list Account) (userType : string) (emailValid : bool)
    (email : string) (password : option string) (now : Z) : LoginResult :=
  match password with
  | None => LoginRejected
  | Some password' =>
      if negb emailValid then LoginRejected
      else match findByEmail email 0 docs with
           | None => InvalidCredentials
           | Some (id, doc) =>
               if negb (bcrypt_compare password' (acc_password doc)) then InvalidCredentials
               else LoggedIn (jwt_sign id userType now) id
           end
  end.

(** POST /login/therapist. *)
Definition loginTherapist (db : Database) (emailValid : bool) (email : string)
    (password : option string) (now : Z) : LoginResult :=
  loginDirect (db_therapists db) "therapist" emailValid email password now.

(** POST /login/admin. *)
Definition loginAdmin (db : Database) (emailValid : bool) (email : string)
    (password : option string) (now : Z) : LoginResult :=
  loginDirect (db_admins db) "admin" emailValid email password now.

(** [authMiddleware], from the [Authorization] header. *)
Definition authMiddleware (db : Database) (authorization : option string) (now : Z)
    : AuthResult :=
  match option_map (String_replace "Bearer " "") authorization with
  | None | Some EmptyString => NoToken
  | Some token =>
      match jwt_verify token now with
      | None => TokenNotValid
      | Some decoded =>
          match payload_userId decoded, payload_userType decoded with
          | Some userId, Some userType =>
              if String.eqb userType "user" then
                match db_users db !! userId with
                | Some _ => Authenticated userId UserT
                | None => UserNotFound
                end
              else if String.eqb userType "therapist" then
                match db_therapists db !! userId with
                | Some _ => Authenticated userId TherapistT
                | None => UserNotFound
                end
              else if String.eqb userType "admin" then
                match db_admins db !! userId with
                | Some _ => Authenticated userId AdminT
                | None => UserNotFound
                end
              else InvalidUserType
          | _, _ => TokenMissingData
          end
      end
  end.

Definition requireUser (req : AuthRequest) : Guard :=
  match auth_user req with
  | None => Denied401
  | Some _ => Next
  end.

Definition requireTherapist (req : AuthRequest) : Guard :=
  match auth_user req, auth_userType req with
  | Some _, Some TherapistT => Next
  | _, _ => Denied403
  end.

Definition requireAdmin (req : AuthRequest) : Guard :=
  match auth_user req, auth_userType req with
  | Some _, Some AdminT => Next
  | _, _ => Denied403
  end.

Definition requireRole (roles : list UserType) (req : AuthRequest) : Guard :=
  match auth_user req with
  | None => Denied401
  | Some _ =>
      match auth_userType req with
      | None => Denied403
      | Some t => if existsb (fun r => bool_decide (r = t)) roles then Next else Denied403
      end
  end.

(** A router mounted as [app.use(path, authMiddleware, router)], for a
    route with the guard [guard]: the request reaches the handler with the
    [req.user] and [req.userType] the middleware has set. *)
Definition throughMiddleware (guard : AuthRequest -> Guard) (db : Database)
    (authorization : option string) (now : Z) : option (nat * UserType) :=
  match authMiddleware db authorization now with
  | Authenticated id userType =>
      match guard {| auth_user := Some id; auth_userType := Some userType |} with
      | Next => Some (id, userType)
      | _ => None
      end
  | _ => None
  end.

(** GET /me of the auth routes. *)
Definition me (req : AuthRequest) : MeResult :=
  match auth_user req with
  | None => NotAuthenticated
  | Some user' => Me user' (auth_userType req)
  end.

(** GET /api/auth/me as [index.ts] mounts it: [app.use('/api/auth',
    authRoutes)], without the middleware, so that nothing sets [req.user]
    whatever the request carries. *)
Definition me_as_mounted (db : Database) (authorization : option string) (now : Z)
    : MeResult :=
  me {| auth_user := None; auth_userType := None |}.
End Authentication.

(** ** The chat routes: POST /send, GET /history, GET /sessions *)

Inductive MessageType := FromUser | FromAI | FromSystem.

#[global] Instance MessageType_eq_dec : EqDecision MessageType.
Proof. solve_decision. Defined.

(** The fields of a chat message that the routes set or read. *)
Record ChatMessage := mkChatMessage {
  chat_user : nat;
  chat_sessionId : string;
  chat_message : string;
  chat_messageType : MessageType;
  chat_createdAt : Z
}.

Inductive Role := SystemRole | UserRole | AssistantRole.

(** [groqAI.chat.completions.create({ messages, ... })], together with
    [getGroqClient]: [None] when one of them throws, otherwise
    [completion.choices[0]?.message?.content], absent or not. *)
Class ChatModel := {
  createCompletion : list (Role * string) -> option (option string)
}.



Record HistoryResponse := mkHistoryResponse {
  history_messages : list ChatMessage;
  history_totalPages : option Z;
  history_currentPage : JS.number;
  history_total : Z
}.

Record Session := mkSession {
  session_id : string;
  lastMessage : string;
  lastTimestamp : Z
}.


(** [sort({ createdAt: -1 })]. *)
Definition byCreatedAtDescending (a b : ChatMessage) : Z :=
  match Z.compare (chat_createdAt b) (chat_createdAt a) with Lt => -1 | Eq => 0 | Gt => 1 end.

(** [$sort: { lastTimestamp: -1 }]. *)
Definition byLastTimestampDescending (a b : Session) : Z :=
  match Z.compare (lastTimestamp b) (lastTimestamp a) with Lt => -1 | Eq => 0 | Gt => 1 end.


Section Chat.
Context `{QueryEngine} `{ChatModel}.




(** GET /history; [page] and [limit] are the values of [parseInt(page)]
    and [parseInt(limit)]. *)
Definition history (messages : list ChatMessage) (actor : nat) (sessionId : option string)
    (page limit : JS.number) : option HistoryResponse :=
  let filter := fun m =>
    Nat.eqb (chat_user m) actor
    && match sessionId with
       | Some (String c s) => String.eqb (chat_sessionId m) (String c s)
       | _ => true
       end in
  match Query_skip (JS.mul (JS.add page (Some (-1))) limit)
          (Query_sort byCreatedAtDescending (List.filter filter messages)) with
  | None => None
  | Some skipped =>
      match Query_limit (JS.mul limit (Some 1)) skipped with
      | None => None
      | Some messages' =>
          let total' := Z.of_nat (length (List.filter filter messages)) in
          Some {| history_messages := rev messages';
                  history_totalPages := Math_ceil_div total' limit;
                  history_currentPage := page;
                  history_total := total' |}
      end
  end.

(** GET /sessions: [$match] on the user, [$group] by session with the
    [$last] message and creation time, taken in the order of the
    collection, [$sort] by the latter, descending. *)
Definition sessions (messages : list ChatMessage) (actor : nat) : list Session :=
  sortBy byLastTimestampDescending
    (map (fun g => {| session_id := fst g; lastMessage := fst (snd g);
                      lastTimestamp := snd (snd g) |})
       (fold_left (fun m msg => Map_upsert (chat_sessionId msg)
                     (fun _ => (chat_message msg, chat_createdAt msg)) m)
          (List.filter (fun m => Nat.eqb (chat_user m) actor) messages) [])).
End Chat.

(** * Vocabulary of the properties *)

(** ** Time of day *)

Definition digitChar (d : Z) : ascii := ascii_of_nat (48 + Z.to_nat d).

(** A number below 100 is printed on two digits. *)
Definition twoDigits (n : Z) : string :=
  String (digitChar (n / 10)) (String (digitChar (n mod 10)) EmptyString).

Definition time5 (a b c d : Z) : string :=
  String (digitChar a) (String (digitChar b)
    (String ":" (String (digitChar c) (String (digitChar d) EmptyString)))).

Definition time4 (b c d : Z) : string :=
  String (digitChar b) (String ":" (String (digitChar c) (String (digitChar d) EmptyString))).

Definition check5 (a b c d : Z) : bool :=
  implb (matchesStartTime (time5 a b c d))
    match startTimeMinutes (time5 a b c d) with
    | Some m => (0 <=? m) && (m <? 1440) && String.eqb (time5 a b c d) (formatTime (Some m))
    | None => false
    end.

Definition check4 (b c d : Z) : bool :=
  implb (matchesStartTime (time4 b c d))
    match startTimeMinutes (time4 b c d) with
    | Some m => (0 <=? m) && (m <? 600)
    | None => false
    end.

(** A start time is zero-padded when its hour has two digits. *)
Definition zeroPadded (s : string) : bool := Nat.eqb (String.length s) 5.

(** ** Booking *)

(** The interval test of the conflict query, on the stored strings:
    [a] starts before [b] ends and [b] starts before [a] ends. *)
Definition overlaps (aStart aEnd bStart bEnd : string) : bool :=
  String.ltb aStart bEnd && String.ltb bStart aEnd.

(** The provider the booking routes accept: found, active and verified. *)
Definition providerAvailable (ths : TherapistCollection) (id : nat) (th : Therapist) : Prop :=
  ths id = Some th /\ isActive th = true /\ isVerified th = true.

(** The provider's rate is one the therapist schema accepts ([min: 0]). *)
Definition rateAccepted (th : Therapist) : Prop := PrimFloat.leb 0 (hourlyRate th) = true.

(** The appointment a successful booking persists. *)
Definition bookedAppointment `{Runtime} (th : Therapist) (now : Z) (r : BookRequest)
    : Appointment :=
  newAppointment r (computeEndTime (req_startTime r) (req_duration r))
    (computeAmount (hourlyRate th) (req_duration r)) now.

(** An existing appointment the conflict query of a request selects. *)
Definition conflictsWith `{Runtime} (r : BookRequest) (a : Appointment) : Prop :=
  therapist a = therapistId r /\ date a = req_date r /\ is_active (status a) = true
  /\ overlaps (startTime a) (endTime a) (req_startTime r)
       (computeEndTime (req_startTime r) (req_duration r)) = true.

(** The requested interval and the interval of an appointment, read as
    times of day in minutes, intersect: each starts before the other ends.
    The end of the request is its start plus the number of its duration. *)
Definition requestOverlaps (r : BookRequest) (a : Appointment) : Prop :=
  minutesOf (req_startTime r) < minutesOf (endTime a)
  /\ minutesOf (startTime a) < minutesOf (req_startTime r) + durationNumber (req_duration r).

(** C10 as worded: every valid request whose start plus duration reaches
    24:00 is booked, and the hour field of the persisted end time is 24 or
    more. *)
Definition C10_as_worded : Prop :=
  forall (runtime : Runtime) ths now apps r m,
    validBookRequest r = true ->
    startTimeMinutes (req_startTime r) = Some m ->
    1440 <= m + durationNumber (req_duration r) ->
    isOk (snd (book ths now apps r)) = true
    /\ forall a, snd (book ths now apps r) = Ok a ->
         exists h, JS.parseInt (JS.split (endTime a) !! 0%nat) = Some h /\ 24 <= h.

(** ** Binary64 *)

(** A zero of either sign, a positive number or [+Infinity]. *)
Definition notNegative (x : spec_float) : bool :=
  match x with
  | S754_zero _ | S754_infinity false | S754_finite false _ _ => true
  | _ => false
  end.

Definition positiveFinite (x : spec_float) : bool :=
  match x with S754_finite false _ _ => true | _ => false end.

(** The rational number a finite binary64 value stands for; 0 for [NaN]
    and the infinities. *)
Definition exactValue (x : float) : Qc :=
  match Prim2SF x with
  | S754_finite s m e =>
      Q2Qc ((if s then -1 else 1) * inject_Z (Z.pos m) * Qpower 2 e)
  | _ => Q2Qc 0
  end.

(** Addition of rational numbers.  No sum that the code computes is a
    [rationalSum]: the code adds in binary64. *)
Definition rationalSum (l : list Qc) : Qc := foldr Qcplus (Q2Qc 0) l.

(** What binary64 values add up to as rational numbers, without rounding:
    the measure against which the sums of the reports are stated. *)
Definition exactSum (l : list float) : Qc := rationalSum (map exactValue l).

(** ** Lifecycle *)

(** The appointment [setStatus] saves. *)
Definition statusSetResult (newStatus : Status) (notes' cancellationReason' : option string)
    (a : Appointment) : Appointment :=
  let a1 := withStatus newStatus a in
  let a2 := if truthy notes' then withNotes notes' a1 else a1 in
  if truthy cancellationReason' then withCancellationReason cancellationReason' a2 else a2.

(** C3 as worded, for a status-set handler [h]: on an appointment of the
    acting provider it succeeds only from pending or confirmed, and from a
    terminal status it answers InvalidTransition and changes nothing. *)
Definition StatusSet_guarded
    (h : list Appointment -> nat -> nat -> Status -> list Appointment * Response Appointment)
    : Prop :=
  forall apps id actor newStatus a,
    apps !! id = Some a -> therapist a = actor -> validNewStatus newStatus = true ->
    (isOk (snd (h apps id actor newStatus)) = true -> is_active (status a) = true)
    /\ (is_terminal (status a) = true -> h apps id actor newStatus = (apps, Err InvalidTransition)).

(** C5 as worded, for the review handler: on an appointment of the
    requesting client it succeeds exactly when the status is completed and
    the rating is an integer of [1, 5], and when the status is not
    completed it answers NotReviewable and changes nothing. *)
Definition Review_as_worded : Prop :=
  forall apps id clientId a rating' review',
    apps !! id = Some a -> user a = clientId ->
    (isOk (snd (submitReview apps id clientId rating' review')) = true
       <-> status a = completed /\ 1 <= rating' <= 5)
    /\ (status a <> completed ->
        submitReview apps id clientId rating' review' = (apps, Err NotReviewable)).

(** ** Slots *)

(** The nine one-hour slots of the 09:00-18:00 grid. *)
Definition hourlyGrid : list Slot :=
  [ mkSlot "09:00" "10:00"; mkSlot "10:00" "11:00"; mkSlot "11:00" "12:00";
    mkSlot "12:00" "13:00"; mkSlot "13:00" "14:00"; mkSlot "14:00" "15:00";
    mkSlot "15:00" "16:00"; mkSlot "16:00" "17:00"; mkSlot "17:00" "18:00" ].

(** Some pending or confirmed appointment of the provider on the date
    starts at exactly the string [s]. *)
Definition startsAt (apps : list Appointment) (tid : nat) (d : Z) (s : string) : Prop :=
  exists a, In a apps /\ therapist a = tid /\ date a = d
            /\ is_active (status a) = true /\ startTime a = s.

(** The calendar day of an instant, in universal time. *)
Definition calendarDay (instant : Z) : Z := instant / (24 * 60 * 60 * 1000).

(** A day fully booked with hourly appointments: for every hour of the
    09:00-18:00 grid, a pending or confirmed appointment of the provider on
    the calendar day of [d] runs from that hour to the next. *)
Definition fullyBooked (apps : list Appointment) (tid : nat) (d : Z) : Prop :=
  forall h, 9 <= h < 18 ->
    exists a, In a apps /\ therapist a = tid /\ calendarDay (date a) = calendarDay d
              /\ is_active (status a) = true
              /\ minutesOf (startTime a) = h * 60 /\ minutesOf (endTime a) = (h + 1) * 60.

Definition gridFrom (n : nat) (hour : Z) : list Slot :=
  map (fun k => mkSlot (hourLabel k) (hourLabel (k + 1))) (seqZ hour (Z.of_nat n)).

(** Slots in ascending order of start time. *)
Definition ascending (slots : list Slot) : Prop :=
  StronglySorted
    (fun x y => minutesOf (slot_startTime x) < minutesOf (slot_startTime y)) slots.

(** ** The ledger as a state machine *)

(** The calls that write the appointment collection. *)
Inductive Op :=
  | OpBook (ths : TherapistCollection) (now : Z) (r : BookRequest)
  | OpSetStatus (id actor : nat) (newStatus : Status) (notes' reason' : option string)
  | OpUpdateStatus (id actor : nat) (newStatus : Status)
  | OpCancel (id clientId : nat)
  | OpSubmitReview (id clientId : nat) (rating' : Z) (review' : option string).

Definition step `{Runtime} (apps : list Appointment) (op : Op) : list Appointment :=
  match op with
  | OpBook ths now r => fst (book ths now apps r)
  | OpSetStatus id actor s n c => fst (setStatus apps id actor s n c)
  | OpUpdateStatus id actor s => fst (updateStatus apps id actor s)
  | OpCancel id clientId => fst (cancel apps id clientId)
  | OpSubmitReview id clientId r v => fst (submitReview apps id clientId r v)
  end.

(** The ledger reached from the empty collection by a sequence of calls. *)
Definition run `{Runtime} (ops : list Op) : list Appointment := fold_left step ops [].

(** Two appointments overlap when their [[startTime, endTime)] intervals,
    read as times of day, intersect. *)
Definition time_overlap (a b : Appointment) : Prop :=
  minutesOf (startTime a) < minutesOf (endTime b)
  /\ minutesOf (startTime b) < minutesOf (endTime a).

(** No two pending or confirmed appointments of one provider and date
    overlap. *)
Definition no_double_booking (apps : list Appointment) : Prop :=
  forall i j a b,
    i <> j -> apps !! i = Some a -> apps !! j = Some b ->
    therapist a = therapist b -> date a = date b ->
    is_active (status a) = true -> is_active (status b) = true ->
    ~ time_overlap a b.

(** A duration sent as a JSON number. *)
Definition sentAsNumber (d : Duration) : bool :=
  match d with DNumber _ => true | DString _ => false end.

(** The calls the invariant is stated for: a booking names its hour on two
    digits and its duration as a number, and a provider does not set an
    appointment of theirs that is cancelled, completed or no-show back to
    confirmed. *)
Definition admissible (apps : list Appointment) (op : Op) : bool :=
  match op with
  | OpBook _ _ r => zeroPadded (req_startTime r) && sentAsNumber (req_duration r)
  | OpSetStatus id actor confirmed _ _ | OpUpdateStatus id actor confirmed =>
      match apps !! id with
      | Some a => is_active (status a) || negb (Nat.eqb (therapist a) actor)
      | None => true
      end
  | _ => true
  end.

Fixpoint admissibleFrom `{Runtime} (apps : list Appointment) (ops : list Op) : bool :=
  match ops with
  | [] => true
  | op :: ops' => admissible apps op && admissibleFrom (step apps op) ops'
  end.

(** A stored appointment whose two times are formatted from minute counts. *)
Definition wellTimed (a : Appointment) : Prop :=
  exists m, 0 <= m < 1440 /\ 30 <= duration a <= 180
            /\ startTime a = formatTime (Some m)
            /\ endTime a = formatTime (Some (m + duration a)).

Definition ledgerInvariant (apps : list Appointment) : Prop :=
  (forall a, In a apps -> wellTimed a) /\ no_double_booking apps.

(** [x] occupies the slot of [y] and is pending or confirmed only if [y] is. *)
Definition sameSlot (x y : Appointment) : Prop :=
  therapist x = therapist y /\ date x = date y
  /\ startTime x = startTime y /\ endTime x = endTime y /\ duration x = duration y
  /\ (is_active (status x) = true -> is_active (status y) = true).

(** [x] is the booking [y]: same client, provider, date, times, duration,
    amount and creation time. *)
Definition sameBooking (x y : Appointment) : Prop :=
  user x = user y /\ therapist x = therapist y /\ date x = date y
  /\ startTime x = startTime y /\ endTime x = endTime y /\ duration x = duration y
  /\ amount x = amount y /\ createdAt x = createdAt y.

(** ** New clients *)

(** The earliest date among the appointments of client [u] in [l], with
    any provider, starting from [acc]. *)
Definition earliestFrom (acc : option Z) (l : list Appointment) (u : nat) : option Z :=
  fold_left (fun acc a =>
               if Nat.eqb (user a) u
               then Some (match acc with Some d => Z.min d (date a) | None => date a end)
               else acc) l acc.

(** In the words of the specification, for comparison with [newClientIdsOf]:
    the earliest date of the client's appointments with this provider. *)
Definition earliestWithProvider_as_specified (apps : list Appointment) (tid client : nat)
    : option Z :=
  fold_left (fun m a => Some (match m with Some d => Z.min d (date a) | None => date a end))
    (findAll (fun a => Nat.eqb (therapist a) tid && Nat.eqb (user a) client) apps) None.

(** In the words of the specification: the distinct clients of the window
    whose earliest-ever appointment with this provider falls inside it. *)
Definition newClients_as_specified `{Calendar} (apps : list Appointment) (tid : nat)
    (period : string) (now : Z) : list nat :=
  let startDate := startDateOf period now in
  List.filter
    (fun c => match earliestWithProvider_as_specified apps tid c with
              | Some d => startDate <=? d
              | None => false
              end)
    (distinct [] (map user
       (findAll (fun a => Nat.eqb (therapist a) tid && (startDate <=? date a)) apps))).

(** ** Example data *)

Definition exampleTherapist : Therapist :=
  {| isActive := true; isVerified := true; hourlyRate := 90%float |}.

(** A runtime for the examples, which computes with integers of any size. *)
#[local] Instance exampleRuntime : Runtime := {|
  hoursOfLongText t := JS.toString (JS.floorDiv60 (Some (JS.parseIntFrom 0 t)));
  minutesOfLongText t := JS.toString (JS.rem60 (Some (JS.parseIntFrom 0 t)))
|}.

(** One provider, with id 7. *)
Definition exampleTherapists : TherapistCollection :=
  fun id => if Nat.eqb id 7 then Some exampleTherapist else None.

Definition exampleRequest (client : nat) (start : string) (minutes : Z) : BookRequest :=
  {| req_user := client; therapistId := 7; req_date := 1704067200000;
     req_startTime := start; req_duration := DNumber minutes;
     req_sessionType := individual; req_sessionMode := video; req_notes := None |}.

(** The ledger after one booking of [start, start + minutes). *)
Definition ledgerWith (start : string) (minutes : Z) : list Appointment :=
  fst (book exampleTherapists 0 [] (exampleRequest 1 start minutes)).

(** A ledger whose only appointment, booked 09:00-10:00 by client 1 with
    provider 7, has the status [s]. *)
Definition ledgerInStatus (s : Status) : list Appointment :=
  [withStatus s (bookedAppointment exampleTherapist 0 (exampleRequest 1 "09:00" 60))].

(** A review text of 1001 characters. *)
Definition longReview : string := string_of_list_ascii (List.repeat "a"%char 1001).

(** Nine one-hour bookings, 09:00 to 17:00, by one client. *)
Definition fullDayRequests : list BookRequest :=
  map (fun s => exampleRequest 1 s 60)
      ["09:00"; "10:00"; "11:00"; "12:00"; "13:00"; "14:00"; "15:00"; "16:00"; "17:00"].

Definition fullDay : list Appointment :=
  fold_left (fun apps r => fst (book exampleTherapists 0 apps r)) fullDayRequests [].

(** The nine one-hour bookings of a 09:00-18:00 day, the first one sent
    with the start time "9:00". *)
Definition oneDigitDay : list Appointment :=
  run (map (fun s => OpBook exampleTherapists 0 (exampleRequest 1 s 60))
         ["9:00"; "10:00"; "11:00"; "12:00"; "13:00"; "14:00"; "15:00"; "16:00"; "17:00"]).

(** The nine one-hour bookings of a 09:00-18:00 day, dated
    2024-01-01T01:00:00Z. *)
Definition laterInstantDay : list Appointment :=
  run (map (fun s => OpBook exampleTherapists 0
                       {| req_user := 1; therapistId := 7;
                          req_date := 1704067200000 + 60 * 60 * 1000;
                          req_startTime := s; req_duration := DNumber 60;
                          req_sessionType := individual; req_sessionMode := video;
                          req_notes := None |})
         ["09:00"; "10:00"; "11:00"; "12:00"; "13:00"; "14:00"; "15:00"; "16:00"; "17:00"]).

(** Book 09:00-10:00, cancel it, book 09:00-10:00 again, then let the
    provider set the cancelled appointment to confirmed. *)
Definition reviveCancelled : list Op :=
  [ OpBook exampleTherapists 0 (exampleRequest 1 "09:00" 60);
    OpCancel 0 1;
    OpBook exampleTherapists 0 (exampleRequest 2 "09:00" 60);
    OpSetStatus 0 7 confirmed None None ].

(** A request with the duration sent as a string. *)
Definition stringRequest (client : nat) (start : string) (minutes : string) : BookRequest :=
  {| req_user := client; therapistId := 7; req_date := 1704067200000;
     req_startTime := start; req_duration := DString minutes;
     req_sessionType := individual; req_sessionMode := video; req_notes := None |}.

(** A request dated at a given instant. *)
Definition requestAt (client : nat) (instant : Z) (start : string) (minutes : Z) : BookRequest :=
  {| req_user := client; therapistId := 7; req_date := instant;
     req_startTime := start; req_duration := DNumber minutes;
     req_sessionType := individual; req_sessionMode := video; req_notes := None |}.

(** Four bookings (the second one refused), a confirmation, a
    cancellation and a booking of the hour set free. *)
Definition busyDay : list Op :=
  [ OpBook exampleTherapists 0 (exampleRequest 1 "09:00" 60);
    OpBook exampleTherapists 0 (exampleRequest 2 "09:30" 60);
    OpBook exampleTherapists 0 (exampleRequest 2 "10:00" 90);
    OpSetStatus 0 7 confirmed None None;
    OpBook exampleTherapists 0 (exampleRequest 3 "14:00" 60);
    OpCancel 1 2;
    OpBook exampleTherapists 0 (exampleRequest 3 "10:30" 30) ].

(** A calendar for the examples: years of 365 days and months of 30 days
    counted from the epoch, labels that print the day number. *)
Definition msPerDay : Z := 24 * 60 * 60 * 1000.

#[local] Instance exampleCalendar : Calendar := {|
  getFullYear t := 1970 + t / (365 * msPerDay);
  getMonth t := Z.min 11 ((t mod (365 * msPerDay)) / (30 * msPerDay));
  newDate y m d := ((y - 1970) * 365 + m * 30 + (d - 1)) * msPerDay;
  toLocaleDateString _ t := JS.toString (Some (t / msPerDay));
  Date_getTime label := JS.parseInt (Some label);
  dateToString _ t := JS.toString (Some (t / msPerDay))
|}.

(** The accumulators for the examples: [$month] of the example calendar,
    [$sum] by additions from the left, [$avg] as that sum divided by the
    number of its terms. *)
#[local] Instance exampleAggregation : Aggregation := {|
  monthOf t := getMonth t + 1;
  sumOf l := fold_left PrimFloat.add l 0%float;
  avgOf l := (fold_left PrimFloat.add l 0 / JS.Number_ofZ (Z.of_nat (length l)))%float
|}.

(** The ids below 7 name users; 7 and 8 are therapists. *)
Definition exampleUsers : UserCollection := fun id => Nat.ltb id 7.

(** Providers 7 and 8. *)
Definition twoTherapists : TherapistCollection :=
  fun id => if Nat.eqb id 7 || Nat.eqb id 8 then Some exampleTherapist else None.

Definition requestOn (client tid : nat) (day : Z) (start : string) (minutes : Z) : BookRequest :=
  {| req_user := client; therapistId := tid; req_date := day * msPerDay;
     req_startTime := start; req_duration := DNumber minutes;
     req_sessionType := individual; req_sessionMode := video; req_notes := None |}.

(** Client 1 saw provider 8 on day 19000 and books provider 7 for the first
    time on day 19720. *)
Definition secondProviderLedger : list Appointment :=
  run [ OpBook twoTherapists (19000 * msPerDay) (requestOn 1 8 19000 "09:00" 60);
        OpBook twoTherapists (19719 * msPerDay) (requestOn 1 7 19720 "09:00" 60) ].

(** An appointment created before the window for a date inside it, then
    completed. *)
Definition bookedAheadLedger : list Appointment :=
  run [ OpBook twoTherapists (19000 * msPerDay) (requestOn 1 7 19720 "09:00" 60);
        OpUpdateStatus 0 7 completed ].

(** Provider 9 charges 31 an hour. *)
Definition therapistAt31 : TherapistCollection :=
  fun id => if Nat.eqb id 9
            then Some {| isActive := true; isVerified := true; hourlyRate := 31%float |}
            else None.

(** Three sessions with provider 9, all completed: 30 minutes on day 19720,
    30 minutes on day 19721 and 50 minutes on day 19720 again, booked in
    this order on day 19719. *)
Definition roundedLedger : list Appointment :=
  run [ OpBook therapistAt31 (19719 * msPerDay) (requestOn 1 9 19720 "09:00" 30);
        OpBook therapistAt31 (19719 * msPerDay) (requestOn 2 9 19721 "09:00" 30);
        OpBook therapistAt31 (19719 * msPerDay) (requestOn 3 9 19720 "10:00" 50);
        OpUpdateStatus 0 9 completed;
        OpUpdateStatus 1 9 completed;
        OpUpdateStatus 2 9 completed ].

(** Three sessions with provider 7, who charges 90 an hour, all completed:
    30 minutes on day 19720, 60 minutes on day 19721 and 30 minutes on day
    19720 again. *)
Definition wholeAmountsLedger : list Appointment :=
  run [ OpBook exampleTherapists (19719 * msPerDay) (requestOn 1 7 19720 "09:00" 30);
        OpBook exampleTherapists (19719 * msPerDay) (requestOn 2 7 19721 "09:00" 60);
        OpBook exampleTherapists (19719 * msPerDay) (requestOn 3 7 19720 "10:00" 30);
        OpUpdateStatus 0 7 completed;
        OpUpdateStatus 1 7 completed;
        OpUpdateStatus 2 7 completed ].

(** ** Histograms and bucket sums *)

Definition sumZ (l : list Z) : Z := foldr Z.add 0 l.

(** The elements of [l] whose key is [k]. *)
Definition withKey {A K : Type} `{EqDecision K} (key : A -> K) (k : K) (l : list A) : list A :=
  List.filter (fun x => bool_decide (key x = k)) l.

(** The value a key-wise fold leaves for the key [k]: [g x] is applied, in
    order, for the elements [x] of [l] with that key. *)
Definition perKey {A K V : Type} `{EqDecision K} (key : A -> K) (g : A -> option V -> V)
    (k : K) (l : list A) (acc : option V) : option V :=
  fold_left (fun acc x => if decide (key x = k) then Some (g x acc) else acc) l acc.

(** The number the earnings map holds for a key once
    [m.set(key, (m.get(key) || 0) + x)] has run for the numbers [l], in
    order: binary64 additions from the left, a sum that has come to [0] or
    [NaN] counting as [0]. *)
Definition runningSum (l : list float) : float :=
  fold_left (fun s x => (JS.orZero s + x)%float) l 0%float.

(** The provider's appointments dated in the window of a report: the
    [appointmentsInRange] of the provider analytics. *)
Definition appointmentsInRange `{Calendar} (apps : list Appointment) (tid : nat)
    (period : string) (now : Z) : list Appointment :=
  findAll (fun a => Nat.eqb (therapist a) tid && (startDateOf period now <=? date a)) apps.

Definition isCompleted (a : Appointment) : bool := bool_decide (status a = completed).

(** The [format] of [getRevenueData]. *)
Definition revenueFormat (period : string) : string :=
  if String.eqb period "week" || String.eqb period "month" then "%Y-%m-%d" else "%Y-%m".

(** The completed appointments dated from [startDate] on: the [$match] of
    [getRevenueData]. *)
Definition completedSince (apps : list Appointment) (startDate : Z) : list Appointment :=
  findAll (fun a => bool_decide (status a = completed) && (startDate <=? date a)) apps.

(** ** What every stored appointment satisfies *)

(** The start time passed the validator, the duration is within the
    schema's bounds, the end time is the one computed from the start time
    and the duration as it was sent (a number, or a string with that
    number), the amount is not negative, no text exceeds its maximal
    length, a rating is a number of stars, nothing has ever been paid, and
    an appointment that is still pending carries no review, rating or
    cancellation reason. *)
Definition wellFormed `{Runtime} (a : Appointment) : Prop :=
  matchesStartTime (startTime a) = true
  /\ 30 <= duration a <= 180
  /\ (exists sent, validDuration sent = true /\ durationNumber sent = duration a
                   /\ endTime a = computeEndTime (startTime a) sent)
  /\ PrimFloat.leb 0 (amount a) = true
  /\ paymentStatus a = payment_pending
  /\ optLengthAtMost 1000 (notes a) = true
  /\ optLengthAtMost 500 (cancellationReason a) = true
  /\ optLengthAtMost 1000 (review a) = true
  /\ match rating a with Some r => 1 <= r <= 5 | None => True end
  /\ (status a = pending -> rating a = None /\ review a = None /\ cancellationReason a = None).

(** The bookings of a sequence of calls all send their duration as a
    number. *)
Definition numberDurations (ops : list Op) : bool :=
  forallb (fun op => match op with
                     | OpBook _ _ r => sentAsNumber (req_duration r)
                     | _ => true
                     end) ops.

(** An appointment whose end time is formatted from the minutes of its
    start plus its duration. *)
Definition timedByNumber (a : Appointment) : Prop :=
  exists m, 0 <= m < 1440 /\ 30 <= duration a <= 180
            /\ startTimeMinutes (startTime a) = Some m
            /\ endTime a = formatTime (Some (m + duration a)).

(** The ratings the average of a provider is taken over. *)
Definition ratedBy (apps : list Appointment) (tid : nat) : list Z :=
  omap rating (findAll (fun a => Nat.eqb (therapist a) tid
                                 && bool_decide (status a = completed)) apps).

(** ** Further reports *)

(** The appointments created from [startDate] on that have the status [s]. *)
Definition createdSinceWith (apps : list Appointment) (startDate : Z) (s : Status)
    : list Appointment :=
  findAll (fun a => bool_decide (status a = s) && (startDate <=? createdAt a)) apps.

(** The provider's completed appointments, of any date. *)
Definition completedOf (apps : list Appointment) (tid : nat) : list Appointment :=
  findAll (fun a => Nat.eqb (therapist a) tid && bool_decide (status a = completed)) apps.

(** The provider's completed appointments dated from [startDate] on. *)
Definition completedInRange (apps : list Appointment) (tid : nat) (startDate : Z)
    : list Appointment :=
  findAll (fun a => Nat.eqb (therapist a) tid && (startDate <=? date a)
                    && bool_decide (status a = completed)) apps.

(** The creation times from [startDate] on. *)
Definition createdSince (startDate : Z) (created : list Z) : list Z :=
  List.filter (fun t => startDate <=? t) created.

(** ** Listings *)

(** A comparator that orders any two elements, transitively. *)
Definition totalOrder {A} (cmp : A -> A -> Z) : Prop :=
  (forall x y, 0 < cmp x y -> cmp y x <= 0)
  /\ (forall x y z, cmp x y <= 0 -> cmp y z <= 0 -> cmp x z <= 0).

(** What the database documents for the cursor methods, for arguments in
    range: [sort] reorders the documents into an order the comparator
    accepts, whichever it picks among equals; [skip n] passes over the
    first [n] documents; [limit n] keeps the first [n]. *)
Definition lawful `{QueryEngine} : Prop :=
  (forall A (cmp : A -> A -> Z) l, Permutation (Query_sort cmp l) l)
  /\ (forall A (cmp : A -> A -> Z) l, totalOrder cmp ->
        StronglySorted (fun x y => cmp x y <= 0) (Query_sort cmp l))
  /\ (forall A n (l : list A), 0 <= n -> Query_skip (Some n) l = Some (drop (Z.to_nat n) l))
  /\ (forall A n (l : list A), 0 < n -> Query_limit (Some n) l = Some (take (Z.to_nat n) l)).

(** The filter of the therapist listings. *)
Definition therapistListFilter (actor : nat) (status' : option string) (date' : option Z)
    (a : Appointment) : bool :=
  Nat.eqb (therapist a) actor && statusFilter status' a && dateFilter date' a.

(** The filter of the user listing. *)
Definition userListFilter (actor : nat) (status' : option string) (a : Appointment) : bool :=
  Nat.eqb (user a) actor && statusFilter status' a.

(** Ascending by date and, within a date, by start time as a string. *)
Definition dateThenStartTime (a b : Appointment) : Prop :=
  date a < date b
  \/ (date a = date b /\ String.compare (startTime a) (startTime b) <> Gt).

(** The number of documents on page [p] of [total'] documents, [l] to a page. *)
Definition pageLength (total' p l : Z) : Z := Z.min l (Z.max 0 (total' - (p - 1) * l)).

(** An engine for the examples: insertion sort, [skip] and [limit] on
    natural numbers only. *)
#[local] Instance exampleEngine : QueryEngine := {|
  Query_sort A := @sortBy A;
  Query_skip A n l :=
    match n with
    | Some k => if 0 <=? k then Some (drop (Z.to_nat k) l) else None
    | None => None
    end;
  Query_limit A n l :=
    match n with
    | Some k => if 0 <? k then Some (take (Z.to_nat k) l) else None
    | None => None
    end
|}.

(** ** The therapist collection *)

(** The updates by which a therapist sets both flags of the own document. *)
Definition raiseBothFlags : TherapistUpdates :=
  {| upd_isActive := Some true; upd_isVerified := Some true; upd_hourlyRate := None |}.

(** A collection of one therapist, registered and not yet verified. *)
Definition oneRegistered : list Therapist :=
  fst (registerTherapist [] true false 90%float).

(** A request to the therapist with id 0. *)
Definition requestTo0 (start : string) (minutes : Z) : BookRequest :=
  {| req_user := 1; therapistId := 0; req_date := 1704067200000;
     req_startTime := start; req_duration := DNumber minutes;
     req_sessionType := individual; req_sessionMode := video; req_notes := None |}.

(** ** Accounts and tokens *)

Definition sevenDays : Z := 7 * 24 * 60 * 60 * 1000.

(** What the token library documents: within its seven days, a token
    signed for an account verifies to the payload it was signed for; and
    a token is not the empty string. *)
Definition tokensVerify `{Credentials} : Prop :=
  forall id ty t t',
    t <= t' < t + sevenDays ->
    jwt_verify (jwt_sign id (userTypeName ty) t) t'
      = Some {| payload_userId := Some id; payload_userType := Some (userTypeName ty) |}
    /\ jwt_sign id (userTypeName ty) t <> EmptyString.

(** The header that carries a token. *)
Definition bearer (token : string) : option string := Some ("Bearer " ++ token)%string.

(** Databases with the same documents up to the fields of the accounts:
    the same number of users, of therapists and of admins. *)
Definition sameIds (db db' : Database) : Prop :=
  length (db_users db) = length (db_users db')
  /\ length (db_therapists db) = length (db_therapists db')
  /\ length (db_admins db) = length (db_admins db').

(** Credentials for the examples: a hash is the password behind "hash:",
    a token is the user type, a colon and the id in unary; tokens do not
    expire. *)
Fixpoint unary (n : nat) : string :=
  match n with O => EmptyString | S n' => String "i" (unary n') end.

#[local] Instance exampleCredentials : Credentials := {|
  bcrypt_compare candidate hash := String.eqb ("hash:" ++ candidate)%string hash;
  jwt_sign id userType _ := (userType ++ ":" ++ unary id)%string;
  jwt_verify token _ :=
    match stripPrefix "user:" token with
    | Some rest => Some {| payload_userId := Some (String.length rest);
                           payload_userType := Some "user" |}
    | None =>
        match stripPrefix "therapist:" token with
        | Some rest => Some {| payload_userId := Some (String.length rest);
                               payload_userType := Some "therapist" |}
        | None =>
            match stripPrefix "admin:" token with
            | Some rest => Some {| payload_userId := Some (String.length rest);
                                   payload_userType := Some "admin" |}
            | None => None
            end
        end
    end
|}.

(** A database with one therapist account, deactivated. *)
Definition deactivatedTherapist : Account :=
  {| acc_email := "t@example.org"; acc_password := "hash:secret";
     acc_isActive := false; acc_lastLogin := None |}.

Definition exampleDatabase : Database :=
  {| db_users := [ {| acc_email := "u@example.org"; acc_password := "hash:letmein";
                      acc_isActive := true; acc_lastLogin := None |} ];
     db_therapists := [ deactivatedTherapist ];
     db_admins := [] |}.

(** ** Chat *)


(** The document POST /send saves for the message of the user. *)
Definition sentMessage (actor : nat) (sessionId message : string) (savedAt : Z) : ChatMessage :=
  {| chat_user := actor; chat_sessionId := sessionId; chat_message := message;
     chat_messageType := FromUser; chat_createdAt := savedAt |}.


(** The filter of GET /history. *)
Definition historyFilter (actor : nat) (sessionId : option string) (m : ChatMessage) : bool :=
  Nat.eqb (chat_user m) actor
  && match sessionId with
     | Some (String c s) => String.eqb (chat_sessionId m) (String c s)
     | _ => true
     end.

(** The messages of a user in a session, in the order of the collection. *)
Definition ownMessagesIn (messages : list ChatMessage) (actor : nat) (sessionId : string)
    : list ChatMessage :=
  withKey chat_sessionId sessionId (List.filter (fun m => Nat.eqb (chat_user m) actor) messages).

(** A model for the examples, which always gives the same answer. *)
#[local] Instance exampleChatModel : ChatModel := {|
  createCompletion _ := Some (Some "I hear you.")
|}.

(** Twenty messages that user 2 sent in the session "s", at times 0 to 19. *)
Definition twentyMessages : list ChatMessage :=
  map (fun t => sentMessage 2 "s" "hello" t) (seqZ 0 20).

(** * Properties *)

(** ** Bounded checks by evaluation *)

Lemma forallb_seqZ (P : Z -> bool) (n : Z) :
  forallb P (seqZ 0 n) = true -> forall x, 0 <= x < n -> P x = true.
Proof.
  intros Hall x Hx.
  rewrite forallb_forall in Hall. apply Hall.
  apply list_elem_of_In, elem_of_seqZ. lia.
Qed.

Ltac by_range n :=
  apply (forallb_seqZ _ n); vm_compute; reflexivity.

(** ** Time of day: digits, formatting and order *)

Lemma pad2_twoDigits n :
  0 <= n < 100 -> JS.padStart0 2 (JS.toString (Some n)) = twoDigits n.
Proof.
  intros Hn.
  apply String.eqb_eq.
  revert n Hn.
  by_range 100.
Qed.

Lemma isDigit_digitChar c :
  JS.isDigit c = true -> c = digitChar (JS.digitVal c) /\ 0 <= JS.digitVal c < 10.
Proof.
  destruct c as [b0 b1 b2 b3 b4 b5 b6 b7].
  destruct b0, b1, b2, b3, b4, b5, b6, b7; intros Hd;
    try (vm_compute in Hd; discriminate Hd);
    (split; [ reflexivity | vm_compute; split; [ intros Hc; discriminate Hc | reflexivity ] ]).
Qed.

Lemma compare_digitChar x y :
  0 <= x < 10 -> 0 <= y < 10 ->
  Ascii.compare (digitChar x) (digitChar y) = Z.compare x y.
Proof.
  intros Hx Hy.
  assert (forall a, 0 <= a < 10 ->
            forallb (fun b => bool_decide
              (Ascii.compare (digitChar a) (digitChar b) = Z.compare a b)) (seqZ 0 10) = true)
    as Hall by by_range 10.
  specialize (Hall x Hx).
  apply (forallb_seqZ _ 10) with (x := y) in Hall; [ | exact Hy ].
  apply bool_decide_eq_true in Hall. exact Hall.
Qed.

Lemma formatTime_digits m :
  0 <= m < 6000 ->
  formatTime (Some m) = (twoDigits (m / 60) ++ ":" ++ twoDigits (m mod 60))%string.
Proof.
  intros Hm. unfold formatTime. simpl JS.floorDiv60. simpl JS.rem60.
  rewrite Z.rem_mod_nonneg by lia.
  assert (0 <= m / 60 < 100) by (split; [ apply Z.div_pos | apply Z.div_lt_upper_bound ]; lia).
  assert (0 <= m mod 60 < 60) by (apply Z.mod_pos_bound; lia).
  rewrite !pad2_twoDigits by lia. reflexivity.
Qed.

Lemma compare_two_chars (c1 c2 d1 d2 : ascii) (s t : string) :
  String.compare (String c1 (String c2 EmptyString) ++ s) (String d1 (String d2 EmptyString) ++ t) =
  match Ascii.compare c1 d1 with
  | Eq => match Ascii.compare c2 d2 with Eq => String.compare s t | c => c end
  | c => c
  end.
Proof. reflexivity. Qed.

Lemma compare_twoDigits a b (s t : string) :
  0 <= a < 100 -> 0 <= b < 100 ->
  String.compare (twoDigits a ++ s) (twoDigits b ++ t) =
  match Z.compare a b with Eq => String.compare s t | c => c end.
Proof.
  intros Ha Hb. unfold twoDigits. rewrite compare_two_chars.
  assert (0 <= a / 10 < 10) by (split; [ apply Z.div_pos | apply Z.div_lt_upper_bound ]; lia).
  assert (0 <= b / 10 < 10) by (split; [ apply Z.div_pos | apply Z.div_lt_upper_bound ]; lia).
  assert (0 <= a mod 10 < 10) by (apply Z.mod_pos_bound; lia).
  assert (0 <= b mod 10 < 10) by (apply Z.mod_pos_bound; lia).
  rewrite !compare_digitChar by assumption.
  pose proof (Z.div_mod a 10 ltac:(lia)) as Ea.
  pose proof (Z.div_mod b 10 ltac:(lia)) as Eb.
  destruct (Z.compare_spec (a / 10) (b / 10)) as [E1 | L1 | G1];
    destruct (Z.compare_spec (a mod 10) (b mod 10)) as [E2 | L2 | G2];
    destruct (Z.compare_spec a b) as [E | L | G]; try reflexivity; lia.
Qed.

Lemma compare_colon (s t : string) :
  String.compare (":" ++ s) (":" ++ t) = String.compare s t.
Proof. reflexivity. Qed.

Lemma compare_twoDigits_nil a b :
  0 <= a < 100 -> 0 <= b < 100 ->
  String.compare (twoDigits a) (twoDigits b) = Z.compare a b.
Proof.
  intros Ha Hb.
  change (twoDigits a) with (twoDigits a ++ "")%string.
  change (twoDigits b) with (twoDigits b ++ "")%string.
  rewrite compare_twoDigits by assumption.
  destruct (Z.compare a b); reflexivity.
Qed.

(** On formatted times the string order is the order of the minutes: this
    is what lets the conflict query compare [HH:MM] strings. *)
Lemma formatTime_compare m1 m2 :
  0 <= m1 < 6000 -> 0 <= m2 < 6000 ->
  String.compare (formatTime (Some m1)) (formatTime (Some m2)) = Z.compare m1 m2.
Proof.
  intros H1 H2. rewrite !formatTime_digits by assumption.
  assert (0 <= m1 / 60 < 100) by (split; [ apply Z.div_pos | apply Z.div_lt_upper_bound ]; lia).
  assert (0 <= m2 / 60 < 100) by (split; [ apply Z.div_pos | apply Z.div_lt_upper_bound ]; lia).
  assert (0 <= m1 mod 60 < 60) by (apply Z.mod_pos_bound; lia).
  assert (0 <= m2 mod 60 < 60) by (apply Z.mod_pos_bound; lia).
  rewrite compare_twoDigits by assumption.
  rewrite compare_colon, compare_twoDigits_nil by lia.
  pose proof (Z.div_mod m1 60 ltac:(lia)) as E1.
  pose proof (Z.div_mod m2 60 ltac:(lia)) as E2.
  destruct (Z.compare_spec (m1 / 60) (m2 / 60)) as [E | L | G];
    destruct (Z.compare_spec (m1 mod 60) (m2 mod 60)) as [E' | L' | G'];
    destruct (Z.compare_spec m1 m2) as [E'' | L'' | G'']; try reflexivity; lia.
Qed.

Lemma formatTime_ltb m1 m2 :
  0 <= m1 < 6000 -> 0 <= m2 < 6000 ->
  String.ltb (formatTime (Some m1)) (formatTime (Some m2)) = (m1 <? m2).
Proof.
  intros H1 H2. unfold String.ltb, Z.ltb.
  rewrite formatTime_compare by assumption. reflexivity.
Qed.

(** Reading a formatted time back gives the minutes it was made from. *)
Lemma startTimeMinutes_formatTime m :
  0 <= m < 6000 -> startTimeMinutes (formatTime (Some m)) = Some m.
Proof.
  intros Hm.
  apply (bool_decide_eq_true_1 (startTimeMinutes (formatTime (Some m)) = Some m)).
  revert m Hm. by_range 6000.
Qed.

Lemma minutesOf_formatTime m :
  0 <= m < 6000 -> minutesOf (formatTime (Some m)) = m.
Proof.
  intros Hm. unfold minutesOf. rewrite startTimeMinutes_formatTime by assumption. reflexivity.
Qed.

(** The hour field of a formatted time. *)
Lemma hourField_formatTime m :
  0 <= m < 6000 ->
  JS.parseInt (JS.split (formatTime (Some m)) !! 0%nat) = Some (m / 60).
Proof.
  intros Hm.
  apply (bool_decide_eq_true_1
           (JS.parseInt (JS.split (formatTime (Some m)) !! 0%nat) = Some (m / 60))).
  revert m Hm. by_range 6000.
Qed.

(** ** Validated start times *)

Lemma range05_isDigit c :
  (Ascii.eqb c "0" || Ascii.eqb c "1" || Ascii.eqb c "2" || Ascii.eqb c "3"
   || Ascii.eqb c "4" || Ascii.eqb c "5") = true -> JS.isDigit c = true.
Proof.
  rewrite !orb_true_iff, !Ascii.eqb_eq.
  intros [[[[[-> | ->] | ->] | ->] | ->] | ->]; reflexivity.
Qed.

Lemma range03_isDigit c :
  (Ascii.eqb c "0" || Ascii.eqb c "1" || Ascii.eqb c "2" || Ascii.eqb c "3") = true ->
  JS.isDigit c = true.
Proof.
  rewrite !orb_true_iff, !Ascii.eqb_eq.
  intros [[[-> | ->] | ->] | ->]; reflexivity.
Qed.

(** The shape of a string the start-time pattern accepts. *)
Lemma matchesStartTime_shape s :
  matchesStartTime s = true ->
  (exists a b c d, 0 <= a < 10 /\ 0 <= b < 10 /\ 0 <= c < 10 /\ 0 <= d < 10 /\ s = time5 a b c d)
  \/ (exists b c d, 0 <= b < 10 /\ 0 <= c < 10 /\ 0 <= d < 10 /\ s = time4 b c d).
Proof.
  unfold matchesStartTime.
  destruct s as [ | c1 [ | c2 [ | c3 [ | c4 [ | c5 [ | c6 s ] ] ] ] ] ]; try discriminate.
  - (* one-digit hour *)
    rewrite !andb_true_iff. intros [[[H1 H2] H3] H4].
    apply Ascii.eqb_eq in H2. apply range05_isDigit in H3.
    apply isDigit_digitChar in H1 as [E1 B1].
    apply isDigit_digitChar in H3 as [E3 B3].
    apply isDigit_digitChar in H4 as [E4 B4].
    right. exists (JS.digitVal c1), (JS.digitVal c3), (JS.digitVal c4).
    unfold time4. rewrite <- E1, <- E3, <- E4, H2. auto.
  - (* two-digit hour *)
    rewrite !andb_true_iff. intros [[[H1 H2] H3] H4].
    apply Ascii.eqb_eq in H2. apply range05_isDigit in H3.
    assert (JS.isDigit c1 = true /\ JS.isDigit c2 = true) as [D1 D2].
    { apply orb_true_iff in H1 as [H1 | H1]; apply andb_true_iff in H1 as [Ha Hb].
      - split; [ | exact Hb ].
        apply orb_true_iff in Ha as [Ha | Ha]; apply Ascii.eqb_eq in Ha; subst; reflexivity.
      - split; [ apply Ascii.eqb_eq in Ha; subst; reflexivity | ].
        apply range03_isDigit. exact Hb. }
    apply isDigit_digitChar in D1 as [E1 B1].
    apply isDigit_digitChar in D2 as [E2 B2].
    apply isDigit_digitChar in H3 as [E3 B3].
    apply isDigit_digitChar in H4 as [E4 B4].
    left. exists (JS.digitVal c1), (JS.digitVal c2), (JS.digitVal c4), (JS.digitVal c5).
    unfold time5. rewrite <- E1, <- E2, <- E3, <- E4, H2. auto 10.
Qed.

Lemma check5_all a b c d :
  0 <= a < 10 -> 0 <= b < 10 -> 0 <= c < 10 -> 0 <= d < 10 -> check5 a b c d = true.
Proof.
  intros Ha Hb Hc Hd.
  assert (forallb (fun a => forallb (fun b => forallb (fun c => forallb (fun d =>
            check5 a b c d) (seqZ 0 10)) (seqZ 0 10)) (seqZ 0 10)) (seqZ 0 10) = true) as H
    by (vm_compute; reflexivity).
  pose proof (forallb_seqZ _ 10 H a Ha) as H1. cbv beta in H1.
  pose proof (forallb_seqZ _ 10 H1 b Hb) as H2. cbv beta in H2.
  pose proof (forallb_seqZ _ 10 H2 c Hc) as H3. cbv beta in H3.
  exact (forallb_seqZ _ 10 H3 d Hd).
Qed.

Lemma check4_all b c d :
  0 <= b < 10 -> 0 <= c < 10 -> 0 <= d < 10 -> check4 b c d = true.
Proof.
  intros Hb Hc Hd.
  assert (forallb (fun b => forallb (fun c => forallb (fun d =>
            check4 b c d) (seqZ 0 10)) (seqZ 0 10)) (seqZ 0 10) = true) as H
    by (vm_compute; reflexivity).
  pose proof (forallb_seqZ _ 10 H b Hb) as H1. cbv beta in H1.
  pose proof (forallb_seqZ _ 10 H1 c Hc) as H2. cbv beta in H2.
  exact (forallb_seqZ _ 10 H2 d Hd).
Qed.

(** A validated start time denotes a time of day: [parseInt] never meets
    [NaN] on it, and the minutes are below 24 * 60. *)
Lemma matchesStartTime_minutes s :
  matchesStartTime s = true -> exists m, startTimeMinutes s = Some m /\ 0 <= m < 1440.
Proof.
  intros Hs. destruct (matchesStartTime_shape s Hs)
    as [(a & b & c & d & Ha & Hb & Hc & Hd & ->) | (b & c & d & Hb & Hc & Hd & ->)].
  - pose proof (check5_all a b c d Ha Hb Hc Hd) as Hk. unfold check5 in Hk.
    rewrite Hs in Hk. cbn [implb] in Hk.
    destruct (startTimeMinutes (time5 a b c d)) as [m | ]; [ | discriminate ].
    exists m. split; [ reflexivity | ].
    rewrite !andb_true_iff in Hk. destruct Hk as [[K1 K2] _]. lia.
  - pose proof (check4_all b c d Hb Hc Hd) as Hk. unfold check4 in Hk.
    rewrite Hs in Hk. cbn [implb] in Hk.
    destruct (startTimeMinutes (time4 b c d)) as [m | ]; [ | discriminate ].
    exists m. split; [ reflexivity | ].
    rewrite !andb_true_iff in Hk. destruct Hk as [K1 K2]. lia.
Qed.

(** A zero-padded validated start time is the formatted form of its minutes. *)
Lemma matchesStartTime_padded s :
  matchesStartTime s = true -> zeroPadded s = true ->
  exists m, 0 <= m < 1440 /\ startTimeMinutes s = Some m /\ s = formatTime (Some m).
Proof.
  intros Hs Hp. destruct (matchesStartTime_shape s Hs)
    as [(a & b & c & d & Ha & Hb & Hc & Hd & ->) | (b & c & d & Hb & Hc & Hd & ->)].
  - pose proof (check5_all a b c d Ha Hb Hc Hd) as Hk. unfold check5 in Hk.
    rewrite Hs in Hk. cbn [implb] in Hk.
    destruct (startTimeMinutes (time5 a b c d)) as [m | ]; [ | discriminate ].
    rewrite !andb_true_iff in Hk. destruct Hk as [[K1 K2] K3].
    apply String.eqb_eq in K3.
    exists m. split; [ lia | split; [ reflexivity | exact K3 ] ].
  - unfold zeroPadded, time4 in Hp. cbn [String.length Nat.eqb] in Hp. discriminate Hp.
Qed.

(** ** Binary64 numbers that are not negative *)

(** A zero of either sign, a positive number or [+Infinity]. *)
Lemma leb_0_notNegative x : PrimFloat.leb 0 x = notNegative (Prim2SF x).
Proof.
  rewrite leb_spec. change (Prim2SF 0) with (S754_zero false).
  destruct (Prim2SF x) as [s | s | | s m e]; try destruct s; reflexivity.
Qed.

Lemma shr_1_nonneg mrs : 0 <= shr_m mrs -> 0 <= shr_m (shr_1 mrs).
Proof.
  destruct mrs as [m r s]. cbn [shr_m]. intros Hm.
  destruct m as [ | [p | p | ] | p]; cbn; lia.
Qed.

Lemma iter_pos_shr_1_nonneg p :
  forall mrs, 0 <= shr_m mrs -> 0 <= shr_m (SpecFloat.iter_pos shr_1 p mrs).
Proof.
  induction p as [p IH | p IH | ]; intros mrs Hm; cbn [SpecFloat.iter_pos].
  - apply IH, IH, shr_1_nonneg, Hm.
  - apply IH, IH, Hm.
  - apply shr_1_nonneg, Hm.
Qed.

Lemma shr_fexp_nonneg m e l :
  0 <= m -> 0 <= shr_m (fst (shr_fexp prec emax m e l)).
Proof.
  intros Hm. unfold shr_fexp, shr.
  assert (0 <= shr_m (shr_record_of_loc m l)) as H0
    by (destruct l as [ | [ | | ]]; exact Hm).
  destruct (fexp prec emax (Zdigits2 m + e) - e) as [ | p | p]; cbn [fst]; try exact H0.
  apply iter_pos_shr_1_nonneg, H0.
Qed.

Lemma round_nearest_even_nonneg m l : 0 <= m -> 0 <= round_nearest_even m l.
Proof.
  intros Hm. destruct l as [ | [ | | ]]; cbn [round_nearest_even]; try lia.
  destruct (Z.even m); lia.
Qed.

(** Rounding a magnitude with a positive sign gives no negative number and
    no [NaN]. *)
Lemma binary_round_aux_notNegative m e l :
  0 <= m -> notNegative (binary_round_aux prec emax false m e l) = true.
Proof.
  intros Hm. unfold binary_round_aux.
  pose proof (shr_fexp_nonneg m e l Hm) as H1.
  destruct (shr_fexp prec emax m e l) as [mrs' e'] eqn:E1. cbn [fst] in H1.
  pose proof (shr_fexp_nonneg (round_nearest_even (shr_m mrs') (loc_of_shr_record mrs')) e'
                loc_Exact (round_nearest_even_nonneg _ _ H1)) as H2.
  destruct (shr_fexp prec emax (round_nearest_even (shr_m mrs') (loc_of_shr_record mrs')) e'
              loc_Exact) as [mrs'' e''] eqn:E2.
  cbn [fst] in H2.
  destruct (shr_m mrs'') as [ | p | p]; [ reflexivity | | lia ].
  destruct (e'' <=? emax - prec); reflexivity.
Qed.

Lemma SFdiv_notNegative x my ey :
  notNegative x = true -> notNegative (SF64div x (S754_finite false my ey)) = true.
Proof.
  destruct x as [s | [ | ] | | [ | ] mx ex]; intros Hx; try discriminate Hx; try reflexivity.
  unfold SF64div, SFdiv.
  destruct (SFdiv_core_binary prec emax (Z.pos mx) ex (Z.pos my) ey) as [[mz ez] lz] eqn:E.
  cbn [xorb]. apply binary_round_aux_notNegative.
  unfold SFdiv_core_binary in E.
  set (m' := match _ - _ - _ with Z0 => _ | Zpos _ => _ | Zneg _ => _ end) in E.
  assert (0 <= m') as Hm'.
  { subst m'. destruct (_ - _ - _); try lia. apply Z.shiftl_nonneg. lia. }
  pose proof (Z.div_pos m' (Z.pos my) Hm' ltac:(lia)) as Hq.
  unfold Z.div in Hq. destruct (Z.div_eucl m' (Z.pos my)) as [q r].
  injection E as <- _ _. exact Hq.
Qed.

Lemma SFmul_notNegative x my ey :
  notNegative x = true -> notNegative (SF64mul x (S754_finite false my ey)) = true.
Proof.
  destruct x as [s | [ | ] | | [ | ] mx ex]; intros Hx; try discriminate Hx; try reflexivity.
  unfold SF64mul, SFmul. cbn [xorb]. apply binary_round_aux_notNegative. lia.
Qed.

Lemma Number_ofZ_positive n :
  30 <= n <= 180 -> positiveFinite (Prim2SF (JS.Number_ofZ n)) = true.
Proof.
  intros Hn.
  assert (forallb (fun k => positiveFinite (Prim2SF (JS.Number_ofZ (30 + k)))) (seqZ 0 151) = true)
    as Hall by (vm_compute; reflexivity).
  rewrite forallb_forall in Hall.
  replace n with (30 + (n - 30)) by lia. apply Hall.
  apply list_elem_of_In, elem_of_seqZ. lia.
Qed.

(** The amount of a rate that is not negative, for a number of minutes
    within the bounds of a duration, is not negative: the division and the
    multiplication keep the sign, whatever they round to. *)
Lemma amount_notNegative rate n :
  PrimFloat.leb 0 rate = true -> 30 <= n <= 180 ->
  PrimFloat.leb 0 (rate / 60 * JS.Number_ofZ n)%float = true.
Proof.
  intros Hr Hn. rewrite leb_0_notNegative in *. rewrite mul_spec, div_spec.
  pose proof (Number_ofZ_positive n Hn) as Hp.
  destruct (Prim2SF (JS.Number_ofZ n)) as [ | | | [ | ] m e]; try discriminate Hp.
  apply SFmul_notNegative.
  change (Prim2SF 60) with (S754_finite false 8444249301319680 (-47)).
  apply SFdiv_notNegative. exact Hr.
Qed.

(** ** Booking *)

Lemma conflictFilter_overlaps tid d s e a :
  conflictFilter tid d s e a =
  Nat.eqb (therapist a) tid && Z.eqb (date a) d && is_active (status a)
  && overlaps (startTime a) (endTime a) s e.
Proof. reflexivity. Qed.

Lemma conflictFilter_conflictsWith `{Runtime} r a :
  conflictFilter (therapistId r) (req_date r) (req_startTime r)
    (computeEndTime (req_startTime r) (req_duration r)) a = true <-> conflictsWith r a.
Proof.
  rewrite conflictFilter_overlaps. unfold conflictsWith.
  rewrite !andb_true_iff, Nat.eqb_eq, Z.eqb_eq. tauto.
Qed.

Lemma validDuration_number d :
  validDuration d = true -> 30 <= durationNumber d <= 180.
Proof.
  destruct d as [n | s]; cbn [validDuration durationNumber];
    rewrite !andb_true_iff, !Z.leb_le; tauto.
Qed.

Lemma validBookRequest_parts r :
  validBookRequest r = true ->
  matchesStartTime (req_startTime r) = true /\ validDuration (req_duration r) = true
  /\ 30 <= durationNumber (req_duration r) <= 180.
Proof.
  unfold validBookRequest. rewrite !andb_true_iff. intros [[Hs Hd] _].
  split; [ exact Hs | ]. split; [ exact Hd | ]. apply validDuration_number, Hd.
Qed.

(** The document of a valid request to a provider whose rate the schema
    accepts passes the check of [save]. *)
Lemma bookedAppointment_accepted `{Runtime} th now r :
  validBookRequest r = true -> rateAccepted th ->
  schemaAccepts (bookedAppointment th now r) = true.
Proof.
  intros Hv Hr. destruct (validBookRequest_parts r Hv) as (_ & _ & Hd).
  unfold schemaAccepts, bookedAppointment. cbn [amount newAppointment].
  apply amount_notNegative; assumption.
Qed.

(** The two answers of the conflict query to a valid request to an
    available provider. *)
Lemma prepareBooking_outcome `{Runtime} ths now apps r th :
  validBookRequest r = true -> providerAvailable ths (therapistId r) th ->
  ((exists a, In a apps /\ conflictsWith r a) /\ prepareBooking ths now apps r = Err SlotConflict)
  \/ ((forall a, In a apps -> ~ conflictsWith r a)
      /\ prepareBooking ths now apps r = Ok (bookedAppointment th now r)).
Proof.
  intros Hv (Hth & Hact & Hver). unfold prepareBooking.
  rewrite Hv, Hth, Hact, Hver. cbn [negb orb]. unfold findOne.
  destruct (List.find _ apps) as [c | ] eqn:Hfind.
  - left. apply find_some in Hfind as [Hin Hc].
    split; [ | reflexivity ]. exists c. split; [ exact Hin | ].
    apply conflictFilter_conflictsWith. exact Hc.
  - right. split; [ | reflexivity ].
    intros a Hin Hc. apply conflictFilter_conflictsWith in Hc.
    pose proof (find_none _ _ Hfind a Hin) as Hn. congruence.
Qed.

(** The two outcomes of a valid request to an available provider whose
    rate the schema accepts. *)
Lemma book_outcome `{Runtime} ths now apps r th :
  validBookRequest r = true -> providerAvailable ths (therapistId r) th -> rateAccepted th ->
  ((exists a, In a apps /\ conflictsWith r a) /\ book ths now apps r = (apps, Err SlotConflict))
  \/ ((forall a, In a apps -> ~ conflictsWith r a)
      /\ book ths now apps r = (apps ++ [bookedAppointment th now r], Ok (bookedAppointment th now r))).
Proof.
  intros Hv Hp Hr. unfold book.
  destruct (prepareBooking_outcome ths now apps r th Hv Hp) as [[Hex ->] | [Hno ->]].
  - left. split; [ exact Hex | reflexivity ].
  - right. split; [ exact Hno | ].
    unfold save. rewrite (bookedAppointment_accepted th now r Hv Hr). reflexivity.
Qed.

(** A request that does not pass the provider check is refused, whatever
    the ledger holds. *)
Lemma prepareBooking_unavailable `{Runtime} ths now apps r :
  validBookRequest r = true ->
  (forall th, ~ providerAvailable ths (therapistId r) th) ->
  prepareBooking ths now apps r = Err ProviderUnavailable.
Proof.
  intros Hv Hno. unfold prepareBooking. rewrite Hv. cbn [negb].
  destruct (ths (therapistId r)) as [th | ] eqn:Hth; [ | reflexivity ].
  destruct (isActive th) eqn:Hact; [ | reflexivity ].
  destruct (isVerified th) eqn:Hver; [ | reflexivity ].
  exfalso. apply (Hno th). repeat split; assumption.
Qed.

(** Whatever the request, a failing booking leaves the ledger as it was and
    a successful one appends exactly one appointment. *)
Lemma book_ledger `{Runtime} ths now apps r :
  match snd (book ths now apps r) with
  | Ok a => fst (book ths now apps r) = apps ++ [a]
  | Err _ => fst (book ths now apps r) = apps
  end.
Proof.
  unfold book, save.
  destruct (prepareBooking ths now apps r) as [a | e]; [ | reflexivity ].
  destruct (schemaAccepts a); reflexivity.
Qed.

Lemma book_Ok_inv `{Runtime} ths now apps r apps' a :
  book ths now apps r = (apps', Ok a) ->
  validBookRequest r = true
  /\ (exists th, providerAvailable ths (therapistId r) th /\ a = bookedAppointment th now r)
  /\ apps' = apps ++ [a]
  /\ (forall x, In x apps -> ~ conflictsWith r x)
  /\ schemaAccepts a = true.
Proof.
  unfold book, prepareBooking.
  destruct (validBookRequest r) eqn:Hv; cbn [negb]; [ | intros [=] ].
  destruct (ths (therapistId r)) as [th | ] eqn:Hth; [ | intros [=] ].
  destruct (isActive th) eqn:Hact; cbn [negb orb]; [ | intros [=] ].
  destruct (isVerified th) eqn:Hver; cbn [negb]; [ | intros [=] ].
  unfold findOne. destruct (List.find _ apps) eqn:Hfind; [ intros [=] | ].
  unfold save. fold (bookedAppointment th now r).
  destruct (schemaAccepts (bookedAppointment th now r)) eqn:Hs; [ | intros [=] ].
  intros [= <- <-]. split; [ reflexivity | ].
  split; [ exists th; repeat split; assumption | ].
  split; [ reflexivity | ].
  split; [ | exact Hs ].
  intros x Hin Hc. apply conflictFilter_conflictsWith in Hc.
  pose proof (find_none _ _ Hfind x Hin). congruence.
Qed.

Lemma exampleTherapist_available : providerAvailable exampleTherapists 7 exampleTherapist.
Proof. repeat split. Qed.

Lemma exampleTherapist_rateAccepted : rateAccepted exampleTherapist.
Proof. reflexivity. Qed.

(** *** The conflict test (C2) *)

(** C2 at the failing input.  The start-time pattern accepts "9:00", which
    is stored as sent with the end time "10:00".  A request for 09:30 to
    10:30 with the same provider on the same date overlaps that
    appointment, which is still pending; the conflict query compares the
    stored strings, finds "9:00" not below "10:30", and the request is
    booked. *)
Theorem C2_overlapping_request_is_booked :
  validBookRequest (exampleRequest 1 "9:00" 60) = true
  /\ ledgerWith "9:00" 60 = [bookedAppointment exampleTherapist 0 (exampleRequest 1 "9:00" 60)]
  /\ startTime (bookedAppointment exampleTherapist 0 (exampleRequest 1 "9:00" 60)) = "9:00"
  /\ endTime (bookedAppointment exampleTherapist 0 (exampleRequest 1 "9:00" 60)) = "10:00"
  /\ status (bookedAppointment exampleTherapist 0 (exampleRequest 1 "9:00" 60)) = pending
  /\ validBookRequest (exampleRequest 2 "09:30" 60) = true
  /\ computeEndTime "09:30" (DNumber 60) = "10:30"
  /\ requestOverlaps (exampleRequest 2 "09:30" 60)
       (bookedAppointment exampleTherapist 0 (exampleRequest 1 "9:00" 60))
  /\ String.ltb "9:00" "10:30" = false
  /\ book exampleTherapists 0 (ledgerWith "9:00" 60) (exampleRequest 2 "09:30" 60)
     = (ledgerWith "9:00" 60 ++ [bookedAppointment exampleTherapist 0 (exampleRequest 2 "09:30" 60)],
        Ok (bookedAppointment exampleTherapist 0 (exampleRequest 2 "09:30" 60))).
Proof.
  repeat split; try reflexivity; vm_compute; reflexivity.
Qed.

(** *** The price (C6) *)

(** A rate of 90 and a duration of 30 give exactly 45. *)
Lemma computeAmount_90_30 : computeAmount 90 (DNumber 30) = 45%float.
Proof. reflexivity. Qed.

(** The division is rounded before the multiplication: a rate of 31 for
    60 minutes gives 31.000000000000004. *)
Lemma computeAmount_31_60 :
  computeAmount 31 (DNumber 60) = 0x1.f000000000001p+4%float
  /\ computeAmount 31 (DNumber 60) <> 31%float.
Proof.
  split; [ reflexivity | ].
  intros E. apply (f_equal Prim2SF) in E. vm_compute in E. discriminate E.
Qed.

(** C6: a successful booking persists, as its last document, an appointment
    whose amount is the provider's hourly rate divided by 60 and multiplied
    by the duration, in the binary64 arithmetic of the code; a rate of 90
    and a duration of 30 give 45; the amount is not negative. *)
Theorem C6_amount_at_booking `{Runtime} ths now apps r apps' a :
  book ths now apps r = (apps', Ok a) ->
  exists th,
    ths (therapistId r) = Some th
    /\ apps' = apps ++ [a]
    /\ duration a = durationNumber (req_duration r)
    /\ amount a = (hourlyRate th / 60 * JS.Number_ofZ (duration a))%float
    /\ (hourlyRate th = 90%float -> duration a = 30 -> amount a = 45%float)
    /\ PrimFloat.leb 0 (amount a) = true.
Proof.
  intros Hbook.
  apply book_Ok_inv in Hbook as (_ & (th & (Hth & _ & _) & ->) & -> & _ & Hs).
  exists th. split; [ exact Hth | ]. split; [ reflexivity | ]. split; [ reflexivity | ].
  split; [ reflexivity | ].
  split; [ | exact Hs ].
  cbn [amount duration bookedAppointment newAppointment]. unfold computeAmount.
  intros -> ->. reflexivity.
Qed.

Lemma C6_amount_witness :
  exists th,
    exampleTherapists 7%nat = Some th
    /\ ledgerWith "09:00" 30 = [] ++ [bookedAppointment exampleTherapist 0 (exampleRequest 1 "09:00" 30)]
    /\ duration (bookedAppointment exampleTherapist 0 (exampleRequest 1 "09:00" 30))
       = durationNumber (DNumber 30)
    /\ amount (bookedAppointment exampleTherapist 0 (exampleRequest 1 "09:00" 30))
       = (hourlyRate th / 60
          * JS.Number_ofZ (duration (bookedAppointment exampleTherapist 0
                                       (exampleRequest 1 "09:00" 30))))%float
    /\ (hourlyRate th = 90%float ->
        duration (bookedAppointment exampleTherapist 0 (exampleRequest 1 "09:00" 30)) = 30 ->
        amount (bookedAppointment exampleTherapist 0 (exampleRequest 1 "09:00" 30)) = 45%float)
    /\ PrimFloat.leb 0 (amount (bookedAppointment exampleTherapist 0
                                  (exampleRequest 1 "09:00" 30))) = true.
Proof.
  exact (C6_amount_at_booking exampleTherapists 0 [] (exampleRequest 1 "09:00" 30)
           (ledgerWith "09:00" 30)
           (bookedAppointment exampleTherapist 0 (exampleRequest 1 "09:00" 30)) eq_refl).
Defined.

(** *** Bookings that run past midnight (C10) *)

Lemma formatTime_inj m1 m2 :
  0 <= m1 < 6000 -> 0 <= m2 < 6000 -> formatTime (Some m1) = formatTime (Some m2) -> m1 = m2.
Proof.
  intros H1 H2 E. apply (f_equal minutesOf) in E.
  rewrite !minutesOf_formatTime in E by assumption. exact E.
Qed.

(** C10, as worded, fails: a valid request for 23:00 and 120 minutes to an
    available provider is refused with SlotConflict when the provider has
    a pending appointment from 23:30 to 24:00 on that date. *)
Lemma C10_counterexample :
  validBookRequest (exampleRequest 2 "23:00" 120) = true
  /\ map (fun a => (startTime a, endTime a, status a)) (ledgerWith "23:30" 30)
     = [ ("23:30", "24:00", pending) ]
  /\ book exampleTherapists 0 (ledgerWith "23:30" 30) (exampleRequest 2 "23:00" 120)
     = (ledgerWith "23:30" 30, Err SlotConflict)
  /\ ~ C10_as_worded.
Proof.
  split; [ reflexivity | ]. split; [ vm_compute; reflexivity | ].
  split; [ vm_compute; reflexivity | ].
  intros Hclaim.
  destruct (Hclaim exampleRuntime exampleTherapists 0 (ledgerWith "23:30" 30)
              (exampleRequest 2 "23:00" 120) 1380 eq_refl eq_refl ltac:(cbn; lia))
    as [Hok _].
  vm_compute in Hok. discriminate Hok.
Qed.

(** With the duration sent as a string: "120" gives the end time
    "23002:00", the minutes 1380 and the text 120 written one after the
    other and then divided by 60; "+120" gives "NaN:NaN".  Both requests
    are booked, with the duration 120. *)
Lemma end_time_of_a_string_duration :
  computeEndTime "23:00" (DString "120") = "23002:00"
  /\ computeEndTime "23:00" (DString "+120") = "NaN:NaN"
  /\ computeEndTime "09:00" (DString "60") = "901:00"
  /\ (forall d, d = DString "120" \/ d = DString "+120" ->
        exists a,
          book exampleTherapists 0 []
            {| req_user := 1; therapistId := 7; req_date := 1704067200000;
               req_startTime := "23:00"; req_duration := d;
               req_sessionType := individual; req_sessionMode := video; req_notes := None |}
          = ([a], Ok a)
          /\ duration a = 120 /\ amount a = 180%float).
Proof.
  split; [ reflexivity | ]. split; [ reflexivity | ]. split; [ reflexivity | ].
  intros d [-> | ->]; eexists; (split; [ reflexivity | split; reflexivity ]).
Qed.

(** C10, amended: a valid request with the duration sent as a number, to
    an available provider whose rate the schema accepts, whose start plus
    duration reaches 24:00, is never answered with a validation error; its
    end time is formatted from the unwrapped minute count, so the hour
    field is 24 or more; and unless an existing appointment conflicts, the
    appointment is persisted with that end time. *)
Theorem C10_end_time_past_midnight `{Runtime} ths now apps r th m n :
  validBookRequest r = true -> providerAvailable ths (therapistId r) th -> rateAccepted th ->
  req_duration r = DNumber n ->
  startTimeMinutes (req_startTime r) = Some m ->
  1440 <= m + n ->
  computeEndTime (req_startTime r) (req_duration r) = formatTime (Some (m + n))
  /\ JS.parseInt (JS.split (computeEndTime (req_startTime r) (req_duration r)) !! 0%nat)
     = Some ((m + n) / 60)
  /\ 24 <= (m + n) / 60 <= 26
  /\ computeEndTime (req_startTime r) (req_duration r)
     <> formatTime (Some ((m + n) mod 1440))
  /\ ((exists a, In a apps /\ conflictsWith r a) ->
      book ths now apps r = (apps, Err SlotConflict))
  /\ ((forall a, In a apps -> ~ conflictsWith r a) ->
      book ths now apps r = (apps ++ [bookedAppointment th now r], Ok (bookedAppointment th now r))
      /\ endTime (bookedAppointment th now r) = formatTime (Some (m + n))).
Proof.
  intros Hv Hp Hr Hdur Hm Hcross.
  destruct (validBookRequest_parts r Hv) as (Hs & _ & Hd).
  rewrite Hdur in Hd. cbn [durationNumber] in Hd.
  destruct (matchesStartTime_minutes _ Hs) as (m' & Hm' & Hrange).
  rewrite Hm in Hm'. injection Hm' as <-.
  assert (computeEndTime (req_startTime r) (req_duration r)
          = formatTime (Some (m + n))) as He.
  { unfold computeEndTime, endTimeMinutes. rewrite Hdur, Hm. reflexivity. }
  assert (0 <= m + n < 6000) as Hb by lia.
  split; [ exact He | ]. rewrite He.
  split; [ apply hourField_formatTime; exact Hb | ].
  split.
  { split; [ apply Z.div_le_lower_bound; lia | ].
    assert ((m + n) / 60 < 27) by (apply Z.div_lt_upper_bound; lia). lia. }
  split.
  { intros E. apply formatTime_inj in E; [ | exact Hb | ].
    - pose proof (Z.mod_pos_bound (m + n) 1440 ltac:(lia)). lia.
    - pose proof (Z.mod_pos_bound (m + n) 1440 ltac:(lia)). lia. }
  assert (endTime (bookedAppointment th now r) = formatTime (Some (m + n))) as Hend
    by (unfold bookedAppointment; cbn [endTime newAppointment]; exact He).
  destruct (book_outcome ths now apps r th Hv Hp Hr) as [[Hex Hbk] | [Hno Hbk]]; rewrite Hbk.
  - split; [ reflexivity | ].
    intros Hfree. destruct Hex as (a & Hin & Hc). exfalso. exact (Hfree a Hin Hc).
  - split; [ | intros _; split; [ reflexivity | exact Hend ] ].
    intros (a & Hin & Hc). exfalso. exact (Hno a Hin Hc).
Qed.

(** 23:00 for 120 minutes is booked with the end time "25:00". *)
Lemma C10_end_time_witness :
  computeEndTime "23:00" (DNumber 120) = "25:00"
  /\ book exampleTherapists 0 [] (exampleRequest 1 "23:00" 120)
     = ([bookedAppointment exampleTherapist 0 (exampleRequest 1 "23:00" 120)],
        Ok (bookedAppointment exampleTherapist 0 (exampleRequest 1 "23:00" 120)))
  /\ endTime (bookedAppointment exampleTherapist 0 (exampleRequest 1 "23:00" 120)) = "25:00".
Proof.
  pose proof (C10_end_time_past_midnight exampleTherapists 0 [] (exampleRequest 1 "23:00" 120)
                exampleTherapist 1380 120 eq_refl exampleTherapist_available
                exampleTherapist_rateAccepted eq_refl eq_refl
                ltac:(cbn; lia)) as (He & _ & _ & _ & _ & Hbook).
  split; [ exact He | ].
  destruct (Hbook ltac:(intros a [])) as [Hb Hend].
  split; [ exact Hb | exact Hend ].
Defined.

(** ** Lifecycle *)

Lemma findById_Some filter id apps a :
  apps !! id = Some a -> findById filter id apps = if filter a then Some a else None.
Proof. intros H. unfold findById. rewrite H. reflexivity. Qed.

Lemma findById_None filter id apps :
  apps !! id = None -> findById filter id apps = None.
Proof. intros H. unfold findById. rewrite H. reflexivity. Qed.

Lemma is_active_cases s :
  is_active s = true <-> s = pending \/ s = confirmed.
Proof. destruct s; cbn; split; intros H; try tauto; try discriminate; destruct H; discriminate. Qed.

(** *** Provider-initiated status set (C3) *)

(** C3 fails on both status-set routes: a cancelled appointment is set to
    confirmed and the call succeeds. *)
Lemma C3_counterexample :
  ~ StatusSet_guarded (fun apps id actor s => setStatus apps id actor s None None)
  /\ ~ StatusSet_guarded updateStatus.
Proof.
  split; intros Hclaim.
  - destruct (Hclaim (ledgerInStatus cancelled) 0%nat 7%nat confirmed _ eq_refl eq_refl eq_refl)
      as [Honly _].
    specialize (Honly eq_refl). discriminate Honly.
  - destruct (Hclaim (ledgerInStatus cancelled) 0%nat 7%nat confirmed _ eq_refl eq_refl eq_refl)
      as [Honly _].
    specialize (Honly eq_refl). discriminate Honly.
Qed.

Lemma statusSetResult_fields s n c a :
  status (statusSetResult s n c a) = s
  /\ user (statusSetResult s n c a) = user a
  /\ therapist (statusSetResult s n c a) = therapist a
  /\ date (statusSetResult s n c a) = date a
  /\ startTime (statusSetResult s n c a) = startTime a
  /\ endTime (statusSetResult s n c a) = endTime a
  /\ duration (statusSetResult s n c a) = duration a
  /\ amount (statusSetResult s n c a) = amount a
  /\ rating (statusSetResult s n c a) = rating a
  /\ review (statusSetResult s n c a) = review a.
Proof.
  unfold statusSetResult. destruct (truthy n), (truthy c); cbn; repeat split; reflexivity.
Qed.

(** C3, amended: the status-set routes do not look at the current status.
    For an appointment of the acting provider and a new status among
    confirmed, cancelled, completed and no-show, both succeed from every
    current status, a terminal one included, and store the new status;
    neither ever answers InvalidTransition. *)
Theorem C3_status_set_from_any_status apps id actor a newStatus notes' reason' :
  apps !! id = Some a -> therapist a = actor ->
  validNewStatus newStatus = true ->
  optLengthAtMost 1000 notes' = true -> optLengthAtMost 500 reason' = true ->
  setStatus apps id actor newStatus notes' reason'
    = (<[id := statusSetResult newStatus notes' reason' a]> apps,
       Ok (statusSetResult newStatus notes' reason' a))
  /\ updateStatus apps id actor newStatus
    = (<[id := withStatus newStatus a]> apps, Ok (withStatus newStatus a))
  /\ status (statusSetResult newStatus notes' reason' a) = newStatus
  /\ status (withStatus newStatus a) = newStatus
  /\ fst (setStatus apps id actor newStatus notes' reason') !! id
     = Some (statusSetResult newStatus notes' reason' a)
  /\ (forall j, j <> id ->
        fst (setStatus apps id actor newStatus notes' reason') !! j = apps !! j).
Proof.
  intros Ha Hth Hs Hn Hc.
  assert (setStatus apps id actor newStatus notes' reason'
          = (<[id := statusSetResult newStatus notes' reason' a]> apps,
             Ok (statusSetResult newStatus notes' reason' a))) as Hset.
  { unfold setStatus. rewrite Hs, Hn, Hc. cbn [andb negb].
    rewrite (findById_Some _ _ _ _ Ha), Hth, Nat.eqb_refl. reflexivity. }
  split; [ exact Hset | ].
  split.
  { unfold updateStatus. rewrite Hs. cbn [negb].
    rewrite (findById_Some _ _ _ _ Ha), Hth, Nat.eqb_refl. reflexivity. }
  split; [ apply statusSetResult_fields | ].
  split; [ reflexivity | ].
  rewrite Hset. cbn [fst]. split.
  - apply list_lookup_insert_eq. apply lookup_lt_Some in Ha. exact Ha.
  - intros j Hj. apply list_lookup_insert_ne. congruence.
Qed.

(** Whatever the call, no status-set route answers InvalidTransition. *)
Lemma setStatus_never_InvalidTransition apps id actor s n c :
  snd (setStatus apps id actor s n c) <> Err InvalidTransition
  /\ snd (updateStatus apps id actor s) <> Err InvalidTransition.
Proof.
  unfold setStatus, updateStatus. split.
  - destruct (negb _); [ discriminate | ]. destruct (findById _ id apps); discriminate.
  - destruct (negb _); [ discriminate | ]. destruct (findById _ id apps); discriminate.
Qed.

(** An id that is not an appointment of the acting provider, be it unknown
    or another provider's, is NotFound on both routes, and nothing is
    written. *)
Lemma setStatus_NotFound apps id actor s n c :
  validNewStatus s = true -> optLengthAtMost 1000 n = true -> optLengthAtMost 500 c = true ->
  (forall a, apps !! id = Some a -> therapist a <> actor) ->
  setStatus apps id actor s n c = (apps, Err NotFound)
  /\ updateStatus apps id actor s = (apps, Err NotFound).
Proof.
  intros Hs Hn Hc Hnone. unfold setStatus, updateStatus, findById.
  rewrite Hs, Hn, Hc. cbn [andb negb].
  destruct (apps !! id) as [a | ] eqn:Ha; [ | split; reflexivity ].
  specialize (Hnone a eq_refl). apply Nat.eqb_neq in Hnone. rewrite Hnone. split; reflexivity.
Qed.

Lemma setStatus_NotFound_witness :
  setStatus (ledgerInStatus pending) 0 8 confirmed None None
    = (ledgerInStatus pending, Err NotFound)
  /\ updateStatus (ledgerInStatus pending) 0 8 confirmed = (ledgerInStatus pending, Err NotFound).
Proof.
  apply (setStatus_NotFound (ledgerInStatus pending) 0 8 confirmed None None
           eq_refl eq_refl eq_refl).
  intros a [= <-]. discriminate.
Defined.

Lemma C3_status_set_witness :
  setStatus (ledgerInStatus completed) 0 7 confirmed None None
    = (ledgerInStatus confirmed,
       Ok (withStatus confirmed (bookedAppointment exampleTherapist 0 (exampleRequest 1 "09:00" 60)))).
Proof.
  exact (proj1 (C3_status_set_from_any_status (ledgerInStatus completed) 0 7 _ confirmed None None
                  eq_refl eq_refl eq_refl eq_refl eq_refl)).
Defined.

(** *** Client-initiated cancellation (C4) *)

(** C4: on an appointment of the requesting client, [cancel] succeeds
    exactly when the status is pending or confirmed, and then stores the
    status cancelled and touches no other document; from completed,
    no-show or cancelled it fails and the ledger is unchanged. *)
Theorem C4_cancel_from_active_only apps id clientId a :
  apps !! id = Some a -> user a = clientId ->
  (isOk (snd (cancel apps id clientId)) = true <-> status a = pending \/ status a = confirmed)
  /\ (status a = pending \/ status a = confirmed ->
      cancel apps id clientId
        = (<[id := withStatus cancelled a]> apps, Ok (withStatus cancelled a))
      /\ status (withStatus cancelled a) = cancelled
      /\ fst (cancel apps id clientId) !! id = Some (withStatus cancelled a)
      /\ (forall j, j <> id -> fst (cancel apps id clientId) !! j = apps !! j))
  /\ (status a = completed \/ status a = no_show \/ status a = cancelled ->
      cancel apps id clientId = (apps, Err NotCancellable)).
Proof.
  intros Ha Hu. unfold cancel.
  rewrite (findById_Some _ _ _ _ Ha), Hu, Nat.eqb_refl. cbn [andb].
  destruct (is_active (status a)) eqn:Hact.
  - apply is_active_cases in Hact. cbn [snd fst isOk].
    split; [ tauto | ]. split.
    + intros _. repeat split.
      * apply list_lookup_insert_eq. apply lookup_lt_Some in Ha. exact Ha.
      * intros j Hj. apply list_lookup_insert_ne. congruence.
    + intros [E | [E | E]]; destruct Hact as [E' | E']; congruence.
  - cbn [snd fst isOk]. split; [ | split ].
    + split; [ discriminate | ]. intros Hs. apply is_active_cases in Hs. congruence.
    + intros Hs. apply is_active_cases in Hs. congruence.
    + intros _. reflexivity.
Qed.

Lemma C4_cancel_witness :
  cancel (ledgerInStatus confirmed) 0 1 = (ledgerInStatus cancelled,
    Ok (withStatus cancelled (bookedAppointment exampleTherapist 0 (exampleRequest 1 "09:00" 60))))
  /\ cancel (ledgerInStatus completed) 0 1 = (ledgerInStatus completed, Err NotCancellable).
Proof.
  split.
  - exact (proj1 (proj1 (proj2 (C4_cancel_from_active_only (ledgerInStatus confirmed) 0 1 _
                           eq_refl eq_refl)) (or_intror eq_refl))).
  - exact (proj2 (proj2 (C4_cancel_from_active_only (ledgerInStatus completed) 0 1 _
                           eq_refl eq_refl)) (or_introl eq_refl)).
Defined.

(** *** Review submission (C5) *)

(** C5 fails twice.  A completed appointment of the client with rating 5
    is refused when the review text has 1001 characters; and on a pending
    appointment a rating of 6 is answered with ValidationError, not with
    NotReviewable: the validators run before the appointment is read. *)
Lemma C5_counterexample :
  submitReview (ledgerInStatus completed) 0 1 5 (Some longReview)
    = (ledgerInStatus completed, Err ValidationError)
  /\ submitReview (ledgerInStatus pending) 0 1 6 None
     = (ledgerInStatus pending, Err ValidationError)
  /\ ~ Review_as_worded.
Proof.
  split; [ vm_compute; reflexivity | ]. split; [ vm_compute; reflexivity | ].
  intros Hclaim.
  destruct (Hclaim (ledgerInStatus pending) 0%nat 1%nat _ 6 None eq_refl eq_refl) as [_ Hnot].
  assert (submitReview (ledgerInStatus pending) 0 1 6 None
          = (ledgerInStatus pending, Err NotReviewable)) as Hr
    by (apply Hnot; vm_compute; discriminate).
  vm_compute in Hr. discriminate Hr.
Qed.

(** C5, amended: on an appointment of the requesting client,
    [submitReview] succeeds exactly when the status is completed, the
    rating is an integer of [1, 5] and the review, when given, has at most
    1000 characters; it then stores the rating and the review as given and
    leaves the status and every other document alone.  A request with such
    a rating and review on a status other than completed is answered
    NotReviewable; a request with another rating or a longer review is a
    ValidationError, whatever the status; in both cases the ledger is
    unchanged. *)
Theorem C5_review_needs_completed apps id clientId a rating' review' :
  apps !! id = Some a -> user a = clientId ->
  (isOk (snd (submitReview apps id clientId rating' review')) = true
     <-> status a = completed /\ 1 <= rating' <= 5 /\ optLengthAtMost 1000 review' = true)
  /\ (status a = completed -> 1 <= rating' <= 5 -> optLengthAtMost 1000 review' = true ->
      submitReview apps id clientId rating' review'
        = (<[id := withReview (Some rating') review' a]> apps,
           Ok (withReview (Some rating') review' a))
      /\ rating (withReview (Some rating') review' a) = Some rating'
      /\ review (withReview (Some rating') review' a) = review'
      /\ status (withReview (Some rating') review' a) = status a
      /\ (forall j, j <> id ->
            fst (submitReview apps id clientId rating' review') !! j = apps !! j))
  /\ (status a <> completed -> 1 <= rating' <= 5 -> optLengthAtMost 1000 review' = true ->
      submitReview apps id clientId rating' review' = (apps, Err NotReviewable))
  /\ (~ (1 <= rating' <= 5 /\ optLengthAtMost 1000 review' = true) ->
      submitReview apps id clientId rating' review' = (apps, Err ValidationError)).
Proof.
  intros Ha Hu. unfold submitReview.
  rewrite (findById_Some _ _ _ _ Ha), Hu, Nat.eqb_refl. cbn [andb].
  destruct ((1 <=? rating') && (rating' <=? 5) && optLengthAtMost 1000 review') eqn:Hvalid;
    cbn [negb].
  - apply andb_true_iff in Hvalid as [Hrate Hr].
    apply andb_true_iff in Hrate as [H1 H5]. apply Z.leb_le in H1, H5.
    destruct (bool_decide (status a = completed)) eqn:Hst.
    + apply bool_decide_eq_true_1 in Hst. cbn [snd fst isOk].
      split; [ split; [ intros _; split; [ exact Hst | split; [ lia | exact Hr ] ]
                      | reflexivity ] | ].
      split; [ | split; [ congruence | tauto ] ].
      intros _ _ _. repeat split.
      intros j Hj. apply list_lookup_insert_ne. congruence.
    + apply bool_decide_eq_false_1 in Hst. cbn [snd fst isOk].
      split; [ split; [ discriminate | tauto ] | ].
      split; [ tauto | ]. split; [ reflexivity | tauto ].
  - cbn [snd fst isOk].
    assert (~ (1 <= rating' <= 5 /\ optLengthAtMost 1000 review' = true)) as Hout.
    { intros [[H1 H5] Hr]. apply Z.leb_le in H1, H5. rewrite H1, H5, Hr in Hvalid.
      discriminate Hvalid. }
    split; [ split; [ discriminate | tauto ] | ].
    split; [ tauto | ]. split; [ tauto | reflexivity ].
Qed.

Lemma rating5_valid : 1 <= 5 <= 5.
Proof. lia. Qed.

(** The example of the specification: a completed appointment accepts a
    review with rating 5, a pending one rejects it with NotReviewable. *)
Lemma C5_review_witness :
  isOk (snd (submitReview (ledgerInStatus completed) 0 1 5 None)) = true
  /\ submitReview (ledgerInStatus pending) 0 1 5 None = (ledgerInStatus pending, Err NotReviewable).
Proof.
  split.
  - exact (proj2 (proj1 (C5_review_needs_completed (ledgerInStatus completed) 0 1 _ 5 None
                           eq_refl eq_refl)) (conj eq_refl (conj rating5_valid eq_refl))).
  - exact (proj1 (proj2 (proj2 (C5_review_needs_completed (ledgerInStatus pending) 0 1 _ 5 None
                           eq_refl eq_refl))) ltac:(discriminate) rating5_valid eq_refl).
Defined.

(** ** Slots *)

Lemma slotLoop_filter n hour booked :
  slotLoop n hour booked
  = List.filter (fun sl => negb (includes booked (slot_startTime sl))) (gridFrom n hour).
Proof.
  revert hour. induction n as [ | n IH]; intros hour; [ reflexivity | ].
  unfold gridFrom. rewrite Nat2Z.inj_succ, seqZ_cons by lia.
  replace (Z.pred (Z.succ (Z.of_nat n))) with (Z.of_nat n) by lia.
  cbn [slotLoop map List.filter slot_startTime].
  rewrite IH. unfold gridFrom.
  replace (Z.succ hour) with (hour + 1) by lia.
  destruct (negb (includes booked (hourLabel hour))); reflexivity.
Qed.

Lemma gridFrom_9_9 : gridFrom 9 9 = hourlyGrid.
Proof. vm_compute. reflexivity. Qed.

Lemma includes_startsAt apps tid d s :
  includes (map startTime (findAll (bookedFilter tid d) apps)) s = true <-> startsAt apps tid d s.
Proof.
  unfold includes, startsAt, findAll. rewrite existsb_exists. split.
  - intros (x & Hin & Hx). apply String.eqb_eq in Hx. subst x.
    apply in_map_iff in Hin as (a & Ha & Hin).
    apply filter_In in Hin as [Hin Hf]. unfold bookedFilter in Hf.
    rewrite !andb_true_iff, Nat.eqb_eq, Z.eqb_eq in Hf.
    exists a. tauto.
  - intros (a & Hin & Ht & Hd & Hact & Hs).
    exists s. split; [ | apply String.eqb_refl ].
    apply in_map_iff. exists a. split; [ exact Hs | ].
    apply filter_In. split; [ exact Hin | ].
    unfold bookedFilter. rewrite !andb_true_iff, Nat.eqb_eq, Z.eqb_eq. tauto.
Qed.

Lemma StronglySorted_filter {A} (R : A -> A -> Prop) (f : A -> bool) (l : list A) :
  StronglySorted R l -> StronglySorted R (List.filter f l).
Proof.
  induction 1 as [ | x l Hs IH Hall]; cbn; [ constructor | ].
  destruct (f x); [ | exact IH ].
  constructor; [ exact IH | ].
  rewrite List.Forall_forall in *. intros y Hy. apply filter_In in Hy as [Hy _].
  apply Hall. exact Hy.
Qed.

Lemma hourlyGrid_ascending : ascending hourlyGrid.
Proof.
  unfold ascending, hourlyGrid.
  repeat (constructor; [ | repeat (constructor; [ vm_compute; reflexivity | ]); constructor ]).
  constructor.
Qed.

(** For a provider that exists, [availableSlots] answers the slots of the
    hourly 09:00-18:00 grid, in the grid's ascending order, whose start
    string is not the start string of a pending or confirmed appointment
    of that provider dated at the instant asked for; when every grid start
    is so taken, the answer is empty. *)
Theorem available_slots_by_exact_start ths apps tid d th :
  ths tid = Some th ->
  exists slots,
    availableSlots ths apps tid (Some d) = Ok slots
    /\ slots = List.filter
                 (fun sl => negb (includes (map startTime (findAll (bookedFilter tid d) apps))
                                    (slot_startTime sl))) hourlyGrid
    /\ (forall sl, In sl slots <-> In sl hourlyGrid /\ ~ startsAt apps tid d (slot_startTime sl))
    /\ ascending slots
    /\ ((forall sl, In sl hourlyGrid -> startsAt apps tid d (slot_startTime sl)) -> slots = []).
Proof.
  intros Hth. eexists. split.
  { unfold availableSlots. rewrite Hth. rewrite slotLoop_filter, gridFrom_9_9. reflexivity. }
  split; [ reflexivity | ].
  split; [ | split ].
  - intros sl. rewrite filter_In, negb_true_iff.
    rewrite <- includes_startsAt.
    destruct (includes _ (slot_startTime sl)); split; intros [H1 H2]; split;
      try assumption; try discriminate; try congruence.
  - apply StronglySorted_filter. exact hourlyGrid_ascending.
  - intros Hfull.
    destruct (List.filter _ hourlyGrid) as [ | sl rest] eqn:Hf; [ reflexivity | exfalso ].
    assert (In sl (List.filter
              (fun sl => negb (includes (map startTime (findAll (bookedFilter tid d) apps))
                                 (slot_startTime sl))) hourlyGrid)) as Hin
      by (rewrite Hf; left; reflexivity).
    apply filter_In in Hin as [Hin Hfree]. apply negb_true_iff in Hfree.
    apply Hfull, includes_startsAt in Hin. congruence.
Qed.

(** The example of the specification: after the nine hourly bookings of a
    09:00-18:00 day no slot is left; on the empty ledger all nine are. *)
Lemma available_slots_by_exact_start_witness :
  availableSlots exampleTherapists fullDay 7 (Some 1704067200000) = Ok []
  /\ availableSlots exampleTherapists [] 7 (Some 1704067200000) = Ok hourlyGrid.
Proof.
  destruct (available_slots_by_exact_start exampleTherapists fullDay 7 1704067200000
              exampleTherapist eq_refl) as (slots & Hres & Hslots & _).
  destruct (available_slots_by_exact_start exampleTherapists [] 7 1704067200000
              exampleTherapist eq_refl) as (slots' & Hres' & Hslots' & _).
  split.
  - rewrite Hres, Hslots. vm_compute. reflexivity.
  - rewrite Hres', Hslots'. vm_compute. reflexivity.
Defined.

Lemma fullyBooked_by_evaluation apps tid d :
  forallb (fun h =>
             existsb (fun a => Nat.eqb (therapist a) tid
                               && (calendarDay (date a) =? calendarDay d)
                               && is_active (status a)
                               && (minutesOf (startTime a) =? h * 60)
                               && (minutesOf (endTime a) =? (h + 1) * 60)) apps)
          (seqZ 9 9) = true ->
  fullyBooked apps tid d.
Proof.
  intros Hall h Hh.
  assert (In h (seqZ 9 9)) as Hin by (apply list_elem_of_In, elem_of_seqZ; lia).
  pose proof (proj1 (forallb_forall _ _) Hall h Hin) as Hex.
  apply existsb_exists in Hex as (a & Ha & Hf).
  rewrite !andb_true_iff, Nat.eqb_eq, !Z.eqb_eq in Hf.
  exists a. tauto.
Qed.

(** C7 at the failing inputs.  Nine one-hour appointments of provider 7
    cover 09:00 to 18:00 of 2024-01-01, all pending; the first was booked
    with the start time "9:00", which the start-time pattern accepts and
    the route stores as sent.  The slot listing compares "09:00" with the
    stored strings and still offers 09:00-10:00.  And when the nine
    appointments are dated 2024-01-01T01:00:00Z, the listing for
    2024-01-01T00:00:00Z offers all nine slots: the query selects the
    appointments dated at the very instant asked for. *)
Theorem C7_fully_booked_day_lists_slots :
  map (fun a => (startTime a, endTime a, status a)) oneDigitDay
    = [ ("9:00", "10:00", pending); ("10:00", "11:00", pending); ("11:00", "12:00", pending);
        ("12:00", "13:00", pending); ("13:00", "14:00", pending); ("14:00", "15:00", pending);
        ("15:00", "16:00", pending); ("16:00", "17:00", pending); ("17:00", "18:00", pending) ]
  /\ fullyBooked oneDigitDay 7 1704067200000
  /\ availableSlots exampleTherapists oneDigitDay 7 (Some 1704067200000)
     = Ok [mkSlot "09:00" "10:00"]
  /\ length laterInstantDay = 9%nat
  /\ fullyBooked laterInstantDay 7 1704067200000
  /\ availableSlots exampleTherapists laterInstantDay 7 (Some 1704067200000) = Ok hourlyGrid.
Proof.
  split; [ vm_compute; reflexivity | ].
  split; [ apply fullyBooked_by_evaluation; vm_compute; reflexivity | ].
  split; [ vm_compute; reflexivity | ].
  split; [ vm_compute; reflexivity | ].
  split; [ apply fullyBooked_by_evaluation; vm_compute; reflexivity | ].
  vm_compute. reflexivity.
Qed.

(** ** The ledger as a state machine (C1) *)

(** C1 fails: the status-set route puts a cancelled appointment back to
    confirmed over a slot that has been booked again in the meantime. *)
Lemma C1_counterexample : ~ (forall (runtime : Runtime) ops, no_double_booking (run ops)).
Proof.
  intros Hclaim.
  refine (Hclaim exampleRuntime reviveCancelled 0%nat 1%nat _ _ _
            eq_refl eq_refl eq_refl eq_refl eq_refl eq_refl _).
  - discriminate.
  - vm_compute. split; reflexivity.
Qed.

Section LedgerInvariant.
Context `{Runtime}.

Lemma time_overlap_sym a b : time_overlap a b -> time_overlap b a.
Proof. unfold time_overlap. tauto. Qed.

(** On well-timed appointments the string test of the conflict query is
    the overlap of the times of day. *)
Lemma overlaps_time_overlap a b :
  wellTimed a -> wellTimed b ->
  overlaps (startTime a) (endTime a) (startTime b) (endTime b) = true <-> time_overlap a b.
Proof.
  intros (ma & Hma & Hda & Sa & Ea) (mb & Hmb & Hdb & Sb & Eb).
  unfold overlaps, time_overlap. rewrite Sa, Ea, Sb, Eb.
  rewrite !formatTime_ltb by lia. rewrite !minutesOf_formatTime by lia.
  rewrite andb_true_iff, !Z.ltb_lt. tauto.
Qed.

Lemma bookedAppointment_wellTimed th now r :
  validBookRequest r = true -> zeroPadded (req_startTime r) = true ->
  sentAsNumber (req_duration r) = true ->
  wellTimed (bookedAppointment th now r).
Proof.
  intros Hv Hp Hn. destruct (validBookRequest_parts r Hv) as (Hs & _ & Hd).
  destruct (matchesStartTime_padded _ Hs Hp) as (m & Hm & Hmin & Hfmt).
  exists m. cbn [duration startTime endTime bookedAppointment newAppointment].
  repeat split; try lia.
  - exact Hfmt.
  - unfold computeEndTime, endTimeMinutes.
    destruct (req_duration r) as [n | s]; [ | discriminate Hn ].
    rewrite Hmin. reflexivity.
Qed.

Lemma sameSlot_refl x : sameSlot x x.
Proof. unfold sameSlot. tauto. Qed.

Lemma lookup_update_sameSlot (apps : list Appointment) id a a' i x :
  apps !! id = Some a -> sameSlot a' a ->
  <[id := a']> apps !! i = Some x ->
  exists y, apps !! i = Some y /\ sameSlot x y.
Proof.
  intros Ha Hsame Hx. destruct (decide (i = id)) as [-> | Hne].
  - rewrite list_lookup_insert_eq in Hx by (apply lookup_lt_Some in Ha; exact Ha).
    injection Hx as <-. exists a. split; assumption.
  - rewrite list_lookup_insert_ne in Hx by congruence.
    exists x. split; [ exact Hx | apply sameSlot_refl ].
Qed.

Lemma ledgerInvariant_update apps id a a' :
  apps !! id = Some a -> sameSlot a' a ->
  ledgerInvariant apps -> ledgerInvariant (<[id := a']> apps).
Proof.
  intros Ha Hsame [Hwt Hndb]. split.
  - intros x Hin. apply list_elem_of_In, list_elem_of_lookup in Hin as [i Hi].
    destruct (lookup_update_sameSlot apps id a a' i x Ha Hsame Hi) as (y & Hy & Hxy).
    assert (In y apps) as Hiny by (apply list_elem_of_In, list_elem_of_lookup; eauto).
    destruct (Hwt y Hiny) as (m & Hm & Hd & Hs & He).
    destruct Hxy as (_ & _ & Es & Ee & Ed & _).
    exists m. rewrite Es, Ee, Ed. auto.
  - intros i j x1 x2 Hij H1 H2 Ht Hd Hact1 Hact2 Hov.
    destruct (lookup_update_sameSlot apps id a a' i x1 Ha Hsame H1) as (y1 & Hy1 & S1).
    destruct (lookup_update_sameSlot apps id a a' j x2 Ha Hsame H2) as (y2 & Hy2 & S2).
    destruct S1 as (T1 & D1 & Es1 & Ee1 & _ & A1).
    destruct S2 as (T2 & D2 & Es2 & Ee2 & _ & A2).
    apply (Hndb i j y1 y2 Hij Hy1 Hy2); try congruence; auto.
    unfold time_overlap in *. rewrite <- Es1, <- Ee1, <- Es2, <- Ee2. exact Hov.
Qed.

Lemma ledgerInvariant_book ths now apps r :
  zeroPadded (req_startTime r) = true -> sentAsNumber (req_duration r) = true ->
  ledgerInvariant apps -> ledgerInvariant (fst (book ths now apps r)).
Proof.
  intros Hp Hn [Hwt Hndb].
  destruct (book ths now apps r) as [apps' [a | e]] eqn:Hbook; cbn [fst].
  2:{ pose proof (book_ledger ths now apps r) as Hl. rewrite Hbook in Hl. cbn in Hl.
      subst apps'. split; assumption. }
  apply book_Ok_inv in Hbook as (Hv & (th & Hav & ->) & -> & Hfree & _).
  pose proof (bookedAppointment_wellTimed th now r Hv Hp Hn) as Hnew.
  assert (forall x, In x apps ->
            therapist x = therapistId r -> date x = req_date r ->
            is_active (status x) = true ->
            ~ time_overlap x (bookedAppointment th now r)) as Hclear.
  { intros x Hin Ht Hd Hact Hov.
    apply (Hfree x Hin). unfold conflictsWith. repeat split; try assumption.
    apply (overlaps_time_overlap x (bookedAppointment th now r)); auto. }
  split.
  - intros x Hin. apply in_app_or in Hin as [Hin | [<- | []]]; auto.
  - intros i j x1 x2 Hij H1 H2 Ht Hd Hact1 Hact2 Hov.
    destruct (decide (i < length apps)%nat) as [Hi | Hi];
      destruct (decide (j < length apps)%nat) as [Hj | Hj].
    + rewrite lookup_app_l in H1, H2 by assumption.
      exact (Hndb i j x1 x2 Hij H1 H2 Ht Hd Hact1 Hact2 Hov).
    + rewrite lookup_app_l in H1 by assumption.
      rewrite lookup_app_r in H2 by lia.
      destruct (j - length apps)%nat; [ | discriminate H2 ].
      injection H2 as <-.
      apply (Hclear x1); auto.
      apply list_elem_of_In, list_elem_of_lookup. eauto.
    + rewrite lookup_app_l in H2 by assumption.
      rewrite lookup_app_r in H1 by lia.
      destruct (i - length apps)%nat; [ | discriminate H1 ].
      injection H1 as <-.
      apply (Hclear x2); auto.
      * apply list_elem_of_In, list_elem_of_lookup. eauto.
      * apply time_overlap_sym. exact Hov.
    + rewrite lookup_app_r in H1, H2 by lia.
      destruct (i - length apps)%nat as [ | k] eqn:Ei; [ | destruct k; discriminate H1 ].
      destruct (j - length apps)%nat as [ | k] eqn:Ej; [ | destruct k; discriminate H2 ].
      lia.
Qed.

Lemma ledgerInvariant_step apps op :
  admissible apps op = true -> ledgerInvariant apps -> ledgerInvariant (step apps op).
Proof.
  intros Hadm Hinv. destruct op as [ths now r | id actor s n c | id actor s | id cl | id cl rt rv];
    cbn [step].
  - cbn [admissible] in Hadm. apply andb_true_iff in Hadm as [Hp Hn].
    apply ledgerInvariant_book; assumption.
  - unfold setStatus. destruct (negb _) eqn:Hvalid; [ exact Hinv | ].
    unfold findById. destruct (apps !! id) as [a | ] eqn:Ha; [ | exact Hinv ].
    destruct (Nat.eqb (therapist a) actor) eqn:Hactor; [ | exact Hinv ]. cbn [fst].
    apply (ledgerInvariant_update apps id a); [ exact Ha | | exact Hinv ].
    pose proof (statusSetResult_fields s n c a) as (Hs & _ & Ht & Hd & Hst & He & Hdu & _).
    fold (statusSetResult s n c a).
    unfold sameSlot. repeat split; try assumption.
    rewrite Hs.
    apply negb_false_iff in Hvalid. rewrite !andb_true_iff in Hvalid.
    destruct Hvalid as [[Hv _] _].
    destruct s; try discriminate; cbn [admissible] in Hadm;
      rewrite ?Ha, ?Hactor, ?orb_false_r in Hadm; auto.
  - unfold updateStatus. destruct (negb _) eqn:Hvalid; [ exact Hinv | ].
    unfold findById. destruct (apps !! id) as [a | ] eqn:Ha; [ | exact Hinv ].
    destruct (Nat.eqb (therapist a) actor) eqn:Hactor; [ | exact Hinv ]. cbn [fst].
    apply (ledgerInvariant_update apps id a); [ exact Ha | | exact Hinv ].
    unfold sameSlot. cbn. repeat split.
    apply negb_false_iff in Hvalid.
    destruct s; try discriminate; cbn [admissible] in Hadm;
      rewrite ?Ha, ?Hactor, ?orb_false_r in Hadm; auto.
  - unfold cancel, findById. destruct (apps !! id) as [a | ] eqn:Ha; [ | exact Hinv ].
    destruct (Nat.eqb (user a) cl && is_active (status a)); [ | exact Hinv ]. cbn [fst].
    apply (ledgerInvariant_update apps id a); [ exact Ha | | exact Hinv ].
    unfold sameSlot. cbn. repeat split. discriminate.
  - unfold submitReview. destruct (negb _); [ exact Hinv | ].
    unfold findById. destruct (apps !! id) as [a | ] eqn:Ha; [ | exact Hinv ].
    destruct (Nat.eqb (user a) cl && bool_decide (status a = completed)); [ | exact Hinv ].
    cbn [fst].
    apply (ledgerInvariant_update apps id a); [ exact Ha | | exact Hinv ].
    unfold sameSlot. cbn. repeat split. auto.
Qed.

Lemma ledgerInvariant_run apps ops :
  admissibleFrom apps ops = true -> ledgerInvariant apps ->
  ledgerInvariant (fold_left step ops apps).
Proof.
  revert apps. induction ops as [ | op ops IH]; intros apps Hadm Hinv; [ exact Hinv | ].
  cbn [admissibleFrom] in Hadm. apply andb_true_iff in Hadm as [H1 H2].
  cbn [fold_left]. apply IH; [ exact H2 | ].
  apply ledgerInvariant_step; assumption.
Qed.

Lemma ledgerInvariant_empty : ledgerInvariant [].
Proof.
  split; [ intros a [] | ].
  intros i j a b _ Ha. rewrite lookup_nil in Ha. discriminate Ha.
Qed.

(** C1, amended: in every ledger reached from the empty one by calls
    served one after the other, the bookings naming their hour on two
    digits and their duration as a number, the status-set calls other than
    those that put a cancelled, completed or no-show appointment back to
    confirmed, two pending or confirmed appointments of the same provider
    and with the same value of [date] never overlap. *)
Theorem C1_no_double_booking ops :
  admissibleFrom [] ops = true -> no_double_booking (run ops).
Proof.
  intros Hadm. exact (proj2 (ledgerInvariant_run [] ops Hadm ledgerInvariant_empty)).
Qed.

End LedgerInvariant.

(** A day that ends with three pending or confirmed appointments of one
    provider, back to back and apart. *)
Lemma C1_no_double_booking_witness :
  admissibleFrom [] busyDay = true
  /\ length (List.filter (fun a => is_active (status a)) (run busyDay)) = 3%nat
  /\ no_double_booking (run busyDay).
Proof.
  split; [ reflexivity | ]. split; [ reflexivity | ].
  exact (C1_no_double_booking busyDay eq_refl).
Defined.

(** *** Other ways to two bookings of one hour *)

(** A duration sent as the string "60" is appended to the minutes of the
    start: the appointment from 10:00 is stored with the end time
    "1001:00", which as a string is not above "10:00", and the conflict
    query of a second request for 10:00 does not select it. *)
Lemma string_duration_double_books :
  validBookRequest (stringRequest 1 "10:00" "60") = true
  /\ map endTime (run [ OpBook exampleTherapists 0 (stringRequest 1 "10:00" "60") ]) = ["1001:00"]
  /\ map (fun a => (startTime a, endTime a, duration a, status a))
       (run [ OpBook exampleTherapists 0 (stringRequest 1 "10:00" "60");
              OpBook exampleTherapists 0 (exampleRequest 2 "10:00" 60) ])
     = [ ("10:00", "1001:00", 60, pending); ("10:00", "11:00", 60, pending) ]
  /\ map (fun a => (startTime a, endTime a, duration a, status a))
       (run [ OpBook exampleTherapists 0 (exampleRequest 1 "10:00" 60);
              OpBook exampleTherapists 0 (stringRequest 2 "10:00" "60") ])
     = [ ("10:00", "11:00", 60, pending); ("10:00", "1001:00", 60, pending) ].
Proof. repeat split; vm_compute; reflexivity. Qed.

(** The conflict query selects the appointments whose [date] is the very
    instant of the request: two requests for 10:00 on one calendar day,
    one dated at midnight and one at noon of that day, are both booked. *)
Lemma other_time_of_day_double_books :
  calendarDay (req_date (requestAt 1 1704067200000 "10:00" 60))
    = calendarDay (req_date (requestAt 2 (1704067200000 + 12 * 60 * 60 * 1000) "10:00" 60))
  /\ map (fun a => (startTime a, endTime a, status a))
       (run [ OpBook exampleTherapists 0 (requestAt 1 1704067200000 "10:00" 60);
              OpBook exampleTherapists 0
                (requestAt 2 (1704067200000 + 12 * 60 * 60 * 1000) "10:00" 60) ])
     = [ ("10:00", "11:00", pending); ("10:00", "11:00", pending) ].
Proof. split; vm_compute; reflexivity. Qed.

(** Two requests served together are checked against the same collection:
    when the conflict query of each finds nothing, both documents are
    written, whatever the two intervals are. *)
Lemma bookTogether_writes_both `{Runtime} ths now apps r1 r2 a1 a2 :
  prepareBooking ths now apps r1 = Ok a1 -> prepareBooking ths now apps r2 = Ok a2 ->
  schemaAccepts a1 = true -> schemaAccepts a2 = true ->
  bookTogether ths now apps r1 r2 = apps ++ [a1; a2].
Proof.
  intros H1 H2 S1 S2. unfold bookTogether, save. rewrite H1, H2, S1, S2. cbn [fst].
  rewrite <- app_assoc. reflexivity.
Qed.

(** *** What no write changes *)

Lemma sameBooking_refl x : sameBooking x x.
Proof. unfold sameBooking. tauto. Qed.

Lemma lookup_update_sameBooking (apps : list Appointment) id a a' i x :
  apps !! id = Some a -> sameBooking a' a -> apps !! i = Some x ->
  exists x', <[id := a']> apps !! i = Some x' /\ sameBooking x' x.
Proof.
  intros Ha Hsame Hx. destruct (decide (i = id)) as [-> | Hne].
  - exists a'. split.
    + apply list_lookup_insert_eq. apply lookup_lt_Some in Ha. exact Ha.
    + rewrite Ha in Hx. injection Hx as <-. exact Hsame.
  - exists x. split; [ | apply sameBooking_refl ].
    rewrite list_lookup_insert_ne by congruence. exact Hx.
Qed.

(** No write deletes an appointment or changes whose it is, when it is,
    or what it costs: a document stored at an id is, after any call, still
    stored at that id with the same client, provider, date, times,
    duration, amount and creation time. *)
Theorem step_keeps_bookings `{Runtime} apps op i a :
  apps !! i = Some a ->
  exists a', step apps op !! i = Some a' /\ sameBooking a' a.
Proof.
  intros Hi.
  destruct op as [ths now r | id actor s n c | id actor s | id cl | id cl rt rv]; cbn [step].
  - pose proof (book_ledger ths now apps r) as Hl.
    destruct (snd (book ths now apps r)); rewrite Hl.
    + exists a. split; [ | apply sameBooking_refl ].
      rewrite lookup_app_l by (apply lookup_lt_Some in Hi; exact Hi). exact Hi.
    + exists a. split; [ exact Hi | apply sameBooking_refl ].
  - unfold setStatus. destruct (negb _); [ exists a; split; [ exact Hi | apply sameBooking_refl ] | ].
    unfold findById. destruct (apps !! id) as [b | ] eqn:Hb;
      [ | exists a; split; [ exact Hi | apply sameBooking_refl ] ].
    destruct (Nat.eqb (therapist b) actor);
      [ | exists a; split; [ exact Hi | apply sameBooking_refl ] ].
    cbn [fst]. apply (lookup_update_sameBooking apps id b); [ exact Hb | | exact Hi ].
    unfold sameBooking. destruct (truthy n), (truthy c); cbn; repeat split; reflexivity.
  - unfold updateStatus. destruct (negb _); [ exists a; split; [ exact Hi | apply sameBooking_refl ] | ].
    unfold findById. destruct (apps !! id) as [b | ] eqn:Hb;
      [ | exists a; split; [ exact Hi | apply sameBooking_refl ] ].
    destruct (Nat.eqb (therapist b) actor);
      [ | exists a; split; [ exact Hi | apply sameBooking_refl ] ].
    cbn [fst]. apply (lookup_update_sameBooking apps id b); [ exact Hb | | exact Hi ].
    unfold sameBooking. cbn. repeat split; reflexivity.
  - unfold cancel, findById. destruct (apps !! id) as [b | ] eqn:Hb;
      [ | exists a; split; [ exact Hi | apply sameBooking_refl ] ].
    destruct (Nat.eqb (user b) cl && is_active (status b));
      [ | exists a; split; [ exact Hi | apply sameBooking_refl ] ].
    cbn [fst]. apply (lookup_update_sameBooking apps id b); [ exact Hb | | exact Hi ].
    unfold sameBooking. cbn. repeat split; reflexivity.
  - unfold submitReview. destruct (negb _); [ exists a; split; [ exact Hi | apply sameBooking_refl ] | ].
    unfold findById. destruct (apps !! id) as [b | ] eqn:Hb;
      [ | exists a; split; [ exact Hi | apply sameBooking_refl ] ].
    destruct (Nat.eqb (user b) cl && bool_decide (status b = completed));
      [ | exists a; split; [ exact Hi | apply sameBooking_refl ] ].
    cbn [fst]. apply (lookup_update_sameBooking apps id b); [ exact Hb | | exact Hi ].
    unfold sameBooking. cbn. repeat split; reflexivity.
Qed.

Lemma step_keeps_bookings_witness :
  exists a', step (ledgerInStatus pending) (OpCancel 0 1) !! 0%nat = Some a'
             /\ sameBooking a' (withStatus pending
                                  (bookedAppointment exampleTherapist 0 (exampleRequest 1 "09:00" 60))).
Proof.
  exact (step_keeps_bookings (ledgerInStatus pending) (OpCancel 0 1) 0 _ eq_refl).
Defined.

(** ** Analytics *)

(** *** Sorting and filtering *)

Lemma insertBy_Permutation {A} (cmp : A -> A -> Z) x l :
  Permutation (insertBy cmp x l) (x :: l).
Proof.
  induction l as [ | y l IH]; cbn [insertBy]; [ reflexivity | ].
  destruct (cmp x y <=? 0); [ reflexivity | ].
  rewrite IH. apply perm_swap.
Qed.

Lemma sortBy_cons {A} (cmp : A -> A -> Z) x l :
  sortBy cmp (x :: l) = insertBy cmp x (sortBy cmp l).
Proof. reflexivity. Qed.

Lemma sortBy_Permutation {A} (cmp : A -> A -> Z) l : Permutation (sortBy cmp l) l.
Proof.
  induction l as [ | x l IH]; [ reflexivity | ].
  rewrite sortBy_cons, insertBy_Permutation, IH. reflexivity.
Qed.

Lemma filter_filter_andb {A} (f g : A -> bool) (l : list A) :
  List.filter f (List.filter g l) = List.filter (fun x => g x && f x) l.
Proof.
  induction l as [ | x l IH]; [ reflexivity | ].
  cbn [List.filter]. destruct (g x); cbn [List.filter andb]; rewrite IH; reflexivity.
Qed.

Lemma filter_none {A} (f : A -> bool) (l : list A) :
  (forall x, In x l -> f x = false) -> List.filter f l = [].
Proof.
  induction l as [ | x l IH]; intros Hall; [ reflexivity | ].
  cbn [List.filter]. rewrite (Hall x (or_introl eq_refl)).
  apply IH. intros y Hy. apply Hall. right. exact Hy.
Qed.

Section AnalyticsProperties.
Context `{Calendar} `{Aggregation}.

Lemma therapistAnalytics_earnings users apps tid period now :
  earnings (therapistAnalytics users apps tid period now)
  = let buckets :=
      sortBy byLabelDate
        (fst (fold_left (bucketStep period)
                (findAll (fun a => Nat.eqb (therapist a) tid
                                   && (startDateOf period now <=? date a)) apps) ([], []))) in
    mkSeries (map fst buckets) (map snd buckets).
Proof.
  unfold therapistAnalytics.
  destruct (fold_left (bucketStep period) _ ([], [])) as [e c]. reflexivity.
Qed.

Lemma therapistAnalytics_appointments users apps tid period now :
  appointments (therapistAnalytics users apps tid period now)
  = let buckets :=
      sortBy byLabelDate
        (snd (fold_left (bucketStep period)
                (findAll (fun a => Nat.eqb (therapist a) tid
                                   && (startDateOf period now <=? date a)) apps) ([], []))) in
    mkSeries (map fst buckets) (map snd buckets).
Proof.
  unfold therapistAnalytics.
  destruct (fold_left (bucketStep period) _ ([], [])) as [e c]. reflexivity.
Qed.

End AnalyticsProperties.

(** *** New and returning clients (C8) *)

(** The returning count is the distinct count minus the new count. *)
Lemma returningClients_difference `{Calendar} `{Aggregation} users apps tid period now :
  returningClients (clientStats (therapistAnalytics users apps tid period now))
  = totalClients (clientStats (therapistAnalytics users apps tid period now))
    - newClients (clientStats (therapistAnalytics users apps tid period now)).
Proof.
  unfold therapistAnalytics.
  destruct (fold_left (bucketStep period) _ ([], [])) as [e c]. reflexivity.
Qed.

Lemma Map_get_set_eq {K V} `{EqDecision K} (k : K) (v : V) m :
  Map_get k (Map_set k v m) = Some v.
Proof.
  induction m as [ | [k' v'] m IH]; cbn [Map_set Map_get].
  - destruct (decide (k = k)); [ reflexivity | contradiction ].
  - destruct (decide (k' = k)) as [E | N]; cbn [Map_get].
    + destruct (decide (k = k)); [ reflexivity | contradiction ].
    + destruct (decide (k' = k)); [ contradiction | exact IH ].
Qed.

Lemma Map_get_set_ne {K V} `{EqDecision K} (k k0 : K) (v : V) m :
  k <> k0 -> Map_get k0 (Map_set k v m) = Map_get k0 m.
Proof.
  intros Hne. induction m as [ | [k' v'] m IH]; cbn [Map_set Map_get].
  - destruct (decide (k = k0)); [ contradiction | reflexivity ].
  - destruct (decide (k' = k)) as [E | N]; cbn [Map_get].
    + subst k'. destruct (decide (k = k0)); [ contradiction | reflexivity ].
    + destruct (decide (k' = k0)); [ reflexivity | exact IH ].
Qed.

Lemma Map_set_keys {K V} `{EqDecision K} (k k0 : K) (v : V) m :
  In k0 (map fst (Map_set k v m)) <-> k0 = k \/ In k0 (map fst m).
Proof.
  induction m as [ | [k' v'] m IH]; cbn [Map_set map fst In].
  - intuition.
  - destruct (decide (k' = k)) as [E | N]; cbn [map fst In].
    + subst k'. intuition.
    + rewrite IH. intuition.
Qed.

Lemma Map_set_NoDup {K V} `{EqDecision K} (k : K) (v : V) m :
  List.NoDup (map fst m) -> List.NoDup (map fst (Map_set k v m)).
Proof.
  induction m as [ | [k' v'] m IH]; cbn [Map_set map fst]; intros Hnd.
  - constructor; [ intros [] | constructor ].
  - inversion Hnd as [ | x l Hnotin Hnd' ]; subst.
    destruct (decide (k' = k)) as [E | N]; cbn [map fst].
    + subst k'. constructor; assumption.
    + constructor; [ | apply IH; exact Hnd' ].
      rewrite Map_set_keys. intros [E | Hin]; [ congruence | contradiction ].
Qed.

Lemma Map_get_In {K V} `{EqDecision K} (k : K) (v : V) m :
  List.NoDup (map fst m) -> (In (k, v) m <-> Map_get k m = Some v).
Proof.
  induction m as [ | [k' v'] m IH]; cbn [map fst Map_get In]; intros Hnd.
  - split; [ intros [] | discriminate ].
  - inversion Hnd as [ | x l Hnotin Hnd' ]; subst.
    destruct (decide (k' = k)) as [E | N].
    + subst k'. split.
      * intros [E | Hin]; [ congruence | ].
        exfalso. apply Hnotin. apply in_map_iff. exists (k, v). split; [ reflexivity | exact Hin ].
      * intros [= ->]. left. reflexivity.
    + rewrite <- (IH Hnd'). split; [ intros [E | Hin]; [ congruence | exact Hin ] | auto ].
Qed.

Lemma distinct_In seen l x :
  In x (distinct seen l) <-> In x l /\ ~ In x seen.
Proof.
  revert seen. induction l as [ | y l IH]; intros seen; cbn [distinct In].
  - tauto.
  - destruct (existsb (Nat.eqb y) seen) eqn:Hy.
    + apply existsb_exists in Hy as (z & Hz & E). apply Nat.eqb_eq in E. subst z.
      rewrite IH. split; [ tauto | ]. intros [[E | Hin] Hn]; [ subst; contradiction | tauto ].
    + assert (~ In y seen) as Hny.
      { intros Hin. assert (existsb (Nat.eqb y) seen = true) as Ht
          by (apply existsb_exists; exists y; split; [ exact Hin | apply Nat.eqb_refl ]).
        congruence. }
      cbn [In]. rewrite IH. cbn [In]. split.
      * intros [E | [Hin Hn]]; [ subst; tauto | tauto ].
      * intros [[E | Hin] Hn]; [ tauto | ].
        destruct (Nat.eq_dec y x) as [E | N]; [ tauto | right; tauto ].
Qed.

Lemma distinct_NoDup seen l : List.NoDup (distinct seen l).
Proof.
  revert seen. induction l as [ | y l IH]; intros seen; cbn [distinct].
  - constructor.
  - destruct (existsb (Nat.eqb y) seen); [ apply IH | ].
    constructor; [ | apply IH ].
    rewrite distinct_In. cbn [In]. tauto.
Qed.

Lemma earliestFrom_cons acc a l u :
  earliestFrom acc (a :: l) u
  = earliestFrom (if Nat.eqb (user a) u
                  then Some (match acc with Some d => Z.min d (date a) | None => date a end)
                  else acc) l u.
Proof. reflexivity. Qed.

Lemma groupFirstAppointment_fold l m u :
  Map_get u (fold_left (fun m a => Map_upsert (user a)
               (fun v => match v with Some d => Z.min d (date a) | None => date a end) m) l m)
  = earliestFrom (Map_get u m) l u.
Proof.
  revert m. induction l as [ | a l IH]; intros m; [ reflexivity | ].
  cbn [fold_left]. rewrite earliestFrom_cons, IH. f_equal.
  unfold Map_upsert. destruct (Nat.eqb (user a) u) eqn:E.
  - apply Nat.eqb_eq in E. subst u. rewrite Map_get_set_eq. reflexivity.
  - apply Nat.eqb_neq in E. apply Map_get_set_ne. exact E.
Qed.

Lemma groupFirstAppointment_NoDup l m :
  List.NoDup (map fst m) ->
  List.NoDup (map fst (fold_left (fun m a => Map_upsert (user a)
               (fun v => match v with Some d => Z.min d (date a) | None => date a end) m) l m)).
Proof.
  revert m. induction l as [ | a l IH]; intros m Hnd; [ exact Hnd | ].
  cbn [fold_left]. apply IH. unfold Map_upsert. apply Map_set_NoDup. exact Hnd.
Qed.

Lemma earliestFrom_bound s acc l u :
  (exists d, earliestFrom acc l u = Some d /\ s <= d)
  <-> (acc = None -> exists a, In a l /\ user a = u)
      /\ (forall d0, acc = Some d0 -> s <= d0)
      /\ (forall a, In a l -> user a = u -> s <= date a).
Proof.
  revert acc. induction l as [ | a l IH]; intros acc.
  - unfold earliestFrom. cbn [fold_left In]. split.
    + intros (d & -> & Hd). split; [ discriminate | ].
      split; [ intros d0 [= <-]; exact Hd | intros a [] ].
    + intros (Hnone & Hsome & _). destruct acc as [d | ].
      * exists d. split; [ reflexivity | apply Hsome; reflexivity ].
      * destruct (Hnone eq_refl) as (a & [] & _).
  - rewrite earliestFrom_cons, IH. cbn [In].
    destruct (Nat.eqb (user a) u) eqn:E.
    + apply Nat.eqb_eq in E. split.
      * intros (_ & Hsome & Hall).
        specialize (Hsome _ eq_refl).
        split; [ intros _; exists a; split; [ left; reflexivity | exact E ] | ].
        split.
        -- intros d0 ->. lia.
        -- intros b [<- | Hb] Hu; [ destruct acc; lia | apply Hall; assumption ].
      * intros (Hnone & Hsome & Hall).
        split; [ discriminate | ].
        split.
        -- intros d0 [= <-].
           pose proof (Hall a (or_introl eq_refl) E).
           destruct acc as [d | ]; [ specialize (Hsome d eq_refl); lia | assumption ].
        -- intros b Hb Hu. apply Hall; [ right; exact Hb | exact Hu ].
    + apply Nat.eqb_neq in E. split.
      * intros (Hnone & Hsome & Hall).
        split; [ intros Hacc; destruct (Hnone Hacc) as (b & Hb & Hu); exists b; split;
                 [ right; exact Hb | exact Hu ] | ].
        split; [ exact Hsome | ].
        intros b [<- | Hb] Hu; [ contradiction | apply Hall; assumption ].
      * intros (Hnone & Hsome & Hall).
        split; [ intros Hacc; destruct (Hnone Hacc) as (b & [<- | Hb] & Hu);
                 [ contradiction | exists b; split; assumption ] | ].
        split; [ exact Hsome | ].
        intros b Hb Hu. apply Hall; [ right; exact Hb | exact Hu ].
Qed.

(** The ids [newClientIdsOf] returns: the clients of [clientIds] that have
    an appointment and all of whose appointments, with whatever provider,
    are dated at or after [startDate]. *)
Lemma newClientIdsOf_spec apps clientIds startDate :
  List.NoDup (newClientIdsOf apps clientIds startDate)
  /\ forall c, In c (newClientIdsOf apps clientIds startDate)
       <-> In c clientIds
           /\ (exists a, In a apps /\ user a = c)
           /\ (forall a, In a apps -> user a = c -> startDate <= date a).
Proof.
  unfold newClientIdsOf.
  destruct clientIds as [ | c0 cs] eqn:Hids.
  { split; [ constructor | ]. intros c. cbn [In]. tauto. }
  rewrite <- Hids. clear Hids c0 cs.
  set (l := findAll (fun a => existsb (Nat.eqb (user a)) clientIds) apps).
  assert (List.NoDup (map fst (groupFirstAppointment l))) as Hnd
    by (apply groupFirstAppointment_NoDup; constructor).
  assert (forall a, In a l <-> In a apps /\ In (user a) clientIds) as Hl.
  { intros a. unfold l, findAll. rewrite filter_In, existsb_exists. split.
    - intros [Hin (x & Hx & E)]. apply Nat.eqb_eq in E. subst x. tauto.
    - intros [Hin Hu]. split; [ exact Hin | ]. exists (user a).
      split; [ exact Hu | apply Nat.eqb_refl ]. }
  split.
  - clear Hl. induction (groupFirstAppointment l) as [ | [k v] g IH]; cbn [List.filter map].
    + constructor.
    + cbn [map fst] in Hnd. inversion Hnd as [ | x y Hnotin Hnd' ]; subst.
      destruct (startDate <=? snd (k, v)); cbn [map fst]; [ | apply IH; exact Hnd' ].
      constructor; [ | apply IH; exact Hnd' ].
      intros Hin. apply Hnotin. apply in_map_iff in Hin as ([k' v'] & E & Hin).
      apply filter_In in Hin as [Hin _]. apply in_map_iff. exists (k', v'). tauto.
  - intros c. rewrite in_map_iff.
    transitivity (exists d, earliestFrom None l c = Some d /\ startDate <= d).
    + split.
      * intros ([k d] & E & Hin). cbn [fst] in E. subst k.
        apply filter_In in Hin as [Hin Hd]. cbn [snd] in Hd. apply Z.leb_le in Hd.
        exists d. split; [ | exact Hd ].
        apply (Map_get_In c d _ Hnd) in Hin.
        unfold groupFirstAppointment in Hin. rewrite groupFirstAppointment_fold in Hin.
        exact Hin.
      * intros (d & Hd & Hs). exists (c, d). split; [ reflexivity | ].
        apply filter_In. split; [ | apply Z.leb_le; exact Hs ].
        apply (Map_get_In c d _ Hnd).
        unfold groupFirstAppointment. rewrite groupFirstAppointment_fold. exact Hd.
    + rewrite earliestFrom_bound. split.
      * intros (Hex & _ & Hall). destruct (Hex eq_refl) as (a & Ha & Hu).
        apply Hl in Ha as [Ha Hc]. subst c.
        split; [ exact Hc | ]. split; [ exists a; tauto | ].
        intros b Hb Hub. apply Hall; [ apply Hl; rewrite Hub; tauto | exact Hub ].
      * intros (Hc & (a & Ha & Hu) & Hall).
        split; [ intros _; exists a; split; [ apply Hl; rewrite Hu; tauto | exact Hu ] | ].
        split; [ discriminate | ].
        intros b Hb Hub. apply Hl in Hb as [Hb _]. apply Hall; assumption.
Qed.

Lemma In_populatedUsers users l c :
  In c (omap (populatedUser users) l) <-> exists a, In a l /\ user a = c /\ users c = true.
Proof.
  rewrite <- list_elem_of_In, list_elem_of_omap. unfold populatedUser. split.
  - intros (a & Ha & Hp). apply list_elem_of_In in Ha.
    destruct (users (user a)) eqn:Hu; [ | discriminate Hp ].
    injection Hp as <-. exists a. tauto.
  - intros (a & Ha & <- & Hu). exists a. rewrite Hu.
    split; [ apply list_elem_of_In; exact Ha | reflexivity ].
Qed.

(** What the report counts as new clients: the distinct users with an
    appointment of this provider dated in the window, all of whose
    appointments, with whatever provider, are dated in the window.  (The
    client of an appointment that a therapist or an admin booked is no
    user, and is not counted.) *)
Theorem newClients_over_all_providers `{Calendar} `{Aggregation} users apps tid period now :
  exists ids : list nat,
    newClients (clientStats (therapistAnalytics users apps tid period now))
      = Z.of_nat (length ids)
    /\ List.NoDup ids
    /\ forall c, In c ids
         <-> (exists a, In a apps /\ therapist a = tid /\ user a = c /\ users c = true
                        /\ startDateOf period now <= date a)
             /\ (forall a, In a apps -> user a = c -> startDateOf period now <= date a).
Proof.
  set (startDate := startDateOf period now).
  set (inRange := findAll (fun a => Nat.eqb (therapist a) tid && (startDate <=? date a)) apps).
  exists (newClientIdsOf apps (distinct [] (omap (populatedUser users) inRange)) startDate).
  split.
  { unfold therapistAnalytics. fold startDate. fold inRange.
    destruct (fold_left (bucketStep period) inRange ([], [])) as [e c]. reflexivity. }
  destruct (newClientIdsOf_spec apps (distinct [] (omap (populatedUser users) inRange)) startDate)
    as [Hnd Hin].
  split; [ exact Hnd | ].
  intros c. rewrite Hin, distinct_In, In_populatedUsers. split.
  - intros ([(a & Ha & Hu & Hc) _] & _ & Hall).
    split; [ | exact Hall ].
    unfold inRange, findAll in Ha. apply filter_In in Ha as [Ha Hf].
    apply andb_true_iff in Hf as [Ht Hd]. apply Nat.eqb_eq in Ht. apply Z.leb_le in Hd.
    exists a. tauto.
  - intros ((a & Ha & Ht & Hu & Hc & Hd) & Hall).
    split; [ split; [ | intros [] ] | split; [ exists a; tauto | exact Hall ] ].
    exists a. split; [ | split; [ exact Hu | exact Hc ] ].
    unfold inRange, findAll. apply filter_In. split; [ exact Ha | ].
    apply andb_true_iff. split; [ apply Nat.eqb_eq; exact Ht | apply Z.leb_le; exact Hd ].
Qed.

(** A booking that a therapist makes through the client routes counts for
    no client: the report of provider 7 over a ledger whose only
    appointment was booked by the account 8, a therapist, has no client at
    all. *)
Lemma therapist_booking_counts_no_client :
  map user (run [ OpBook twoTherapists (19719 * msPerDay) (requestOn 8 7 19720 "09:00" 60) ])
    = [8%nat]
  /\ exampleUsers 8%nat = false
  /\ totalClients (clientStats (therapistAnalytics exampleUsers
         (run [ OpBook twoTherapists (19719 * msPerDay) (requestOn 8 7 19720 "09:00" 60) ])
         7 "week" (19723 * msPerDay))) = 0
  /\ newClients (clientStats (therapistAnalytics exampleUsers
         (run [ OpBook twoTherapists (19719 * msPerDay) (requestOn 8 7 19720 "09:00" 60) ])
         7 "week" (19723 * msPerDay))) = 0.
Proof. vm_compute. repeat split; reflexivity. Qed.

(** C8 at the failing input: on day 19723, over the week, provider 7 has
    one client, whose earliest appointment with provider 7 is inside the
    window, yet the report counts no new client and one returning client:
    the aggregate behind the count groups the client's appointments with
    every provider. *)
Theorem C8_new_clients_count_other_providers :
  startDateOf "week" (19723 * msPerDay) = 19716 * msPerDay
  /\ earliestWithProvider_as_specified secondProviderLedger 7 1 = Some (19720 * msPerDay)
  /\ newClients_as_specified secondProviderLedger 7 "week" (19723 * msPerDay) = [1%nat]
  /\ exampleUsers 1%nat = true
  /\ totalClients (clientStats (therapistAnalytics exampleUsers secondProviderLedger 7 "week"
                                  (19723 * msPerDay))) = 1
  /\ newClients (clientStats (therapistAnalytics exampleUsers secondProviderLedger 7 "week"
                                (19723 * msPerDay))) = 0
  /\ returningClients (clientStats (therapistAnalytics exampleUsers secondProviderLedger 7 "week"
                                      (19723 * msPerDay))) = 1.
Proof. vm_compute. repeat split; reflexivity. Qed.

(** *** The revenue total of the platform statistics *)

(** [getPlatformStats] windows on [createdAt] and [getRevenueData] on
    [date]: the revenue series of a report need not sum to the
    [totalRevenue] of the same report. *)
Lemma totalRevenue_windows_on_createdAt :
  totalRevenue (fst (adminAnalytics bookedAheadLedger "week" (19723 * msPerDay))) = 0%float
  /\ revenue (snd (adminAnalytics bookedAheadLedger "week" (19723 * msPerDay))) = [90%float].
Proof. split; reflexivity. Qed.

(** *** Start times with a one-digit hour *)

(** The start-time pattern accepts "9:00"; the conflict query compares it
    as a string, and "10:00" is not greater than "9:00": the same hour is
    booked twice. *)
Lemma one_digit_hour_double_books :
  matchesStartTime "9:00" = true
  /\ isOk (snd (book exampleTherapists 0 (ledgerWith "09:00" 60) (exampleRequest 2 "9:00" 60))) = true
  /\ ~ no_double_booking
         (run [ OpBook exampleTherapists 0 (exampleRequest 1 "09:00" 60);
                OpBook exampleTherapists 0 (exampleRequest 2 "9:00" 60) ]).
Proof.
  split; [ reflexivity | split; [ reflexivity | ] ].
  intros Hndb.
  refine (Hndb 0%nat 1%nat _ _ _ eq_refl eq_refl eq_refl eq_refl eq_refl eq_refl _).
  - discriminate.
  - vm_compute. split; reflexivity.
Qed.

(** ** Times of day, in sum *)

(** On the times formatted from minute counts below 6000 (a hundred
    hours), the string order that the conflict query uses is the order of
    the minute counts, two formatted times are equal only for equal minute
    counts, and reading a formatted time back gives the minute count it
    was made from. *)
Theorem formatted_times_order_as_minutes m1 m2 :
  0 <= m1 < 6000 -> 0 <= m2 < 6000 ->
  String.ltb (formatTime (Some m1)) (formatTime (Some m2)) = (m1 <? m2)
  /\ (formatTime (Some m1) = formatTime (Some m2) -> m1 = m2)
  /\ startTimeMinutes (formatTime (Some m1)) = Some m1.
Proof.
  intros H1 H2. split; [ apply formatTime_ltb; assumption | ].
  split; [ apply formatTime_inj; assumption | apply startTimeMinutes_formatTime; exact H1 ].
Qed.

Lemma formatted_times_order_as_minutes_witness :
  String.ltb (formatTime (Some 540)) (formatTime (Some 1500)) = (540 <? 1500)
  /\ (formatTime (Some 540) = formatTime (Some 1500) -> 540 = 1500)
  /\ startTimeMinutes (formatTime (Some 540)) = Some 540.
Proof. apply formatted_times_order_as_minutes; lia. Defined.

Lemma parseIntFrom_digits acc t :
  JS.digits t = true ->
  JS.parseIntFrom acc t = acc * 10 ^ Z.of_nat (String.length t) + JS.parseIntFrom 0 t.
Proof.
  revert acc. induction t as [ | c t IH]; intros acc Ht.
  - cbn [JS.parseIntFrom String.length]. change (10 ^ Z.of_nat 0) with 1. lia.
  - cbn [JS.digits] in Ht. apply andb_true_iff in Ht as [Hc Ht].
    cbn [JS.parseIntFrom String.length]. rewrite Hc.
    rewrite (IH (10 * acc + JS.digitVal c) Ht), (IH (10 * 0 + JS.digitVal c) Ht).
    rewrite Nat2Z.inj_succ, Z.pow_succ_r by lia. ring.
Qed.

Lemma parseIntFrom_app acc s t :
  JS.digits s = true -> JS.parseIntFrom acc (s ++ t)%string = JS.parseIntFrom (JS.parseIntFrom acc s) t.
Proof.
  revert acc. induction s as [ | c s IH]; intros acc Hs.
  - reflexivity.
  - cbn [JS.digits] in Hs. apply andb_true_iff in Hs as [Hc Hs].
    change (String c s ++ t)%string with (String c (s ++ t)%string).
    cbn [JS.parseIntFrom]. rewrite Hc. apply IH, Hs.
Qed.

Lemma digits_app s t : JS.digits (s ++ t)%string = JS.digits s && JS.digits t.
Proof.
  induction s as [ | c s IH]; [ reflexivity | ].
  change (String c s ++ t)%string with (String c (s ++ t)%string).
  cbn [JS.digits]. rewrite IH. apply andb_assoc.
Qed.

Lemma length_app_string s t :
  String.length (s ++ t)%string = (String.length s + String.length t)%nat.
Proof.
  induction s as [ | c s IH]; [ reflexivity | ].
  change (String c s ++ t)%string with (String c (s ++ t)%string).
  cbn [String.length]. rewrite IH. reflexivity.
Qed.

(** The text of a minute count of a day: at most four digits, which read
    back as the count. *)
Lemma toString_minutes m :
  0 <= m < 1440 ->
  JS.digits (JS.toString (Some m)) = true
  /\ (String.length (JS.toString (Some m)) <= 4)%nat
  /\ JS.parseIntFrom 0 (JS.toString (Some m)) = m.
Proof.
  intros Hm.
  assert (JS.digits (JS.toString (Some m))
          && Nat.leb (String.length (JS.toString (Some m))) 4
          && (JS.parseIntFrom 0 (JS.toString (Some m)) =? m) = true) as Hall
    by (revert m Hm; by_range 1440).
  rewrite !andb_true_iff, Nat.leb_le, Z.eqb_eq in Hall. tauto.
Qed.

(** Every start time the validator accepts denotes a time of day: the
    split-and-parseInt expression of the booking routes never meets [NaN]
    on it and gives a minute count below 24 * 60.  The end time computed
    for a duration sent as a number is the formatted sum.  For a duration
    sent as a string of digits (of at most eleven, so that the number
    stays below 2^53) it is the formatted number whose digits are those of
    the minute count followed by those of the string; for a string with a
    sign it is "NaN:NaN".  A start time that names its hour on two digits
    is the formatted form of its own minute count. *)
Theorem validated_start_time_is_a_time_of_day `{Runtime} s :
  matchesStartTime s = true ->
  exists m, startTimeMinutes s = Some m /\ 0 <= m < 1440
            /\ (forall n, computeEndTime s (DNumber n) = formatTime (Some (m + n)))
            /\ (forall t, JS.digits t = true -> (String.length t <= 11)%nat ->
                   computeEndTime s (DString t)
                   = formatTime (Some (m * 10 ^ Z.of_nat (String.length t)
                                       + JS.parseIntFrom 0 t)))
            /\ (forall c t, c = "+"%char \/ c = "-"%char ->
                   computeEndTime s (DString (String c t)) = "NaN:NaN")
            /\ (zeroPadded s = true -> s = formatTime (Some m)).
Proof.
  intros Hs. destruct (matchesStartTime_minutes s Hs) as (m & Hm & Hrange).
  destruct (toString_minutes m Hrange) as (Hd & Hlen & Hparse).
  exists m. split; [ exact Hm | ]. split; [ exact Hrange | ].
  split; [ | split; [ | split ] ].
  - intros n. unfold computeEndTime, endTimeMinutes. rewrite Hm. reflexivity.
  - intros t Ht Hl. unfold computeEndTime, endTimeMinutes, formatTimeOfText. rewrite Hm.
    rewrite digits_app, Hd, Ht. cbn [andb negb].
    rewrite length_app_string.
    replace (Nat.leb (String.length (JS.toString (Some m)) + String.length t) 15) with true
      by (symmetry; apply Nat.leb_le; lia).
    rewrite (parseIntFrom_app 0 _ t Hd), Hparse, (parseIntFrom_digits m t Ht). reflexivity.
  - intros c t Hc. unfold computeEndTime, endTimeMinutes, formatTimeOfText. rewrite Hm.
    rewrite digits_app. change (JS.digits (String c t)) with (JS.isDigit c && JS.digits t).
    replace (JS.isDigit c) with false by (destruct Hc as [-> | ->]; reflexivity).
    rewrite andb_false_r. reflexivity.
  - intros Hp. destruct (matchesStartTime_padded s Hs Hp) as (m' & _ & Hm' & Hfmt).
    rewrite Hm in Hm'. injection Hm' as <-. exact Hfmt.
Qed.

Lemma validated_start_time_is_a_time_of_day_witness :
  exists m, startTimeMinutes "9:05" = Some m /\ 0 <= m < 1440
            /\ (forall n, computeEndTime "9:05" (DNumber n) = formatTime (Some (m + n)))
            /\ (forall t, JS.digits t = true -> (String.length t <= 11)%nat ->
                   computeEndTime "9:05" (DString t)
                   = formatTime (Some (m * 10 ^ Z.of_nat (String.length t)
                                       + JS.parseIntFrom 0 t)))
            /\ (forall c t, c = "+"%char \/ c = "-"%char ->
                   computeEndTime "9:05" (DString (String c t)) = "NaN:NaN")
            /\ (zeroPadded "9:05" = true -> "9:05" = formatTime (Some m)).
Proof. exact (validated_start_time_is_a_time_of_day "9:05" eq_refl). Defined.

(** ** Insertion-ordered maps: lookups, keys and key-wise folds *)

Lemma Map_get_None {K V} `{EqDecision K} (k : K) (m : list (K * V)) :
  Map_get k m = None <-> ~ In k (map fst m).
Proof.
  induction m as [ | [k' v'] m IH]; cbn [Map_get map fst In].
  - tauto.
  - destruct (decide (k' = k)) as [E | N].
    + split; [ discriminate | tauto ].
    + rewrite IH. tauto.
Qed.

Lemma Map_upsert_get_eq {K V} `{EqDecision K} (k : K) (f : option V -> V) m :
  Map_get k (Map_upsert k f m) = Some (f (Map_get k m)).
Proof. unfold Map_upsert. apply Map_get_set_eq. Qed.

Lemma Map_upsert_get_ne {K V} `{EqDecision K} (k k0 : K) (f : option V -> V) m :
  k <> k0 -> Map_get k0 (Map_upsert k f m) = Map_get k0 m.
Proof. unfold Map_upsert. apply Map_get_set_ne. Qed.

Lemma perKey_cons {A K V} `{EqDecision K} (key : A -> K) (g : A -> option V -> V) k x l acc :
  perKey key g k (x :: l) acc
  = perKey key g k l (if decide (key x = k) then Some (g x acc) else acc).
Proof. reflexivity. Qed.

(** A fold of [Map_upsert] treats every key on its own. *)
Lemma fold_upsert_get {A K V} `{EqDecision K} (key : A -> K) (g : A -> option V -> V)
    (k : K) (l : list A) (m : list (K * V)) :
  Map_get k (fold_left (fun m x => Map_upsert (key x) (g x) m) l m)
  = perKey key g k l (Map_get k m).
Proof.
  revert m. induction l as [ | x l IH]; intros m; [ reflexivity | ].
  cbn [fold_left]. rewrite perKey_cons, IH. f_equal.
  destruct (decide (key x = k)) as [<- | N].
  - apply Map_upsert_get_eq.
  - apply Map_upsert_get_ne. exact N.
Qed.

Lemma fold_upsert_NoDup {A K V} `{EqDecision K} (key : A -> K) (g : A -> option V -> V)
    (l : list A) (m : list (K * V)) :
  List.NoDup (map fst m) ->
  List.NoDup (map fst (fold_left (fun m x => Map_upsert (key x) (g x) m) l m)).
Proof.
  revert m. induction l as [ | x l IH]; intros m Hnd; [ exact Hnd | ].
  cbn [fold_left]. apply IH. unfold Map_upsert. apply Map_set_NoDup. exact Hnd.
Qed.

Lemma perKey_None {A K V} `{EqDecision K} (key : A -> K) (g : A -> option V -> V) k l acc :
  perKey key g k l acc = None <-> acc = None /\ withKey key k l = [].
Proof.
  revert acc. induction l as [ | x l IH]; intros acc.
  - cbn. tauto.
  - rewrite perKey_cons, IH. unfold withKey. cbn [List.filter].
    destruct (decide (key x = k)) as [E | N].
    + rewrite (bool_decide_eq_true_2 _ E). split; [ intros [[=] _] | intros [_ [=]] ].
    + rewrite (bool_decide_eq_false_2 _ N). tauto.
Qed.

Lemma withKey_In {A K} `{EqDecision K} (key : A -> K) k l x :
  In x (withKey key k l) <-> In x l /\ key x = k.
Proof.
  unfold withKey. rewrite filter_In. split.
  - intros [Hin Hk]. apply bool_decide_eq_true_1 in Hk. tauto.
  - intros [Hin Hk]. split; [ exact Hin | apply bool_decide_eq_true_2; exact Hk ].
Qed.

Lemma withKey_nil_iff {A K} `{EqDecision K} (key : A -> K) k l :
  withKey key k l = [] <-> forall x, In x l -> key x <> k.
Proof.
  split.
  - intros Hnil x Hin Hk.
    assert (In x (withKey key k l)) as Hx by (apply withKey_In; tauto).
    rewrite Hnil in Hx. destruct Hx.
  - intros Hall. apply filter_none. intros x Hin.
    apply bool_decide_eq_false_2. apply Hall. exact Hin.
Qed.

(** The entries of a map with distinct keys are its lookups; this survives
    any reordering of the entries. *)
Lemma Permutation_entries {K V} `{EqDecision K} (m m' : list (K * V)) k v :
  Permutation m' m -> List.NoDup (map fst m) ->
  (In (k, v) m' <-> Map_get k m = Some v).
Proof.
  intros Hp Hnd. rewrite <- (Map_get_In k v m Hnd).
  split; intros Hin.
  - apply (Permutation_in _ Hp). exact Hin.
  - apply (Permutation_in _ (Permutation_sym Hp)). exact Hin.
Qed.

Lemma combine_fst_snd {A B} (l : list (A * B)) : combine (map fst l) (map snd l) = l.
Proof.
  induction l as [ | [a b] l IH]; [ reflexivity | ].
  cbn [map fst snd combine]. rewrite IH. reflexivity.
Qed.

(** *** Counting *)

Lemma sumZ_cons x l : sumZ (x :: l) = x + sumZ l.
Proof. reflexivity. Qed.

Lemma sumZ_Permutation l1 l2 : Permutation l1 l2 -> sumZ l1 = sumZ l2.
Proof.
  induction 1 as [ | x l1 l2 _ IH | x y l | l1 l2 l3 _ IH1 _ IH2 ].
  - reflexivity.
  - rewrite !sumZ_cons, IH. reflexivity.
  - rewrite !sumZ_cons. lia.
  - congruence.
Qed.

Lemma sumZ_Map_set {K V} `{EqDecision K} (w : V -> Z) (k : K) (x : V) (m : list (K * V)) :
  sumZ (map (fun e => w (snd e)) (Map_set k x m))
  = sumZ (map (fun e => w (snd e)) m)
    - match Map_get k m with Some y => w y | None => 0 end + w x.
Proof.
  induction m as [ | [k' v'] m IH]; cbn [Map_set Map_get map snd].
  - rewrite sumZ_cons. cbn. lia.
  - destruct (decide (k' = k)) as [-> | Hne]; cbn [map snd].
    + rewrite !sumZ_cons. lia.
    + rewrite !sumZ_cons, IH. lia.
Qed.

Lemma sumZ_Map_set_snd {K} `{EqDecision K} (k : K) (x : Z) (m : list (K * Z)) :
  sumZ (map snd (Map_set k x m))
  = sumZ (map snd m) - match Map_get k m with Some y => y | None => 0 end + x.
Proof.
  induction m as [ | [k' v'] m IH]; cbn [Map_set Map_get map snd].
  - rewrite sumZ_cons. cbn. lia.
  - destruct (decide (k' = k)) as [-> | Hne]; cbn [map snd].
    + rewrite !sumZ_cons. lia.
    + rewrite !sumZ_cons, IH. lia.
Qed.

(** A counting fold leaves, for each key, the number of elements with it. *)
Lemma perKey_count {A K} `{EqDecision K} (key : A -> K) k (l : list A) acc :
  perKey key (fun _ v => match v with Some n => n | None => 0 end + 1) k l acc
  = match withKey key k l, acc with
    | [], _ => acc
    | _ :: _, _ => Some (match acc with Some n => n | None => 0 end
                         + Z.of_nat (length (withKey key k l)))
    end.
Proof.
  revert acc. induction l as [ | x l IH]; intros acc; [ reflexivity | ].
  rewrite perKey_cons, IH. unfold withKey. cbn [List.filter].
  destruct (decide (key x = k)) as [E | N].
  - rewrite (bool_decide_eq_true_2 _ E).
    destruct (List.filter _ l) as [ | y r] eqn:Hf.
    + cbn [length]. f_equal; lia.
    + cbn [length]. f_equal; lia.
  - rewrite (bool_decide_eq_false_2 _ N). reflexivity.
Qed.

Lemma count_fold_sum {A K} `{EqDecision K} (key : A -> K) (l : list A) (m : list (K * Z)) :
  sumZ (map snd (fold_left
          (fun m x => Map_upsert (key x)
                        (fun v => match v with Some n => n | None => 0 end + 1) m) l m))
  = sumZ (map snd m) + Z.of_nat (length l).
Proof.
  revert m. induction l as [ | x l IH]; intros m.
  - cbn [fold_left length]. lia.
  - cbn [fold_left]. rewrite IH. unfold Map_upsert.
    rewrite sumZ_Map_set_snd.
    cbn [length]. destruct (Map_get (key x) m); lia.
Qed.

(** What a histogram holds: one entry per key that occurs, with the number
    of its occurrences; the counts add up to the number of elements. *)
Lemma count_fold_entries {A K} `{EqDecision K} (key : A -> K) (l : list A)
    (hist : list (K * Z)) :
  Permutation hist
    (fold_left (fun m x => Map_upsert (key x)
                             (fun v => match v with Some n => n | None => 0 end + 1) m) l []) ->
  List.NoDup (map fst hist)
  /\ (forall k n, In (k, n) hist
        <-> 0 < n /\ n = Z.of_nat (length (withKey key k l)))
  /\ sumZ (map snd hist) = Z.of_nat (length l).
Proof.
  intros Hp.
  set (m := fold_left _ l []) in *.
  assert (List.NoDup (map fst m)) as Hnd by (apply fold_upsert_NoDup; constructor).
  split; [ | split ].
  - apply (Permutation_NoDup (Permutation_sym (Permutation_map fst Hp))). exact Hnd.
  - intros k n. rewrite (Permutation_entries m hist k n Hp Hnd).
    unfold m. rewrite (fold_upsert_get key (fun _ v => match v with Some n => n | None => 0 end + 1)).
    cbn [Map_get]. rewrite perKey_count.
    destruct (withKey key k l) as [ | y r]; cbn [length].
    + split; [ discriminate | intros [Hpos ->]; lia ].
    + split; [ intros [= <-]; lia | intros [_ ->]; f_equal; lia ].
  - rewrite (sumZ_Permutation _ _ (Permutation_map snd Hp)).
    unfold m. rewrite count_fold_sum. cbn. lia.
Qed.

(** *** Adding up *)

(** A key-wise fold treats the elements of each key as a list of its own. *)
Lemma perKey_withKey {A K V} `{EqDecision K} (key : A -> K) (g : A -> option V -> V) k l acc :
  perKey key g k l acc = fold_left (fun v x => Some (g x v)) (withKey key k l) acc.
Proof.
  revert acc. induction l as [ | x l IH]; intros acc; [ reflexivity | ].
  rewrite perKey_cons, IH. unfold withKey. cbn [List.filter].
  destruct (decide (key x = k)) as [E | N].
  - rewrite (bool_decide_eq_true_2 _ E). reflexivity.
  - rewrite (bool_decide_eq_false_2 _ N). reflexivity.
Qed.

(** What a key-wise fold holds when the value of a key is [F] of the
    elements with that key: one entry per key that occurs. *)
Lemma keywise_entries {A K V} `{EqDecision K} (key : A -> K) (g : A -> option V -> V)
    (F : list A -> V) (l : list A) (hist : list (K * V)) :
  (forall b, b <> [] -> fold_left (fun v x => Some (g x v)) b None = Some (F b)) ->
  Permutation hist (fold_left (fun m x => Map_upsert (key x) (g x) m) l []) ->
  List.NoDup (map fst hist)
  /\ (forall k v, In (k, v) hist <-> withKey key k l <> [] /\ v = F (withKey key k l)).
Proof.
  intros HF Hp.
  set (m := fold_left _ l []) in *.
  assert (List.NoDup (map fst m)) as Hnd by (apply fold_upsert_NoDup; constructor).
  split.
  - apply (Permutation_NoDup (Permutation_sym (Permutation_map fst Hp))). exact Hnd.
  - intros k v. rewrite (Permutation_entries m hist k v Hp Hnd).
    unfold m. rewrite (fold_upsert_get key g). cbn [Map_get]. rewrite perKey_withKey.
    destruct (withKey key k l) as [ | y r] eqn:Hw.
    + cbn [fold_left]. split; [ discriminate | intros [Hne _]; contradiction ].
    + rewrite (HF (y :: r)) by discriminate. split.
      * intros [= <-]. split; [ discriminate | reflexivity ].
      * intros [_ ->]. reflexivity.
Qed.

(** The map of [(m.get(key) || 0) + x] holds the running sum of a key. *)
Lemma runningSum_fold {A} (w : A -> float) (b : list A) :
  b <> [] ->
  fold_left (fun v x => Some (orZero v + w x)%float) b None = Some (runningSum (map w b)).
Proof.
  destruct b as [ | y r]; [ congruence | intros _ ].
  cbn [fold_left map]. unfold runningSum. cbn [fold_left].
  change (orZero None) with 0%float. change (JS.orZero 0) with 0%float.
  generalize (0 + w y)%float. intros s. revert s.
  induction r as [ | x r IH]; intros s; [ reflexivity | ].
  cbn [fold_left map orZero]. apply IH.
Qed.

(** A [$group] stage collects, for a key, the amounts of its documents in
    order, and counts them. *)
Lemma groupAmounts_from (done r : list Appointment) :
  fold_left (fun v a => Some (match v with
                              | Some (amounts, count) => (amounts ++ [amount a], count + 1)
                              | None => ([amount a], 1)
                              end)) r (Some (map amount done, Z.of_nat (length done)))
  = Some (map amount (done ++ r), Z.of_nat (length (done ++ r))).
Proof.
  revert done. induction r as [ | x r IH]; intros done.
  - rewrite app_nil_r. reflexivity.
  - cbn [fold_left].
    replace (map amount done ++ [amount x]) with (map amount (done ++ [x]))
      by (rewrite map_app; reflexivity).
    replace (Z.of_nat (length done) + 1) with (Z.of_nat (length (done ++ [x])))
      by (rewrite length_app; cbn [length]; lia).
    rewrite (IH (done ++ [x])), <- app_assoc. reflexivity.
Qed.

Lemma groupAmounts_fold (b : list Appointment) :
  b <> [] ->
  fold_left (fun v a => Some (match v with
                              | Some (amounts, count) => (amounts ++ [amount a], count + 1)
                              | None => ([amount a], 1)
                              end)) b None
  = Some (map amount b, Z.of_nat (length b)).
Proof.
  destruct b as [ | y r]; [ congruence | intros _ ].
  cbn [fold_left]. exact (groupAmounts_from [y] r).
Qed.

(** The groups of a [$group] stage: one per key that occurs, with the
    amounts and the number of the documents of that key. *)
Lemma groupAmounts_entries {K} `{EqDecision K} (key : Appointment -> K) (l : list Appointment)
    (groups : list (K * (list float * Z))) :
  Permutation groups (groupAmounts key l) ->
  List.NoDup (map fst groups)
  /\ (forall k v, In (k, v) groups
        <-> withKey key k l <> []
            /\ v = (map amount (withKey key k l), Z.of_nat (length (withKey key k l)))).
Proof.
  intros Hp.
  apply (keywise_entries key
           (fun a v => match v with
                       | Some (amounts, count) => (amounts ++ [amount a], count + 1)
                       | None => ([amount a], 1)
                       end)
           (fun b => (map amount b, Z.of_nat (length b))) l groups groupAmounts_fold Hp).
Qed.

(** The keys of a list, each once: the elements of the keys, taken key by
    key, are the elements of the list. *)
Lemma Permutation_by_key {A K} `{EqDecision K} (key : A -> K) (keys : list K) (l : list A) :
  List.NoDup keys -> (forall x, In x l -> In (key x) keys) ->
  Permutation (concat (map (fun k => withKey key k l) keys)) l.
Proof.
  revert l. induction keys as [ | k keys IH]; intros l Hnd Hcover.
  - destruct l as [ | x l]; [ reflexivity | ]. destruct (Hcover x (or_introl eq_refl)).
  - apply NoDup_cons_iff in Hnd as [Hk Hnd].
    cbn [map concat].
    set (rest := List.filter (fun x => negb (bool_decide (key x = k))) l).
    assert (forall k', In k' keys -> withKey key k' l = withKey key k' rest) as Hsame.
    { intros k' Hk'. unfold withKey, rest. rewrite filter_filter_andb.
      apply filter_ext_in_iff. intros x _.
      destruct (bool_decide (key x = k')) eqn:E1; [ | rewrite andb_false_r; reflexivity ].
      apply bool_decide_eq_true_1 in E1.
      rewrite bool_decide_eq_false_2 by (intros E2; subst; contradiction). reflexivity. }
    rewrite (map_ext_in _ (fun k' => withKey key k' rest) keys Hsame).
    rewrite (IH rest Hnd).
    + unfold withKey, rest. clear. induction l as [ | x l IHl]; [ reflexivity | ].
      cbn [List.filter]. destruct (bool_decide (key x = k)); cbn [negb app].
      * apply perm_skip. exact IHl.
      * symmetry. apply Permutation_cons_app. symmetry. exact IHl.
    + intros x Hx. unfold rest in Hx. apply filter_In in Hx as [Hx Hne].
      destruct (Hcover x Hx) as [E | Hin]; [ | exact Hin ].
      rewrite (bool_decide_eq_true_2 _ (eq_sym E)) in Hne. discriminate Hne.
Qed.

(** *** Sorting *)

Lemma insertBy_In {A} (cmp : A -> A -> Z) x y l :
  In y (insertBy cmp x l) <-> y = x \/ In y l.
Proof.
  split; intros Hin.
  - apply (Permutation_in _ (insertBy_Permutation cmp x l)) in Hin.
    destruct Hin as [E | Hin]; [ left; congruence | right; exact Hin ].
  - apply (Permutation_in _ (Permutation_sym (insertBy_Permutation cmp x l))).
    destruct Hin as [E | Hin]; [ left; congruence | right; exact Hin ].
Qed.

(** Insertion sort sorts, for a comparator that is total and transitive. *)
Lemma sortBy_StronglySorted {A} (cmp : A -> A -> Z) (l : list A) :
  (forall x y, 0 < cmp x y -> cmp y x <= 0) ->
  (forall x y z, cmp x y <= 0 -> cmp y z <= 0 -> cmp x z <= 0) ->
  StronglySorted (fun x y => cmp x y <= 0) (sortBy cmp l).
Proof.
  intros Htotal Htrans.
  induction l as [ | x l IH]; [ constructor | ].
  rewrite sortBy_cons. revert IH. generalize (sortBy cmp l) as s. clear l.
  induction s as [ | y s IHs]; intros Hs; cbn [insertBy].
  - constructor; [ constructor | constructor ].
  - inversion Hs as [ | y' s' Hs' Hall ]; subst.
    destruct (cmp x y <=? 0) eqn:Hxy.
    + apply Z.leb_le in Hxy. constructor; [ exact Hs | ].
      constructor; [ exact Hxy | ].
      rewrite List.Forall_forall in *. intros z Hz. apply (Htrans x y z Hxy). apply Hall. exact Hz.
    + apply Z.leb_gt in Hxy. constructor; [ apply IHs; exact Hs' | ].
      rewrite List.Forall_forall in *. intros z Hz. apply insertBy_In in Hz as [-> | Hz].
      * apply Htotal. exact Hxy.
      * apply Hall. exact Hz.
Qed.

(** *** The order of strings *)

Lemma ascii_compare_Lt a b :
  Ascii.compare a b = Lt <-> (N_of_ascii a < N_of_ascii b)%N.
Proof. unfold Ascii.compare. apply N.compare_lt_iff. Qed.

Lemma ascii_compare_Eq a b : Ascii.compare a b = Eq <-> a = b.
Proof.
  split; [ apply Ascii.compare_eq_iff | ].
  intros ->. unfold Ascii.compare. apply N.compare_refl.
Qed.

Lemma string_compare_Eq s t : String.compare s t = Eq <-> s = t.
Proof.
  split; [ apply String.compare_eq_iff | ].
  intros ->. induction t as [ | c t IH]; [ reflexivity | ].
  cbn [String.compare]. rewrite (proj2 (ascii_compare_Eq c c) eq_refl). exact IH.
Qed.

Lemma string_compare_trans s t u :
  String.compare s t = Lt -> String.compare t u = Lt -> String.compare s u = Lt.
Proof.
  revert t u. induction s as [ | a s IH]; intros [ | b t] [ | c u]; cbn [String.compare];
    try discriminate; try reflexivity.
  destruct (Ascii.compare a b) eqn:Hab; try discriminate;
    destruct (Ascii.compare b c) eqn:Hbc; try discriminate; intros H1 H2.
  - apply ascii_compare_Eq in Hab, Hbc. subst b c.
    rewrite (proj2 (ascii_compare_Eq a a) eq_refl). exact (IH t u H1 H2).
  - apply ascii_compare_Eq in Hab. subst b. rewrite Hbc. reflexivity.
  - apply ascii_compare_Eq in Hbc. subst c. rewrite Hab. reflexivity.
  - apply ascii_compare_Lt in Hab. apply ascii_compare_Lt in Hbc.
    rewrite (proj2 (ascii_compare_Lt a c) (N.lt_trans _ _ _ Hab Hbc)). reflexivity.
Qed.

Lemma string_compare_Gt s t : String.compare s t = Gt <-> String.compare t s = Lt.
Proof.
  pose proof (String.compare_antisym s t) as H.
  destruct (String.compare s t), (String.compare t s); cbn in H; split; congruence.
Qed.

Lemma byKey_total {V} (x y : string * V) : 0 < byKey x y -> byKey y x <= 0.
Proof.
  unfold byKey. destruct (String.compare (fst x) (fst y)) eqn:E; try lia.
  intros _. apply string_compare_Gt in E. rewrite E. lia.
Qed.

Lemma byKey_trans {V} (x y z : string * V) :
  byKey x y <= 0 -> byKey y z <= 0 -> byKey x z <= 0.
Proof.
  unfold byKey.
  destruct (String.compare (fst x) (fst y)) eqn:Exy; try lia;
    destruct (String.compare (fst y) (fst z)) eqn:Eyz; try lia; intros _ _.
  - apply string_compare_Eq in Exy, Eyz. rewrite Exy, Eyz.
    rewrite (proj2 (string_compare_Eq (fst z) (fst z)) eq_refl). lia.
  - apply string_compare_Eq in Exy. rewrite Exy, Eyz. lia.
  - apply string_compare_Eq in Eyz. rewrite <- Eyz, Exy. lia.
  - rewrite (string_compare_trans _ _ _ Exy Eyz). lia.
Qed.

(** Sorted by key, entries with distinct keys are in strictly ascending
    order of their keys. *)
Lemma sortBy_byKey_ascending {V} (m : list (string * V)) :
  List.NoDup (map fst m) ->
  StronglySorted (fun a b => String.ltb a b = true) (map fst (sortBy byKey m)).
Proof.
  intros Hnd.
  assert (List.NoDup (map fst (sortBy byKey m))) as Hnd'
    by (apply (Permutation_NoDup (Permutation_sym (Permutation_map fst (sortBy_Permutation byKey m))));
        exact Hnd).
  pose proof (sortBy_StronglySorted byKey m byKey_total byKey_trans) as Hs.
  revert Hnd' Hs. generalize (sortBy byKey m) as s. clear m Hnd.
  induction s as [ | x s IH]; intros Hnd Hs; cbn [map]; [ constructor | ].
  inversion Hs as [ | x' s' Hs' Hall ]; subst.
  cbn [map] in Hnd. inversion Hnd as [ | k ks Hnotin Hnd' ]; subst.
  constructor; [ apply IH; assumption | ].
  rewrite List.Forall_forall in *. intros k Hk.
  apply in_map_iff in Hk as (y & <- & Hy).
  specialize (Hall y Hy). unfold byKey in Hall. unfold String.ltb.
  destruct (String.compare (fst x) (fst y)) eqn:E; [ | reflexivity | lia ].
  apply string_compare_Eq in E. exfalso. apply Hnotin. rewrite E.
  apply in_map. exact Hy.
Qed.

(** *** The series of the reports, bucket by bucket *)

Section SeriesProperties.
Context `{Calendar} `{Aggregation}.

Lemma bucketStep_counts period l e c :
  snd (fold_left (bucketStep period) l (e, c))
  = fold_left (fun m a => Map_upsert (labelFormat period (date a))
                 (fun v => match v with Some n => n | None => 0 end + 1) m) l c.
Proof.
  revert e c. induction l as [ | a l IH]; intros e c; [ reflexivity | ].
  cbn [fold_left].
  destruct (bucketStep period (e, c) a) as [e' c'] eqn:Hstep.
  unfold bucketStep in Hstep. injection Hstep as _ <-. apply IH.
Qed.

Lemma bucketStep_sums period l e c :
  fst (fold_left (bucketStep period) l (e, c))
  = fold_left (fun m a => Map_upsert (labelFormat period (date a))
                 (fun v => (orZero v + amount a)%float) m)
      (List.filter isCompleted l) e.
Proof.
  revert e c. induction l as [ | a l IH]; intros e c; [ reflexivity | ].
  cbn [fold_left List.filter].
  destruct (bucketStep period (e, c) a) as [e' c'] eqn:Hstep.
  unfold bucketStep in Hstep. injection Hstep as <- _.
  rewrite IH. unfold isCompleted at 2.
  destruct (bool_decide (status a = completed)); reflexivity.
Qed.

Lemma therapistAnalytics_sessionTypes users apps tid period now :
  sessionTypes (therapistAnalytics users apps tid period now)
  = fold_left (fun m app => Map_upsert (sessionType app)
                 (fun v => match v with Some n => n | None => 0 end + 1) m)
      (appointmentsInRange apps tid period now) [].
Proof.
  unfold therapistAnalytics.
  destruct (fold_left (bucketStep period) _ ([], [])) as [e c]. reflexivity.
Qed.

(** The labels of the appointment series are the labels of the
    appointments in the window. *)
Lemma appointments_series_entries users apps tid period now l :
  In l (labels (appointments (therapistAnalytics users apps tid period now)))
  <-> exists a, In a (appointmentsInRange apps tid period now)
                /\ labelFormat period (date a) = l.
Proof.
  rewrite therapistAnalytics_appointments. cbv zeta. cbn [labels].
  fold (appointmentsInRange apps tid period now). rewrite bucketStep_counts.
  set (w := appointmentsInRange apps tid period now).
  set (key := fun a : Appointment => labelFormat period (date a)).
  destruct (count_fold_entries key w
              (sortBy byLabelDate
                 (fold_left (fun m a => Map_upsert (key a)
                    (fun v => match v with Some n => n | None => 0 end + 1) m) w []))
              (sortBy_Permutation _ _)) as (_ & Hentries & _).
  split.
  - intros Hl. apply in_map_iff in Hl as ([l' n] & E & Hin). cbn [fst] in E. subst l'.
    apply Hentries in Hin as [Hpos Hn].
    destruct (withKey key l w) as [ | a r] eqn:Hw; [ cbn in Hn; lia | ].
    assert (In a (withKey key l w)) as Ha by (rewrite Hw; left; reflexivity).
    apply withKey_In in Ha. exists a. exact Ha.
  - intros (a & Ha & Hk).
    apply in_map_iff. exists (l, Z.of_nat (length (withKey key l w))).
    split; [ reflexivity | ]. apply Hentries. split; [ | reflexivity ].
    assert (In a (withKey key l w)) as Hin by (apply withKey_In; tauto).
    destruct (withKey key l w); [ destruct Hin | cbn [length]; lia ].
Qed.

(** The appointment series of the provider analytics: one entry per label
    that occurs among the provider's appointments dated in the window, with
    the number of those appointments that carry the label, whatever their
    status; the counts add up to the number of appointments in the window. *)
Theorem appointments_series_per_label users apps tid period now :
  length (labels (appointments (therapistAnalytics users apps tid period now)))
    = length (data (appointments (therapistAnalytics users apps tid period now)))
  /\ List.NoDup (labels (appointments (therapistAnalytics users apps tid period now)))
  /\ (forall l n,
        In (l, n) (combine (labels (appointments (therapistAnalytics users apps tid period now)))
                           (data (appointments (therapistAnalytics users apps tid period now))))
        <-> 0 < n
            /\ n = Z.of_nat (length (withKey (fun a => labelFormat period (date a)) l
                                       (appointmentsInRange apps tid period now))))
  /\ sumZ (data (appointments (therapistAnalytics users apps tid period now)))
     = Z.of_nat (length (appointmentsInRange apps tid period now)).
Proof.
  rewrite therapistAnalytics_appointments. cbv zeta. cbn [labels data].
  fold (appointmentsInRange apps tid period now).
  rewrite combine_fst_snd, bucketStep_counts, !length_map.
  split; [ reflexivity | ].
  apply count_fold_entries. apply sortBy_Permutation.
Qed.

(** The earnings series of the provider analytics: one entry per label
    that occurs among the provider's completed appointments dated in the
    window, with the running sum of their amounts, added in binary64 in
    the order of the collection; every earnings label is also a label of
    the appointment series. *)
Theorem earnings_series_per_label users apps tid period now :
  List.NoDup (labels (earnings (therapistAnalytics users apps tid period now)))
  /\ (forall l q,
        In (l, q) (combine (labels (earnings (therapistAnalytics users apps tid period now)))
                           (data (earnings (therapistAnalytics users apps tid period now))))
        <-> withKey (fun a => labelFormat period (date a)) l
              (List.filter isCompleted (appointmentsInRange apps tid period now)) <> []
            /\ q = runningSum (map amount
                     (withKey (fun a => labelFormat period (date a)) l
                        (List.filter isCompleted (appointmentsInRange apps tid period now)))))
  /\ (forall l, In l (labels (earnings (therapistAnalytics users apps tid period now))) ->
                In l (labels (appointments (therapistAnalytics users apps tid period now)))).
Proof.
  pose proof (appointments_series_entries users apps tid period now) as Happ.
  rewrite therapistAnalytics_earnings. cbv zeta. cbn [labels data].
  fold (appointmentsInRange apps tid period now).
  rewrite combine_fst_snd, bucketStep_sums.
  set (done := List.filter isCompleted (appointmentsInRange apps tid period now)).
  set (key := fun a : Appointment => labelFormat period (date a)).
  destruct (keywise_entries key (fun a v => (orZero v + amount a)%float)
              (fun b => runningSum (map amount b)) done
              (sortBy byLabelDate
                 (fold_left (fun m a => Map_upsert (key a)
                    (fun v => (orZero v + amount a)%float) m) done []))
              (runningSum_fold amount) (sortBy_Permutation _ _)) as [Hnd Hentries].
  split; [ exact Hnd | ]. split; [ exact Hentries | ].
  intros l Hl. apply in_map_iff in Hl as ([l' q] & E & Hin). cbn [fst] in E. subst l'.
  apply Hentries in Hin as [Hne _].
  destruct (withKey key l done) as [ | a r] eqn:Hw; [ contradiction | ].
  assert (In a (withKey key l done)) as Ha by (rewrite Hw; left; reflexivity).
  apply withKey_In in Ha as [Ha Hk]. unfold done in Ha. apply filter_In in Ha as [Ha _].
  apply Happ. exists a. split; [ exact Ha | exact Hk ].
Qed.

(** The session-type distribution of the provider analytics: one entry per
    session type that occurs among the provider's appointments dated in the
    window, with the number of those appointments; the counts add up to
    the number of appointments in the window. *)
Theorem sessionTypes_distribution users apps tid period now :
  List.NoDup (map fst (sessionTypes (therapistAnalytics users apps tid period now)))
  /\ (forall t n,
        In (t, n) (sessionTypes (therapistAnalytics users apps tid period now))
        <-> 0 < n
            /\ n = Z.of_nat (length (withKey sessionType t
                                       (appointmentsInRange apps tid period now))))
  /\ sumZ (map snd (sessionTypes (therapistAnalytics users apps tid period now)))
     = Z.of_nat (length (appointmentsInRange apps tid period now)).
Proof.
  rewrite therapistAnalytics_sessionTypes.
  apply count_fold_entries. reflexivity.
Qed.
End SeriesProperties.

(** *** The revenue series of the platform analytics, key by key *)

Lemma lookup_map {A B} (f : A -> B) (l : list A) (i : nat) :
  map f l !! i = option_map f (l !! i).
Proof.
  revert i. induction l as [ | x l IH]; intros [ | i]; cbn; try reflexivity. apply IH.
Qed.

Lemma lookup_In {A} (l : list A) (i : nat) (x : A) : l !! i = Some x -> In x l.
Proof. intros Hi. apply list_elem_of_In, list_elem_of_lookup. exists i. exact Hi. Qed.

(** The [$group] of a report leaves, for each key, the amounts and the
    number of the appointments with that key. *)
Lemma groupAmounts_counts {K} `{EqDecision K} (key : Appointment -> K) l acc :
  sumZ (map (fun r : K * (list float * Z) => snd (snd r))
          (fold_left (fun m a => Map_upsert (key a)
               (fun v => match v with
                         | Some (amounts, count) => (amounts ++ [amount a], count + 1)
                         | None => ([amount a], 1)
                         end) m) l acc))
  = sumZ (map (fun r : K * (list float * Z) => snd (snd r)) acc) + Z.of_nat (length l).
Proof.
  revert acc. induction l as [ | a l IH]; intros acc.
  - cbn [fold_left length]. lia.
  - cbn [fold_left]. rewrite IH. unfold Map_upsert.
    rewrite (sumZ_Map_set (fun v : list float * Z => snd v)).
    cbn [length]. destruct (Map_get _ acc) as [[amounts count] | ]; cbn [snd]; lia.
Qed.

(** The documents a [$group] with [$sum] hands on, in any order: one per
    key that occurs, with the [$sum] of the amounts of that key, in the
    order of the stage's input, and their number. *)
Lemma summed_groups_spec `{Aggregation} {K} `{EqDecision K} (key : Appointment -> K)
    (done : list Appointment) (summed : list (K * (float * Z))) :
  Permutation summed
    (map (fun g => (fst g, (sumOf (fst (snd g)), snd (snd g)))) (groupAmounts key done)) ->
  List.NoDup (map fst summed)
  /\ (forall k t c, In (k, (t, c)) summed
        <-> withKey key k done <> []
            /\ t = sumOf (map amount (withKey key k done))
            /\ c = Z.of_nat (length (withKey key k done)))
  /\ sumZ (map (fun r : K * (float * Z) => snd (snd r)) summed) = Z.of_nat (length done).
Proof.
  intros Hp.
  destruct (groupAmounts_entries key done (groupAmounts key done) (Permutation_refl _))
    as [Hnd Hentries].
  set (h := fun g : K * (list float * Z) => (fst g, (sumOf (fst (snd g)), snd (snd g)))) in *.
  assert (map fst (map h (groupAmounts key done)) = map fst (groupAmounts key done)) as Hkeys
    by (rewrite map_map; reflexivity).
  split; [ | split ].
  - apply (Permutation_NoDup (Permutation_sym (Permutation_map fst Hp))).
    rewrite Hkeys. exact Hnd.
  - intros k t c. split.
    + intros Hin. apply (Permutation_in _ Hp) in Hin.
      apply in_map_iff in Hin as ([k' [amounts c']] & E & Hin).
      unfold h in E. cbn [fst snd] in E. injection E as -> <- ->.
      apply Hentries in Hin as [Hne E]. injection E as -> ->. tauto.
    + intros (Hne & -> & ->). apply (Permutation_in _ (Permutation_sym Hp)).
      apply in_map_iff.
      exists (k, (map amount (withKey key k done), Z.of_nat (length (withKey key k done)))).
      split; [ reflexivity | ]. apply Hentries. tauto.
  - rewrite (sumZ_Permutation _ _
               (Permutation_map (fun r : K * (float * Z) => snd (snd r)) Hp)).
    rewrite map_map. unfold h. cbn [snd].
    unfold groupAmounts. rewrite groupAmounts_counts. cbn. lia.
Qed.

(** A sorted [$group] by a string key: keys ascending, and at each key the
    [$sum] and the count of the elements with it. *)
Lemma sorted_groups_spec `{Aggregation} (key : Appointment -> string)
    (done : list Appointment) (sorted : list (string * (float * Z))) :
  sorted = sortBy byKey
             (map (fun g => (fst g, (sumOf (fst (snd g)), snd (snd g))))
                (groupAmounts key done)) ->
  StronglySorted (fun a b => String.ltb a b = true) (map fst sorted)
  /\ (forall i k,
        map fst sorted !! i = Some k ->
        withKey key k done <> []
        /\ map (fun r : string * (float * Z) => fst (snd r)) sorted !! i
           = Some (sumOf (map amount (withKey key k done)))
        /\ map (fun r : string * (float * Z) => snd (snd r)) sorted !! i
           = Some (Z.of_nat (length (withKey key k done))))
  /\ (forall a, In a done -> In (key a) (map fst sorted))
  /\ sumZ (map (fun r : string * (float * Z) => snd (snd r)) sorted) = Z.of_nat (length done).
Proof.
  intros ->.
  set (summed := map _ (groupAmounts key done)).
  destruct (summed_groups_spec key done (sortBy byKey summed) (sortBy_Permutation _ _))
    as (Hnd & Hentries & Hcount).
  assert (List.NoDup (map fst summed)) as Hnd'.
  { apply (Permutation_NoDup (Permutation_map fst (sortBy_Permutation byKey summed))).
    exact Hnd. }
  split; [ apply sortBy_byKey_ascending; exact Hnd' | ].
  split; [ | split; [ | exact Hcount ] ].
  - intros i k Hi. rewrite lookup_map in Hi.
    destruct (sortBy byKey summed !! i) as [[k' [t c]] | ] eqn:Hentry;
      [ | cbn in Hi; discriminate Hi ].
    cbn in Hi. injection Hi as ->.
    rewrite !lookup_map, Hentry. cbn [option_map fst snd].
    apply lookup_In in Hentry. apply Hentries in Hentry as (Hne & -> & ->).
    split; [ exact Hne | split; reflexivity ].
  - intros a Ha.
    assert (In a (withKey key (key a) done)) as Hin by (apply withKey_In; tauto).
    apply in_map_iff.
    exists (key a, (sumOf (map amount (withKey key (key a) done)),
                    Z.of_nat (length (withKey key (key a) done)))).
    split; [ reflexivity | ].
    apply Hentries. split; [ | split; reflexivity ].
    intros E. rewrite E in Hin. destruct Hin.
Qed.

(** The revenue report of the platform analytics: the labels are the date
    keys of the completed appointments dated from [startDate] on, in
    strictly ascending order; at the index of a key stand the [$sum] of
    the amounts of the appointments with that key, taken in the order of
    the collection, and their number; the counts add up to the number of
    those appointments. *)
Theorem revenueData_per_key `{Calendar} `{Aggregation} apps startDate period :
  StronglySorted (fun a b => String.ltb a b = true)
    (rev_labels (getRevenueData apps startDate period))
  /\ (forall i k,
        rev_labels (getRevenueData apps startDate period) !! i = Some k ->
        withKey (fun a => dateToString (revenueFormat period) (date a)) k
          (completedSince apps startDate) <> []
        /\ revenue (getRevenueData apps startDate period) !! i
           = Some (sumOf (map amount
                     (withKey (fun a => dateToString (revenueFormat period) (date a)) k
                        (completedSince apps startDate))))
        /\ rev_appointments (getRevenueData apps startDate period) !! i
           = Some (Z.of_nat (length
                     (withKey (fun a => dateToString (revenueFormat period) (date a)) k
                        (completedSince apps startDate)))))
  /\ (forall a, In a (completedSince apps startDate) ->
        In (dateToString (revenueFormat period) (date a))
           (rev_labels (getRevenueData apps startDate period)))
  /\ sumZ (rev_appointments (getRevenueData apps startDate period))
     = Z.of_nat (length (completedSince apps startDate)).
Proof.
  exact (sorted_groups_spec (fun a => dateToString (revenueFormat period) (date a))
           (completedSince apps startDate) _ eq_refl).
Qed.

(** ** Series and totals (C9) *)

Lemma rationalSum_nil : rationalSum [] = Q2Qc 0.
Proof. reflexivity. Qed.

Lemma rationalSum_cons x l : rationalSum (x :: l) = (x + rationalSum l)%Qc.
Proof. reflexivity. Qed.

Lemma rationalSum_app l1 l2 : rationalSum (l1 ++ l2) = (rationalSum l1 + rationalSum l2)%Qc.
Proof.
  induction l1 as [ | x l1 IH].
  - rewrite app_nil_l, rationalSum_nil. ring.
  - rewrite <- app_comm_cons, !rationalSum_cons, IH. ring.
Qed.

Lemma rationalSum_Permutation l1 l2 : Permutation l1 l2 -> rationalSum l1 = rationalSum l2.
Proof.
  induction 1 as [ | x l1 l2 _ IH | x y l | l1 l2 l3 _ IH1 _ IH2 ].
  - reflexivity.
  - rewrite !rationalSum_cons, IH. reflexivity.
  - rewrite !rationalSum_cons. ring.
  - congruence.
Qed.

Lemma exactSum_concat {K} (bucket : K -> list float) (keys : list K) :
  rationalSum (map (fun k => exactSum (bucket k)) keys) = exactSum (concat (map bucket keys)).
Proof.
  induction keys as [ | k keys IH]; [ reflexivity | ].
  cbn [map concat]. rewrite rationalSum_cons, IH. unfold exactSum.
  rewrite map_app, rationalSum_app. reflexivity.
Qed.

(** A series with one entry per key that occurs, whose value at a key is
    [F] of the amounts with that key: when [F] adds the amounts of every
    key without rounding, the series adds up, as rational numbers, to what
    all the amounts add up to. *)
Lemma exact_series_sum {K} `{EqDecision K} (key : Appointment -> K) (F : list float -> float)
    (done : list Appointment) (series : list (K * float)) :
  List.NoDup (map fst series) ->
  (forall k v, In (k, v) series
     <-> withKey key k done <> [] /\ v = F (map amount (withKey key k done))) ->
  (forall k, In k (map fst series) ->
     exactValue (F (map amount (withKey key k done)))
     = exactSum (map amount (withKey key k done))) ->
  exactSum (map snd series) = exactSum (map amount done).
Proof.
  intros Hnd Hentries Hexact.
  assert (map snd series
          = map (fun k => F (map amount (withKey key k done))) (map fst series)) as ->.
  { rewrite map_map. apply map_ext_in. intros [k v] Hin. cbn [fst snd].
    apply Hentries in Hin as [_ ->]. reflexivity. }
  unfold exactSum at 1. rewrite map_map.
  rewrite (map_ext_in _ (fun k => exactSum (map amount (withKey key k done))) _ Hexact).
  rewrite (exactSum_concat (fun k => map amount (withKey key k done))).
  rewrite <- (map_map (fun k => withKey key k done) (map amount)), <- concat_map.
  unfold exactSum. apply rationalSum_Permutation. apply Permutation_map, Permutation_map.
  apply Permutation_by_key; [ exact Hnd | ].
  intros x Hx. apply in_map_iff.
  exists (key x, F (map amount (withKey key (key x) done))). split; [ reflexivity | ].
  apply Hentries. split; [ | reflexivity ].
  intros Hnil. assert (In x (withKey key (key x) done)) as Hin by (apply withKey_In; tauto).
  rewrite Hnil in Hin. destruct Hin.
Qed.

(** C9 fails.  Provider 9 charges 31 an hour; three completed sessions of
    30, 30 and 50 minutes are stored with the amounts 15.500000000000002,
    15.500000000000002 and 25.833333333333336, the first and the third on
    one day.  Both reports answer the series 41.333333333333336,
    15.500000000000002.  Its first entry is the rounded sum of two
    amounts, so the series does not add up to what the three amounts add
    up to; added in binary64 it gives 56.833333333333336, while the
    amounts added in the order of the collection, which is the
    [totalRevenue] of the same platform report, give
    56.833333333333343. *)
Lemma C9_counterexample :
  map amount (completedInRange roundedLedger 9 (startDateOf "week" (19723 * msPerDay)))
    = [0x1.f000000000001p+3; 0x1.f000000000001p+3; 0x1.9d55555555556p+4]%float
  /\ map amount (completedSince roundedLedger (startDateOf "week" (19723 * msPerDay)))
     = [0x1.f000000000001p+3; 0x1.f000000000001p+3; 0x1.9d55555555556p+4]%float
  /\ earnings (therapistAnalytics exampleUsers roundedLedger 9 "week" (19723 * msPerDay))
     = mkSeries ["19720"; "19721"] [0x1.4aaaaaaaaaaabp+5; 0x1.f000000000001p+3]%float
  /\ revenue (snd (adminAnalytics roundedLedger "week" (19723 * msPerDay)))
     = [0x1.4aaaaaaaaaaabp+5; 0x1.f000000000001p+3]%float
  /\ exactSum [0x1.4aaaaaaaaaaabp+5; 0x1.f000000000001p+3]%float
     <> exactSum [0x1.f000000000001p+3; 0x1.f000000000001p+3; 0x1.9d55555555556p+4]%float
  /\ (0x1.4aaaaaaaaaaabp+5 + 0x1.f000000000001p+3)%float = 0x1.c6aaaaaaaaaabp+5%float
  /\ (0x1.f000000000001p+3 + 0x1.f000000000001p+3 + 0x1.9d55555555556p+4)%float
     = 0x1.c6aaaaaaaaaacp+5%float
  /\ totalRevenue (fst (adminAnalytics roundedLedger "week" (19723 * msPerDay)))
     = 0x1.c6aaaaaaaaaacp+5%float
  /\ 0x1.c6aaaaaaaaaabp+5%float <> 0x1.c6aaaaaaaaaacp+5%float.
Proof.
  repeat (split; [ vm_compute; reflexivity | ]).
  split.
  - intros E. apply (f_equal this) in E. vm_compute in E. discriminate E.
  - repeat (split; [ vm_compute; reflexivity | ]).
    intros E. apply (f_equal Prim2SF) in E. vm_compute in E. discriminate E.
Qed.

Section WindowTotals.
Context `{Calendar} `{Aggregation}.

Lemma earnings_series_exact users apps tid period now :
  (forall l, In l (labels (earnings (therapistAnalytics users apps tid period now))) ->
     exactValue (runningSum (map amount
                   (withKey (fun a => labelFormat period (date a)) l
                      (completedInRange apps tid (startDateOf period now)))))
     = exactSum (map amount
                   (withKey (fun a => labelFormat period (date a)) l
                      (completedInRange apps tid (startDateOf period now))))) ->
  exactSum (data (earnings (therapistAnalytics users apps tid period now)))
  = exactSum (map amount (completedInRange apps tid (startDateOf period now))).
Proof.
  rewrite therapistAnalytics_earnings. cbv zeta. cbn [labels data].
  rewrite bucketStep_sums.
  assert (List.filter isCompleted
            (findAll (fun a => Nat.eqb (therapist a) tid && (startDateOf period now <=? date a))
               apps)
          = completedInRange apps tid (startDateOf period now)) as ->
    by (unfold completedInRange, findAll; apply filter_filter_andb).
  set (done := completedInRange apps tid (startDateOf period now)).
  set (key := fun a : Appointment => labelFormat period (date a)).
  set (series := sortBy byLabelDate _).
  destruct (keywise_entries key (fun a v => (orZero v + amount a)%float)
              (fun b => runningSum (map amount b)) done series
              (runningSum_fold amount) (sortBy_Permutation _ _)) as [Hnd Hentries].
  intros Hexact.
  exact (exact_series_sum key runningSum done series Hnd Hentries Hexact).
Qed.

Lemma revenue_series_exact apps startDate period :
  (forall k, In k (rev_labels (getRevenueData apps startDate period)) ->
     exactValue (sumOf (map amount
                   (withKey (fun a => dateToString (revenueFormat period) (date a)) k
                      (completedSince apps startDate))))
     = exactSum (map amount
                   (withKey (fun a => dateToString (revenueFormat period) (date a)) k
                      (completedSince apps startDate)))) ->
  exactSum (revenue (getRevenueData apps startDate period))
  = exactSum (map amount (completedSince apps startDate)).
Proof.
  unfold getRevenueData. cbv zeta. cbn [rev_labels revenue].
  fold (revenueFormat period). fold (completedSince apps startDate).
  set (done := completedSince apps startDate).
  set (key := fun a : Appointment => dateToString (revenueFormat period) (date a)).
  set (sorted := sortBy byKey _).
  destruct (summed_groups_spec key done sorted (sortBy_Permutation _ _))
    as (Hnd & Hentries & _).
  set (series := map (fun r : string * (float * Z) => (fst r, fst (snd r))) sorted).
  assert (map fst series = map fst sorted) as Hkeys by (unfold series; rewrite map_map; reflexivity).
  assert (map snd series = map (fun r : string * (float * Z) => fst (snd r)) sorted) as Hvalues
    by (unfold series; rewrite map_map; reflexivity).
  rewrite <- Hkeys, <- Hvalues. intros Hexact.
  apply (exact_series_sum key sumOf done series); [ rewrite Hkeys; exact Hnd | | exact Hexact ].
  intros k v. unfold series. rewrite in_map_iff. split.
  - intros ([k' [t c]] & E & Hin). cbn [fst snd] in E. injection E as -> ->.
    apply Hentries in Hin. tauto.
  - intros [Hne ->].
    exists (k, (sumOf (map amount (withKey key k done)),
                Z.of_nat (length (withKey key k done)))).
    split; [ reflexivity | ]. apply Hentries. tauto.
Qed.

(** C9, amended.  A report over a window that holds no appointment of the
    provider answers zero-length earnings and appointment series, and the
    platform report over a window that holds no completed appointment
    answers zero-length revenue series; neither is an error.  The values
    of the series are binary64 sums.  When the sum at every label is the
    sum of the amounts with that label without rounding, the series adds
    up, as rational numbers, to what the amounts of the completed
    appointments dated in the window add up to: those of the provider for
    the provider's report, all of them for the platform's. *)
Theorem C9_series_sum_to_window_total users apps tid period now :
  (appointmentsInRange apps tid period now = [] ->
     earnings (therapistAnalytics users apps tid period now) = mkSeries [] []
     /\ appointments (therapistAnalytics users apps tid period now) = mkSeries [] [])
  /\ (completedSince apps (startDateOf period now) = [] ->
        snd (adminAnalytics apps period now)
        = {| rev_labels := []; revenue := []; rev_appointments := [] |})
  /\ ((forall l, In l (labels (earnings (therapistAnalytics users apps tid period now))) ->
         exactValue (runningSum (map amount
                       (withKey (fun a => labelFormat period (date a)) l
                          (completedInRange apps tid (startDateOf period now)))))
         = exactSum (map amount
                       (withKey (fun a => labelFormat period (date a)) l
                          (completedInRange apps tid (startDateOf period now))))) ->
      exactSum (data (earnings (therapistAnalytics users apps tid period now)))
      = exactSum (map amount (completedInRange apps tid (startDateOf period now))))
  /\ ((forall k, In k (rev_labels (snd (adminAnalytics apps period now))) ->
         exactValue (sumOf (map amount
                       (withKey (fun a => dateToString (revenueFormat period) (date a)) k
                          (completedSince apps (startDateOf period now)))))
         = exactSum (map amount
                       (withKey (fun a => dateToString (revenueFormat period) (date a)) k
                          (completedSince apps (startDateOf period now))))) ->
      exactSum (revenue (snd (adminAnalytics apps period now)))
      = exactSum (map amount (completedSince apps (startDateOf period now)))).
Proof.
  split; [ | split; [ | split ] ].
  - intros Hempty.
    rewrite therapistAnalytics_earnings, therapistAnalytics_appointments. cbv zeta.
    unfold appointmentsInRange in Hempty. rewrite Hempty. split; reflexivity.
  - intros Hempty. unfold adminAnalytics, getRevenueData. cbn [snd]. cbv zeta.
    unfold completedSince in Hempty. rewrite Hempty. reflexivity.
  - apply earnings_series_exact.
  - unfold adminAnalytics. cbn [snd]. apply revenue_series_exact.
Qed.
End WindowTotals.

(** Three completed sessions of provider 7, at 90 an hour: the amounts 45,
    90 and 45 are added without rounding, and both series, 90 and 90, add
    up to 180. *)
Lemma C9_series_sum_witness :
  earnings (therapistAnalytics exampleUsers wholeAmountsLedger 7 "week" (19723 * msPerDay))
    = mkSeries ["19720"; "19721"] [90; 90]%float
  /\ map amount (completedInRange wholeAmountsLedger 7 (startDateOf "week" (19723 * msPerDay)))
     = [45; 90; 45]%float
  /\ exactSum (data (earnings (therapistAnalytics exampleUsers wholeAmountsLedger 7 "week"
                                 (19723 * msPerDay))))
     = exactSum (map amount (completedInRange wholeAmountsLedger 7
                               (startDateOf "week" (19723 * msPerDay))))
  /\ exactSum (revenue (snd (adminAnalytics wholeAmountsLedger "week" (19723 * msPerDay))))
     = exactSum (map amount (completedSince wholeAmountsLedger
                               (startDateOf "week" (19723 * msPerDay)))).
Proof.
  split; [ vm_compute; reflexivity | ]. split; [ vm_compute; reflexivity | ].
  destruct (C9_series_sum_to_window_total exampleUsers wholeAmountsLedger 7 "week"
              (19723 * msPerDay)) as (_ & _ & Hprovider & Hplatform).
  split.
  - apply Hprovider. intros l Hl. vm_compute in Hl.
    destruct Hl as [<- | [<- | []]]; apply Qc_is_canon; vm_compute; reflexivity.
  - apply Hplatform. intros k Hk. vm_compute in Hk.
    destruct Hk as [<- | [<- | []]]; apply Qc_is_canon; vm_compute; reflexivity.
Defined.

(** ** Invariants of every reachable ledger *)

Lemma In_insert {A} (l : list A) (i : nat) (x y : A) :
  In y (<[i := x]> l) -> y = x \/ In y l.
Proof.
  revert i. induction l as [ | z l IH]; intros [ | i]; cbn.
  - tauto.
  - tauto.
  - intros [E | Hin]; [ left; congruence | right; right; exact Hin ].
  - intros [E | Hin]; [ right; left; exact E | ].
    destruct (IH i Hin) as [E | Hin']; [ left; exact E | right; right; exact Hin' ].
Qed.

Lemma Forall_insert_lookup {A} (P : A -> Prop) (l : list A) (i : nat) (x : A) :
  P x -> Forall P l -> Forall P (<[i := x]> l).
Proof.
  intros Hx Hl. rewrite List.Forall_forall in *. intros y Hy.
  apply In_insert in Hy as [-> | Hy]; [ exact Hx | apply Hl; exact Hy ].
Qed.

Lemma findById_inv filter id apps a :
  findById filter id apps = Some a -> apps !! id = Some a /\ filter a = true.
Proof.
  unfold findById. destruct (apps !! id) as [b | ]; [ | discriminate ].
  destruct (filter b) eqn:Hf; [ | discriminate ]. intros [= <-]. tauto.
Qed.

Section WellFormed.
Context `{Runtime}.

Lemma bookedAppointment_wellFormed th now r :
  validBookRequest r = true -> schemaAccepts (bookedAppointment th now r) = true ->
  wellFormed (bookedAppointment th now r).
Proof.
  intros Hv Hs. destruct (validBookRequest_parts r Hv) as (Hst & Hd & Hn).
  unfold validBookRequest in Hv. rewrite !andb_true_iff in Hv. destruct Hv as [_ Hnotes].
  unfold wellFormed, bookedAppointment.
  cbn [newAppointment startTime duration endTime paymentStatus notes cancellationReason
       review rating status optLengthAtMost amount].
  split; [ exact Hst | ]. split; [ exact Hn | ].
  split; [ exists (req_duration r); repeat split; assumption | ].
  split; [ exact Hs | ].
  repeat split; try assumption.
Qed.

Ltac keep_wellFormed W1 W2 W3 W4 :=
  split; [ exact W1 | ]; split; [ exact W2 | ]; split; [ exact W3 | ]; split; [ exact W4 | ].

Lemma wellFormed_step apps op :
  Forall wellFormed apps -> Forall wellFormed (step apps op).
Proof.
  intros Hall.
  assert (forall id a, apps !! id = Some a -> wellFormed a) as Hat.
  { intros id a Ha. rewrite List.Forall_forall in Hall. apply Hall.
    apply list_elem_of_In, list_elem_of_lookup. eauto. }
  destruct op as [ths now r | id actor s n c | id actor s | id cl | id cl rt rv]; cbn [step].
  - destruct (book ths now apps r) as [apps' [a | e]] eqn:Hbook; cbn [fst].
    + apply book_Ok_inv in Hbook as (Hv & (th & _ & ->) & -> & _ & Hs).
      apply Forall_app. split; [ exact Hall | ].
      constructor; [ apply bookedAppointment_wellFormed; assumption | constructor ].
    + pose proof (book_ledger ths now apps r) as Hl. rewrite Hbook in Hl. cbn in Hl.
      subst apps'. exact Hall.
  - unfold setStatus. destruct (negb _) eqn:Hvalid; [ exact Hall | ].
    apply negb_false_iff in Hvalid. rewrite !andb_true_iff in Hvalid.
    destruct Hvalid as [[Hs Hn] Hc].
    destruct (findById _ id apps) as [a | ] eqn:Hf; [ | exact Hall ]. cbn [fst].
    apply findById_inv in Hf as [Ha _].
    apply Forall_insert_lookup; [ | exact Hall ].
    destruct (Hat id a Ha) as (W1 & W2 & W3 & W4 & W5 & W6 & W7 & W8 & W9 & W10).
    unfold wellFormed.
    destruct (truthy n), (truthy c);
      cbn [withStatus withNotes withCancellationReason startTime duration endTime
           paymentStatus notes cancellationReason review rating status amount];
      keep_wellFormed W1 W2 W3 W4;
      (repeat split; try assumption; try lia;
       try (subst s; discriminate Hs)).
  - unfold updateStatus. destruct (negb _) eqn:Hvalid; [ exact Hall | ].
    apply negb_false_iff in Hvalid.
    destruct (findById _ id apps) as [a | ] eqn:Hf; [ | exact Hall ]. cbn [fst].
    apply findById_inv in Hf as [Ha _].
    apply Forall_insert_lookup; [ | exact Hall ].
    destruct (Hat id a Ha) as (W1 & W2 & W3 & W4 & W5 & W6 & W7 & W8 & W9 & W10).
    unfold wellFormed.
    cbn [withStatus startTime duration endTime
         paymentStatus notes cancellationReason review rating status amount].
    keep_wellFormed W1 W2 W3 W4.
    repeat split; try assumption; try lia; try (subst s; discriminate Hvalid).
  - unfold cancel.
    destruct (findById _ id apps) as [a | ] eqn:Hf; [ | exact Hall ]. cbn [fst].
    apply findById_inv in Hf as [Ha _].
    apply Forall_insert_lookup; [ | exact Hall ].
    destruct (Hat id a Ha) as (W1 & W2 & W3 & W4 & W5 & W6 & W7 & W8 & W9 & W10).
    unfold wellFormed.
    cbn [withStatus startTime duration endTime
         paymentStatus notes cancellationReason review rating status amount].
    keep_wellFormed W1 W2 W3 W4.
    repeat split; try assumption; try lia; try discriminate.
  - unfold submitReview. destruct (negb _) eqn:Hvalid; [ exact Hall | ].
    apply negb_false_iff in Hvalid. rewrite !andb_true_iff, !Z.leb_le in Hvalid.
    destruct Hvalid as [[H1 H5] Hrv].
    destruct (findById _ id apps) as [a | ] eqn:Hf; [ | exact Hall ]. cbn [fst].
    apply findById_inv in Hf as [Ha Hfilter].
    apply andb_true_iff in Hfilter as [_ Hdone]. apply bool_decide_eq_true_1 in Hdone.
    apply Forall_insert_lookup; [ | exact Hall ].
    destruct (Hat id a Ha) as (W1 & W2 & W3 & W4 & W5 & W6 & W7 & W8 & W9 & W10).
    unfold wellFormed.
    cbn [withReview startTime duration endTime
         paymentStatus notes cancellationReason review rating status amount].
    keep_wellFormed W1 W2 W3 W4.
    repeat split; try assumption; try lia; try congruence.
Qed.

Lemma wellFormed_fold ops apps :
  Forall wellFormed apps -> Forall wellFormed (fold_left step ops apps).
Proof.
  revert apps. induction ops as [ | op ops IH]; intros apps Hall; [ exact Hall | ].
  cbn [fold_left]. apply IH. apply wellFormed_step. exact Hall.
Qed.

(** Whatever calls are made, in whatever order and with whatever
    arguments, every appointment of the ledger is well formed: valid start
    time, duration of 30 to 180 minutes, end time computed from the start
    time and the duration as it was sent, amount not negative, texts
    within their lengths, rating (if any) of 1 to 5, payment still
    pending, and no rating, review or cancellation reason on an
    appointment that is still pending. *)
Theorem every_stored_appointment_wellFormed ops : Forall wellFormed (run ops).
Proof. apply wellFormed_fold. constructor. Qed.

End WellFormed.

(** *** Ratings *)

Lemma therapistAnalytics_averageRating `{Calendar} `{Aggregation} users apps tid period now :
  averageRating (clientStats (therapistAnalytics users apps tid period now))
  = averageRatingOf apps tid.
Proof.
  unfold therapistAnalytics.
  destruct (fold_left (bucketStep period) _ ([], [])) as [e c]. reflexivity.
Qed.

Lemma ratedBy_range `{Runtime} apps tid :
  Forall wellFormed apps -> Forall (fun r => 1 <= r <= 5) (ratedBy apps tid).
Proof.
  intros Hall. unfold ratedBy, findAll.
  induction Hall as [ | a apps Ha _ IH]; [ constructor | ].
  cbn [List.filter]. destruct (_ && _); [ | exact IH ].
  destruct Ha as (_ & _ & _ & _ & _ & _ & _ & _ & W9 & _).
  cbn [omap list_omap]. destruct (rating a) as [r | ]; [ | exact IH ].
  constructor; [ exact W9 | exact IH ].
Qed.

(** On every reachable ledger the average rating of the provider
    analytics is 0 when the provider has no completed, rated appointment;
    otherwise it is the [$avg] of the ratings of those appointments (0 if
    that is 0 or [NaN]), and these ratings are whole numbers from 1 to 5. *)
Theorem averageRating_between_1_and_5 `{Runtime} `{Calendar} `{Aggregation}
    users ops tid period now :
  Forall (fun r => 1 <= r <= 5) (ratedBy (run ops) tid)
  /\ (ratedBy (run ops) tid = [] ->
        averageRating (clientStats (therapistAnalytics users (run ops) tid period now))
        = 0%float)
  /\ (ratedBy (run ops) tid <> [] ->
        averageRating (clientStats (therapistAnalytics users (run ops) tid period now))
        = JS.orZero (avgOf (map JS.Number_ofZ (ratedBy (run ops) tid)))).
Proof.
  rewrite therapistAnalytics_averageRating.
  split; [ exact (ratedBy_range (run ops) tid (wellFormed_fold ops [] (Forall_nil _))) | ].
  unfold averageRatingOf. fold (ratedBy (run ops) tid).
  destruct (ratedBy (run ops) tid) as [ | r l] eqn:Hr.
  - split; [ reflexivity | intros Hne; contradiction ].
  - split; [ discriminate | reflexivity ].
Qed.

(** ** How the calls compose *)

Section Composition.
Context `{Runtime}.

(** After a call, a stored appointment has the times and the duration of
    an appointment stored before it, or is the document of the booking
    just made. *)
Lemma step_times apps op x :
  In x (step apps op) ->
  (exists y, In y apps /\ startTime x = startTime y /\ endTime x = endTime y
             /\ duration x = duration y)
  \/ (exists ths now r th, op = OpBook ths now r /\ validBookRequest r = true
                           /\ x = bookedAppointment th now r).
Proof.
  assert (forall id a a', apps !! id = Some a ->
            startTime a' = startTime a -> endTime a' = endTime a -> duration a' = duration a ->
            In x (<[id := a']> apps) ->
            exists y, In y apps /\ startTime x = startTime y /\ endTime x = endTime y
                      /\ duration x = duration y) as Hupd.
  { intros id a a' Ha Es Ee Ed Hin. apply In_insert in Hin as [-> | Hin].
    - exists a. split; [ apply (lookup_In apps id); exact Ha | tauto ].
    - exists x. tauto. }
  assert (In x apps ->
          exists y, In y apps /\ startTime x = startTime y /\ endTime x = endTime y
                    /\ duration x = duration y) as Hsame by (intros Hin; exists x; tauto).
  destruct op as [ths now r | id actor s n c | id actor s | id cl | id cl rt rv]; cbn [step].
  - destruct (book ths now apps r) as [apps' [a | e]] eqn:Hbook; cbn [fst].
    + apply book_Ok_inv in Hbook as (Hv & (th & _ & ->) & -> & _ & _).
      intros Hin. apply in_app_or in Hin as [Hin | [<- | []]].
      * left. apply Hsame, Hin.
      * right. exists ths, now, r, th. tauto.
    + pose proof (book_ledger ths now apps r) as Hl. rewrite Hbook in Hl. cbn in Hl.
      subst apps'. intros Hin. left. apply Hsame, Hin.
  - unfold setStatus. destruct (negb _); [ intros Hin; left; apply Hsame, Hin | ].
    destruct (findById _ id apps) as [a | ] eqn:Hf; [ | intros Hin; left; apply Hsame, Hin ].
    cbn [fst]. apply findById_inv in Hf as [Ha _].
    intros Hin. left. apply (Hupd id a _ Ha) in Hin; [ exact Hin | | | ];
      destruct (truthy n), (truthy c); reflexivity.
  - unfold updateStatus. destruct (negb _); [ intros Hin; left; apply Hsame, Hin | ].
    destruct (findById _ id apps) as [a | ] eqn:Hf; [ | intros Hin; left; apply Hsame, Hin ].
    cbn [fst]. apply findById_inv in Hf as [Ha _].
    intros Hin. left. apply (Hupd id a _ Ha) in Hin; [ exact Hin | | | ]; reflexivity.
  - unfold cancel.
    destruct (findById _ id apps) as [a | ] eqn:Hf; [ | intros Hin; left; apply Hsame, Hin ].
    cbn [fst]. apply findById_inv in Hf as [Ha _].
    intros Hin. left. apply (Hupd id a _ Ha) in Hin; [ exact Hin | | | ]; reflexivity.
  - unfold submitReview. destruct (negb _); [ intros Hin; left; apply Hsame, Hin | ].
    destruct (findById _ id apps) as [a | ] eqn:Hf; [ | intros Hin; left; apply Hsame, Hin ].
    cbn [fst]. apply findById_inv in Hf as [Ha _].
    intros Hin. left. apply (Hupd id a _ Ha) in Hin; [ exact Hin | | | ]; reflexivity.
Qed.

Lemma bookedAppointment_timedByNumber th now r :
  validBookRequest r = true -> sentAsNumber (req_duration r) = true ->
  timedByNumber (bookedAppointment th now r).
Proof.
  intros Hv Hn. destruct (validBookRequest_parts r Hv) as (Hs & _ & Hd).
  destruct (matchesStartTime_minutes _ Hs) as (m & Hm & Hrange).
  exists m. cbn [duration startTime endTime bookedAppointment newAppointment].
  split; [ exact Hrange | ]. split; [ exact Hd | ]. split; [ exact Hm | ].
  unfold computeEndTime, endTimeMinutes.
  destruct (req_duration r) as [n | s]; [ | discriminate Hn ].
  rewrite Hm. reflexivity.
Qed.

Lemma timedByNumber_fold ops apps :
  numberDurations ops = true ->
  Forall timedByNumber apps -> Forall timedByNumber (fold_left step ops apps).
Proof.
  revert apps. induction ops as [ | op ops IH]; intros apps Hn Hall; [ exact Hall | ].
  cbn [numberDurations forallb] in Hn. apply andb_true_iff in Hn as [Hop Hn].
  cbn [fold_left]. apply IH; [ exact Hn | ].
  rewrite List.Forall_forall in *. intros x Hx.
  apply step_times in Hx as [(y & Hy & Es & Ee & Ed) | (ths & now & r & th & -> & Hv & ->)].
  - destruct (Hall y Hy) as (m & Hm & Hd & Hmin & He).
    exists m. rewrite Es, Ee, Ed. tauto.
  - apply bookedAppointment_timedByNumber; assumption.
Qed.

(** When every booking has sent its duration as a number, the end time of
    every stored appointment is formatted from the minutes of its start
    plus its duration. *)
Lemma run_timedByNumber ops a :
  numberDurations ops = true -> In a (run ops) -> timedByNumber a.
Proof.
  intros Hn. pose proof (timedByNumber_fold ops [] Hn (Forall_nil _)) as Hall.
  rewrite List.Forall_forall in Hall. apply Hall.
Qed.

End Composition.

(** *** Start times with a one-digit hour *)

(** A start time whose hour is one digit from 3 to 9 is, as a string,
    above every end time the booking routes store. *)
Lemma ltb_time4_formatTime b c d n :
  3 <= b <= 9 -> 0 <= n < 1800 -> String.ltb (time4 b c d) (formatTime (Some n)) = false.
Proof.
  intros Hb Hn. rewrite formatTime_digits by lia.
  assert (0 <= n / 60 < 30) as Hh
    by (split; [ apply Z.div_pos | apply Z.div_lt_upper_bound ]; lia).
  assert (0 <= n / 60 / 10 < 3) as Ht
    by (split; [ apply Z.div_pos | apply Z.div_lt_upper_bound ]; lia).
  change (time4 b c d)
    with (String (digitChar b) (String ":" EmptyString)
          ++ String (digitChar c) (String (digitChar d) EmptyString))%string.
  unfold String.ltb. unfold twoDigits at 1. rewrite compare_two_chars.
  rewrite compare_digitChar by lia.
  destruct (Z.compare_spec b (n / 60 / 10)) as [E | L | G]; [ lia | lia | reflexivity ].
Qed.

(** On a ledger reached by calls whose bookings all sent their duration
    as a number, a valid request to an available provider with an accepted
    rate whose start time names the hour with one digit from 3 to 9 is
    booked, whatever that ledger already holds for the provider and the
    date: the conflict query compares the start time as a string with
    stored end times that all begin with 0, 1 or 2. *)
Theorem one_digit_hour_is_always_booked `{Runtime} ths now ops r th b c d :
  numberDurations ops = true ->
  validBookRequest r = true -> providerAvailable ths (therapistId r) th ->
  rateAccepted th ->
  req_startTime r = time4 b c d -> 3 <= b <= 9 ->
  book ths now (run ops) r
  = (run ops ++ [bookedAppointment th now r], Ok (bookedAppointment th now r)).
Proof.
  intros Hnum Hv Hp Hrate Hs Hb.
  destruct (book_outcome ths now (run ops) r th Hv Hp Hrate)
    as [[(a & Hin & Hc) _] | [_ Hbook]]; [ exfalso | exact Hbook ].
  destruct Hc as (_ & _ & _ & Hov).
  destruct (run_timedByNumber ops a Hnum Hin) as (m & Hm & Hd & _ & He).
  unfold overlaps in Hov. apply andb_true_iff in Hov as [_ Hov].
  rewrite Hs, He, ltb_time4_formatTime in Hov by lia. discriminate Hov.
Qed.

Lemma one_digit_hour_is_always_booked_witness :
  book exampleTherapists 0 (run [OpBook exampleTherapists 0 (exampleRequest 1 "09:00" 60)])
    (exampleRequest 2 "9:00" 60)
  = (run [OpBook exampleTherapists 0 (exampleRequest 1 "09:00" 60)]
       ++ [bookedAppointment exampleTherapist 0 (exampleRequest 2 "9:00" 60)],
     Ok (bookedAppointment exampleTherapist 0 (exampleRequest 2 "9:00" 60))).
Proof.
  apply (one_digit_hour_is_always_booked exampleTherapists 0
           [OpBook exampleTherapists 0 (exampleRequest 1 "09:00" 60)]
           (exampleRequest 2 "9:00" 60) exampleTherapist 9 0 0).
  - reflexivity.
  - reflexivity.
  - exact exampleTherapist_available.
  - exact exampleTherapist_rateAccepted.
  - reflexivity.
  - lia.
Defined.

(** *** Slots and bookings *)





(** *** Releasing a slot *)

Lemma book_after_release `{Runtime} ths now apps id a' r th :
  validBookRequest r = true -> providerAvailable ths (therapistId r) th ->
  rateAccepted th ->
  is_active (status a') = false ->
  (forall j b, apps !! j = Some b -> j <> id -> ~ conflictsWith r b) ->
  book ths now (<[id := a']> apps) r
  = (<[id := a']> apps ++ [bookedAppointment th now r], Ok (bookedAppointment th now r)).
Proof.
  intros Hv Hp Hrate Hoff Hothers.
  destruct (book_outcome ths now (<[id := a']> apps) r th Hv Hp Hrate)
    as [[(x & Hin & Hc) _] | [_ Hbook]]; [ exfalso | exact Hbook ].
  apply list_elem_of_In, list_elem_of_lookup in Hin as [j Hj].
  destruct (decide (j = id)) as [-> | Hne].
  - pose proof (lookup_lt_Some _ _ _ Hj) as Hlen. rewrite length_insert in Hlen.
    rewrite list_lookup_insert_eq in Hj by exact Hlen. injection Hj as <-.
    destruct Hc as (_ & _ & Hact & _). congruence.
  - rewrite list_lookup_insert_ne in Hj by congruence.
    exact (Hothers j x Hj Hne Hc).
Qed.

(** Once an appointment has been cancelled by its client, or set to
    cancelled, completed or no-show by its provider, it no longer blocks
    its slot: a valid request to an available provider with an accepted
    rate that no other appointment conflicts with is booked. *)
Theorem released_slot_can_be_booked `{Runtime}
    ths now apps id clientId actor s n c apps' a r th :
  cancel apps id clientId = (apps', Ok a)
  \/ (is_active s = false /\ setStatus apps id actor s n c = (apps', Ok a))
  \/ (is_active s = false /\ updateStatus apps id actor s = (apps', Ok a)) ->
  validBookRequest r = true -> providerAvailable ths (therapistId r) th ->
  rateAccepted th ->
  (forall j b, apps !! j = Some b -> j <> id -> ~ conflictsWith r b) ->
  book ths now apps' r
  = (apps' ++ [bookedAppointment th now r], Ok (bookedAppointment th now r)).
Proof.
  intros Hcall Hv Hp Hrate Hothers.
  destruct Hcall as [Hcall | [[Hs Hcall] | [Hs Hcall]]].
  - unfold cancel in Hcall.
    destruct (findById _ id apps) as [x | ]; [ | discriminate Hcall ].
    injection Hcall as <- _.
    apply book_after_release; try assumption. reflexivity.
  - unfold setStatus in Hcall. destruct (negb _); [ discriminate Hcall | ].
    destruct (findById _ id apps) as [x | ]; [ | discriminate Hcall ].
    injection Hcall as <- _.
    apply book_after_release; try assumption.
    fold (statusSetResult s n c x).
    rewrite (proj1 (statusSetResult_fields s n c x)). exact Hs.
  - unfold updateStatus in Hcall. destruct (negb _); [ discriminate Hcall | ].
    destruct (findById _ id apps) as [x | ]; [ | discriminate Hcall ].
    injection Hcall as <- _.
    apply book_after_release; assumption.
Qed.

Lemma released_slot_can_be_booked_witness :
  book exampleTherapists 0 (ledgerInStatus cancelled) (exampleRequest 2 "09:00" 60)
  = (ledgerInStatus cancelled ++ [bookedAppointment exampleTherapist 0 (exampleRequest 2 "09:00" 60)],
     Ok (bookedAppointment exampleTherapist 0 (exampleRequest 2 "09:00" 60))).
Proof.
  apply (released_slot_can_be_booked exampleTherapists 0 (ledgerInStatus pending) 0 1 7
           cancelled None None (ledgerInStatus cancelled)
           (withStatus cancelled (bookedAppointment exampleTherapist 0 (exampleRequest 1 "09:00" 60)))
           (exampleRequest 2 "09:00" 60) exampleTherapist).
  - left. reflexivity.
  - reflexivity.
  - exact exampleTherapist_available.
  - exact exampleTherapist_rateAccepted.
  - intros [ | j] b Hj Hne; [ contradiction | discriminate Hj ].
Defined.

(** *** Reviewing again *)

(** A review can be submitted again: after a successful review, a second
    valid submission leaves the ledger and the answer it would have left
    without the first one, so the later rating and text replace the
    earlier ones. *)
Theorem second_review_replaces_the_first apps id clientId r1 v1 r2 v2 apps1 a1 apps2 a2 :
  submitReview apps id clientId r1 v1 = (apps1, Ok a1) ->
  submitReview apps id clientId r2 v2 = (apps2, Ok a2) ->
  submitReview apps1 id clientId r2 v2 = (apps2, Ok a2).
Proof.
  intros H1 H2. unfold submitReview in *.
  destruct (negb ((1 <=? r1) && (r1 <=? 5) && optLengthAtMost 1000 v1)); [ discriminate H1 | ].
  destruct (negb ((1 <=? r2) && (r2 <=? 5) && optLengthAtMost 1000 v2)); [ discriminate H2 | ].
  destruct (findById _ id apps) as [x | ] eqn:Hf; [ | discriminate H1 ].
  injection H1 as <- _. injection H2 as <- <-.
  apply findById_inv in Hf as [Hx Hfilter].
  pose proof (lookup_lt_Some _ _ _ Hx) as Hlen.
  unfold findById. rewrite list_lookup_insert_eq by exact Hlen.
  cbn [withReview user status]. rewrite Hfilter.
  rewrite list_insert_insert_eq. reflexivity.
Qed.

Lemma second_review_replaces_the_first_witness :
  submitReview (fst (submitReview (ledgerInStatus completed) 0 1 2 None)) 0 1 5 None
  = submitReview (ledgerInStatus completed) 0 1 5 None.
Proof.
  exact (second_review_replaces_the_first (ledgerInStatus completed) 0 1 2 None 5 None
           _ _ _ _ eq_refl eq_refl).
Defined.

(** ** Further reports *)

Lemma statusName_inj s t : statusName s = statusName t -> s = t.
Proof. destruct s, t; intros E; try reflexivity; discriminate E. Qed.

Lemma combine_map_fst_snd {A B C} (f : A -> C) (l : list (A * B)) :
  combine (map (fun e => f (fst e)) l) (map snd l) = map (fun e => (f (fst e), snd e)) l.
Proof.
  induction l as [ | [a b] l IH]; [ reflexivity | ].
  cbn [map fst snd combine]. rewrite IH. reflexivity.
Qed.

Lemma NoDup_map_injective {A B} (f : A -> B) (l : list A) :
  (forall x y, f x = f y -> x = y) -> List.NoDup l -> List.NoDup (map f l).
Proof.
  intros Hinj. induction 1 as [ | x l Hnotin _ IH]; cbn [map]; constructor; [ | exact IH ].
  intros Hin. apply in_map_iff in Hin as (y & E & Hy).
  apply Hinj in E. subst y. contradiction.
Qed.

(** *** The status histogram of the platform analytics *)

(** The status histogram of the platform analytics lists each status that
    occurs among the appointments created from [startDate] on, once, with
    the number of those appointments; its counts add up to the
    [totalAppointments] of the platform statistics, and its count for
    "completed" is their [completedAppointments]. *)
Theorem appointmentStatus_counts `{Aggregation} apps startDate :
  length (labels (getAppointmentStatus apps startDate))
    = length (data (getAppointmentStatus apps startDate))
  /\ List.NoDup (labels (getAppointmentStatus apps startDate))
  /\ (forall l n,
        In (l, n) (combine (labels (getAppointmentStatus apps startDate))
                           (data (getAppointmentStatus apps startDate)))
        <-> exists s, l = statusName s /\ 0 < n
                      /\ n = Z.of_nat (length (createdSinceWith apps startDate s)))
  /\ sumZ (data (getAppointmentStatus apps startDate))
     = totalAppointments (getPlatformStats apps startDate)
  /\ (forall n,
        In ("completed", n) (combine (labels (getAppointmentStatus apps startDate))
                                     (data (getAppointmentStatus apps startDate)))
        <-> 0 < n /\ n = completedAppointments (getPlatformStats apps startDate)).
Proof.
  unfold getAppointmentStatus. cbv zeta. cbn [labels data].
  set (w := findAll (fun a => startDate <=? createdAt a) apps).
  set (m := fold_left _ w []).
  destruct (count_fold_entries status w m (Permutation_refl _)) as (Hnd & Hent & Hsum).
  assert (forall s, withKey status s w = createdSinceWith apps startDate s) as Hw.
  { intros s. unfold withKey, w, createdSinceWith, findAll. rewrite filter_filter_andb.
    apply filter_ext. intros a. apply andb_comm. }
  assert (forall l n, In (l, n) (map (fun e : Status * Z => (statusName (fst e), snd e)) m)
            <-> exists s, l = statusName s /\ 0 < n
                          /\ n = Z.of_nat (length (createdSinceWith apps startDate s))) as Hin.
  { intros l n. rewrite in_map_iff. split.
    - intros ([s n'] & E & Hs). cbn [fst snd] in E. injection E as <- <-.
      apply Hent in Hs. rewrite Hw in Hs. exists s. tauto.
    - intros (s & -> & Hpos & Hn). exists (s, n). split; [ reflexivity | ].
      apply Hent. rewrite Hw. tauto. }
  rewrite combine_map_fst_snd, !length_map.
  split; [ reflexivity | ]. split; [ | split; [ exact Hin | split ] ].
  - rewrite <- (map_map fst statusName).
    apply NoDup_map_injective; [ apply statusName_inj | exact Hnd ].
  - rewrite Hsum. reflexivity.
  - intros n. rewrite Hin. split.
    + intros (s & E & Hpos & Hn).
      apply (statusName_inj completed s) in E. subst s. split; [ exact Hpos | exact Hn ].
    + intros [Hpos Hn]. exists completed. split; [ reflexivity | split; [ exact Hpos | exact Hn ] ].
Qed.

(** *** The dashboard of a provider *)

Lemma length_filter_disjoint {A} (f g h : A -> bool) (l : list A) :
  (forall x, f x = true -> g x = false) ->
  (forall x, f x = true -> h x = true) -> (forall x, g x = true -> h x = true) ->
  (length (List.filter f l) + length (List.filter g l) <= length (List.filter h l))%nat.
Proof.
  intros Hfg Hfh Hgh. induction l as [ | x l IH]; [ reflexivity | ].
  cbn [List.filter]. specialize (Hfg x). specialize (Hfh x). specialize (Hgh x).
  destruct (f x), (g x), (h x); cbn [length];
    try lia; try (discriminate (Hfg eq_refl));
    try (discriminate (Hfh eq_refl)); try (discriminate (Hgh eq_refl)).
Qed.

(** The dashboard of a provider: the pending appointments and those
    completed this month are among the provider's appointments and
    disjoint; the total earnings are 0 when the provider has no completed
    appointment, and otherwise the [$sum] of the amounts of the provider's
    completed appointments of any date, in the order of the collection (0
    if that is 0 or [NaN]). *)
Theorem dashboard_consistent `{Calendar} `{Aggregation} apps tid today :
  0 <= dash_pendingAppointments (dashboard apps tid today)
  /\ 0 <= dash_completedThisMonth (dashboard apps tid today)
  /\ dash_pendingAppointments (dashboard apps tid today)
     + dash_completedThisMonth (dashboard apps tid today)
     <= dash_totalAppointments (dashboard apps tid today)
  /\ dash_completedThisMonth (dashboard apps tid today)
     <= Z.of_nat (length (completedOf apps tid))
  /\ (completedOf apps tid = [] -> dash_totalEarnings (dashboard apps tid today) = 0%float)
  /\ (completedOf apps tid <> [] ->
        dash_totalEarnings (dashboard apps tid today)
        = JS.orZero (sumOf (map amount (completedOf apps tid)))).
Proof.
  unfold dashboard. cbv zeta.
  cbn [dash_pendingAppointments dash_completedThisMonth dash_totalAppointments
       dash_totalEarnings].
  fold (completedOf apps tid).
  split; [ lia | ]. split; [ lia | ]. split; [ | split; [ | split ] ].
  - unfold findAll. rewrite <- Nat2Z.inj_add. apply Nat2Z.inj_le.
    apply length_filter_disjoint.
    + intros a Hf. apply andb_true_iff in Hf as [_ Hp]. apply bool_decide_eq_true_1 in Hp.
      rewrite Hp. rewrite andb_false_iff. left. rewrite andb_false_iff. right.
      apply bool_decide_eq_false_2. discriminate.
    + intros a Hf. apply andb_true_iff in Hf as [Ht _]. exact Ht.
    + intros a Hf. rewrite !andb_true_iff in Hf. tauto.
  - unfold completedOf, findAll. apply Nat2Z.inj_le.
    pose proof (length_filter_disjoint
                  (fun a => Nat.eqb (therapist a) tid && bool_decide (status a = completed)
                            && ((newDate (getFullYear today) (getMonth today) 1 <=? date a)
                                && (date a <=? newDate (getFullYear today) (getMonth today + 1) 0)))
                  (fun _ => false)
                  (fun a => Nat.eqb (therapist a) tid && bool_decide (status a = completed))
                  apps) as Hle.
    rewrite (filter_none (fun _ : Appointment => false)) in Hle by reflexivity.
    cbn [length] in Hle. rewrite Nat.add_0_r in Hle. apply Hle.
    + reflexivity.
    + intros a Hf. apply andb_true_iff in Hf as [Hf _]. exact Hf.
    + discriminate.
  - intros ->. reflexivity.
  - unfold totalOf. destruct (completedOf apps tid); [ contradiction | reflexivity ].
Qed.

(** *** The monthly trends of the provider analytics *)

Lemma byNumber_total {V} (x y : Z * V) : 0 < byNumber x y -> byNumber y x <= 0.
Proof.
  unfold byNumber. rewrite (Z.compare_antisym (fst x) (fst y)).
  destruct (Z.compare (fst x) (fst y)); cbn; lia.
Qed.

Lemma byNumber_trans {V} (x y z : Z * V) :
  byNumber x y <= 0 -> byNumber y z <= 0 -> byNumber x z <= 0.
Proof.
  unfold byNumber.
  destruct (Z.compare_spec (fst x) (fst y)), (Z.compare_spec (fst y) (fst z)),
    (Z.compare_spec (fst x) (fst z)); lia.
Qed.

Lemma sortBy_byNumber_ascending {V} (m : list (Z * V)) :
  List.NoDup (map fst m) ->
  StronglySorted Z.lt (map fst (sortBy byNumber m)).
Proof.
  intros Hnd.
  assert (List.NoDup (map fst (sortBy byNumber m))) as Hnd'
    by (apply (Permutation_NoDup
                 (Permutation_sym (Permutation_map fst (sortBy_Permutation byNumber m))));
        exact Hnd).
  pose proof (sortBy_StronglySorted byNumber m byNumber_total byNumber_trans) as Hs.
  revert Hnd' Hs. generalize (sortBy byNumber m) as s. clear m Hnd.
  induction s as [ | x s IH]; intros Hnd Hs; cbn [map]; [ constructor | ].
  inversion Hs as [ | x' s' Hs' Hall ]; subst.
  cbn [map] in Hnd. inversion Hnd as [ | k ks Hnotin Hnd' ]; subst.
  constructor; [ apply IH; assumption | ].
  rewrite List.Forall_forall in *. intros k Hk.
  apply in_map_iff in Hk as (y & <- & Hy).
  specialize (Hall y Hy). unfold byNumber in Hall.
  destruct (Z.compare_spec (fst x) (fst y)) as [E | L | G]; [ | exact L | lia ].
  exfalso. apply Hnotin. rewrite E. apply in_map. exact Hy.
Qed.

(** The monthly trends of the provider analytics, in the year view: the
    months of the provider's completed appointments dated in the window,
    in ascending order, each with the number of those appointments and the
    [$sum] of their amounts, taken in the order of the collection.  In
    every other view the three lists are empty. *)
Theorem monthlyTrends_per_month `{Calendar} `{Aggregation} apps tid now :
  StronglySorted Z.lt (map fst (monthlyData apps tid (startDateOf "year" now)))
  /\ (forall i m,
        map fst (monthlyData apps tid (startDateOf "year" now)) !! i = Some m ->
        withKey (fun a => monthOf (date a)) m
          (completedInRange apps tid (startDateOf "year" now)) <> []
        /\ trend_labels (monthlyTrends apps tid "year" now) !! i = Some (monthName (m - 1))
        /\ trend_appointments (monthlyTrends apps tid "year" now) !! i
           = Some (Z.of_nat (length
                     (withKey (fun a => monthOf (date a)) m
                        (completedInRange apps tid (startDateOf "year" now)))))
        /\ trend_earnings (monthlyTrends apps tid "year" now) !! i
           = Some (sumOf (map amount
                     (withKey (fun a => monthOf (date a)) m
                        (completedInRange apps tid (startDateOf "year" now))))))
  /\ (forall a, In a (completedInRange apps tid (startDateOf "year" now)) ->
        In (monthOf (date a)) (map fst (monthlyData apps tid (startDateOf "year" now))))
  /\ sumZ (trend_appointments (monthlyTrends apps tid "year" now))
     = Z.of_nat (length (completedInRange apps tid (startDateOf "year" now)))
  /\ (forall period, String.eqb period "year" = false ->
        monthlyTrends apps tid period now = mkMonthlyTrends [] [] []).
Proof.
  set (sd := startDateOf "year" now).
  set (done := completedInRange apps tid sd).
  set (key := fun a : Appointment => monthOf (date a)).
  set (h := fun g : Z * (list float * Z) => (fst g, (snd (snd g), sumOf (fst (snd g))))).
  assert (monthlyData apps tid sd = sortBy byNumber (map h (groupAmounts key done)))
    as Hdata by reflexivity.
  assert (monthlyTrends apps tid "year" now
          = {| trend_labels := map (fun d => monthName (fst d - 1)) (monthlyData apps tid sd);
               trend_appointments := map (fun d => fst (snd d)) (monthlyData apps tid sd);
               trend_earnings := map (fun d => snd (snd d)) (monthlyData apps tid sd) |})
    as Htrends by reflexivity.
  rewrite Htrends. cbn [trend_labels trend_appointments trend_earnings].
  destruct (groupAmounts_entries key done (groupAmounts key done) (Permutation_refl _))
    as [Hnd Hentries].
  assert (map fst (map h (groupAmounts key done)) = map fst (groupAmounts key done)) as Hkeys
    by (rewrite map_map; reflexivity).
  pose proof (sortBy_Permutation byNumber (map h (groupAmounts key done))) as Hperm.
  rewrite <- Hdata in Hperm.
  split; [ | split; [ | split; [ | split ] ] ].
  - rewrite Hdata. apply sortBy_byNumber_ascending. rewrite Hkeys. exact Hnd.
  - intros i m Hi. rewrite lookup_map in Hi.
    destruct (monthlyData apps tid sd !! i) as [[m' [c t]] | ] eqn:Hentry;
      [ | cbn in Hi; discriminate Hi ].
    cbn in Hi. injection Hi as ->.
    rewrite !lookup_map, Hentry. cbn [option_map fst snd].
    apply lookup_In in Hentry. apply (Permutation_in _ Hperm) in Hentry.
    apply in_map_iff in Hentry as ([k [amounts c']] & E & Hin).
    unfold h in E. cbn [fst snd] in E. injection E as -> -> <-.
    apply Hentries in Hin as [Hne E]. injection E as -> ->.
    repeat split. exact Hne.
  - intros a Ha.
    apply (Permutation_in _ (Permutation_sym (Permutation_map fst Hperm))).
    rewrite Hkeys. apply in_map_iff.
    exists (key a, (map amount (withKey key (key a) done),
                    Z.of_nat (length (withKey key (key a) done)))).
    split; [ reflexivity | ]. apply Hentries. split; [ | reflexivity ].
    intros Hnil. assert (In a (withKey key (key a) done)) as Hin by (apply withKey_In; tauto).
    rewrite Hnil in Hin. destruct Hin.
  - rewrite (sumZ_Permutation _ _
               (Permutation_map (fun d : Z * (Z * float) => fst (snd d)) Hperm)).
    rewrite map_map. unfold h. cbn [fst snd].
    unfold groupAmounts. rewrite groupAmounts_counts. cbn. lia.
  - intros period Hp. unfold monthlyTrends. rewrite Hp. reflexivity.
Qed.

(** *** The growth series of the platform analytics *)

Lemma distinctStrings_In seen l x :
  In x (distinctStrings seen l) <-> In x l /\ ~ In x seen.
Proof.
  revert seen. induction l as [ | y l IH]; intros seen; cbn [distinctStrings In].
  - tauto.
  - destruct (existsb (String.eqb y) seen) eqn:Hy.
    + apply existsb_exists in Hy as (z & Hz & E). apply String.eqb_eq in E. subst z.
      rewrite IH. split; [ tauto | ]. intros [[E | Hin] Hn]; [ subst; contradiction | tauto ].
    + assert (~ In y seen) as Hny.
      { intros Hin. assert (existsb (String.eqb y) seen = true) as Ht
          by (apply existsb_exists; exists y; split; [ exact Hin | apply String.eqb_refl ]).
        congruence. }
      cbn [In]. rewrite IH. cbn [In]. split.
      * intros [E | [Hin Hn]]; [ subst; tauto | tauto ].
      * intros [[E | Hin] Hn]; [ tauto | ].
        destruct (string_dec y x) as [E | N]; [ tauto | right; tauto ].
Qed.

Lemma distinctStrings_NoDup seen l : List.NoDup (distinctStrings seen l).
Proof.
  revert seen. induction l as [ | y l IH]; intros seen; cbn [distinctStrings].
  - constructor.
  - destruct (existsb (String.eqb y) seen); [ apply IH | ].
    constructor; [ | apply IH ].
    rewrite distinctStrings_In. cbn [In]. tauto.
Qed.

Lemma byString_total x y : 0 < byString x y -> byString y x <= 0.
Proof. exact (byKey_total (x, tt) (y, tt)). Qed.

Lemma byString_trans x y z : byString x y <= 0 -> byString y z <= 0 -> byString x z <= 0.
Proof. exact (byKey_trans (x, tt) (y, tt) (z, tt)). Qed.

Lemma sortBy_byString_ascending (l : list string) :
  List.NoDup l -> StronglySorted (fun a b => String.ltb a b = true) (sortBy byString l).
Proof.
  intros Hnd.
  assert (List.NoDup (sortBy byString l)) as Hnd'
    by (apply (Permutation_NoDup (Permutation_sym (sortBy_Permutation byString l))); exact Hnd).
  pose proof (sortBy_StronglySorted byString l byString_total byString_trans) as Hs.
  revert Hnd' Hs. generalize (sortBy byString l) as s. clear l Hnd.
  induction s as [ | x s IH]; intros Hnd Hs; [ constructor | ].
  inversion Hs as [ | x' s' Hs' Hall ]; subst.
  inversion Hnd as [ | k ks Hnotin Hnd' ]; subst.
  constructor; [ apply IH; assumption | ].
  rewrite List.Forall_forall in *. intros y Hy.
  specialize (Hall y Hy). unfold byString in Hall. unfold String.ltb.
  destruct (String.compare x y) eqn:E; [ | reflexivity | lia ].
  apply string_compare_Eq in E. subst y. contradiction.
Qed.

Lemma sumZ_map_add {A} (f g : A -> Z) (l : list A) :
  sumZ (map (fun x => f x + g x) l) = sumZ (map f l) + sumZ (map g l).
Proof.
  induction l as [ | x l IH]; [ reflexivity | ].
  cbn [map]. rewrite !sumZ_cons, IH. lia.
Qed.

Lemma sumZ_indicator {K} `{EqDecision K} (k : K) (ls : list K) :
  List.NoDup ls -> In k ls ->
  sumZ (map (fun l => if bool_decide (k = l) then 1 else 0) ls) = 1.
Proof.
  induction 1 as [ | l ls Hnotin Hnd IH]; intros Hin; [ destruct Hin | ].
  cbn [map]. rewrite sumZ_cons. destruct Hin as [-> | Hin].
  - rewrite bool_decide_eq_true_2 by reflexivity.
    assert (sumZ (map (fun l => if bool_decide (k = l) then 1 else 0) ls) = 0) as ->; [ | lia ].
    clear IH Hnd. induction ls as [ | l ls IH]; [ reflexivity | ].
    cbn [map]. rewrite sumZ_cons.
    rewrite bool_decide_eq_false_2 by (intros ->; apply Hnotin; left; reflexivity).
    rewrite IH; [ lia | ]. intros Hin. apply Hnotin. right. exact Hin.
  - rewrite bool_decide_eq_false_2 by (intros ->; contradiction).
    rewrite (IH Hin). lia.
Qed.

(** Counted label by label, over distinct labels that cover every key,
    the elements are counted once each. *)
Lemma sum_counts_over_labels {A K} `{EqDecision K} (key : A -> K) (ls : list K) (w : list A) :
  List.NoDup ls -> (forall x, In x w -> In (key x) ls) ->
  sumZ (map (fun l => Z.of_nat (length (withKey key l w))) ls) = Z.of_nat (length w).
Proof.
  intros Hnd. induction w as [ | x w IH]; intros Hcover.
  - clear Hnd Hcover. induction ls as [ | l ls IHl]; [ reflexivity | ].
    cbn [map]. rewrite sumZ_cons, IHl. reflexivity.
  - rewrite (map_ext _ (fun l => (if bool_decide (key x = l) then 1 else 0)
                                 + Z.of_nat (length (withKey key l w)))).
    + rewrite sumZ_map_add, IH by (intros y Hy; apply Hcover; right; exact Hy).
      rewrite (sumZ_indicator (key x) ls Hnd) by (apply Hcover; left; reflexivity).
      cbn [length]. lia.
    + intros l. unfold withKey. cbn [List.filter].
      destruct (bool_decide (key x = l)); cbn [length]; lia.
Qed.

Section GrowthProperties.
Context `{Calendar}.

(** The count [countAt] reads off the groups of [growthGroups]. *)
Lemma countAt_growthGroups format startDate created l :
  countAt (growthGroups format startDate created) l
  = Z.of_nat (length (withKey (dateToString format) l (createdSince startDate created))).
Proof.
  unfold growthGroups. fold (createdSince startDate created).
  set (w := createdSince startDate created).
  set (m := fold_left _ w []).
  assert (List.NoDup (map fst m)) as Hnd by (apply fold_upsert_NoDup; constructor).
  pose proof (sortBy_Permutation byKey m) as Hperm.
  assert (forall k, Map_get k m
            = match withKey (dateToString format) k w with
              | [] => None
              | _ :: _ => Some (Z.of_nat (length (withKey (dateToString format) k w)))
              end) as Hget.
  { intros k. unfold m.
    rewrite (fold_upsert_get (dateToString format)
               (fun _ v => match v with Some n => n | None => 0 end + 1)).
    cbn [Map_get]. rewrite perKey_count.
    destruct (withKey (dateToString format) k w); [ reflexivity | f_equal; lia ]. }
  unfold countAt.
  destruct (List.find _ (sortBy byKey m)) as [[k n] | ] eqn:Hfind.
  - apply find_some in Hfind as [Hin Hk]. cbn [fst] in Hk. apply String.eqb_eq in Hk. subst k.
    apply (Permutation_entries m _ l n Hperm Hnd) in Hin. rewrite Hget in Hin.
    destruct (withKey (dateToString format) l w); [ discriminate Hin | ].
    injection Hin as <-. reflexivity.
  - specialize (Hget l).
    destruct (withKey (dateToString format) l w) as [ | t r]; [ reflexivity | exfalso ].
    apply (Permutation_entries m _ l _ Hperm Hnd) in Hget.
    pose proof (find_none _ _ Hfind _ Hget) as Hno. cbn [fst] in Hno.
    rewrite String.eqb_refl in Hno. discriminate Hno.
Qed.

Lemma growthGroups_keys format startDate created l :
  In l (map fst (growthGroups format startDate created))
  <-> exists t, In t (createdSince startDate created) /\ dateToString format t = l.
Proof.
  unfold growthGroups. fold (createdSince startDate created).
  set (w := createdSince startDate created).
  destruct (count_fold_entries (dateToString format) w
              (sortBy byKey
                 (fold_left (fun m t => Map_upsert (dateToString format t)
                    (fun v => match v with Some n => n | None => 0 end + 1) m) w []))
              (sortBy_Permutation _ _)) as (_ & Hentries & _).
  split.
  - intros Hl. apply in_map_iff in Hl as ([l' n] & E & Hin). cbn [fst] in E. subst l'.
    apply Hentries in Hin as [Hpos Hn].
    destruct (withKey (dateToString format) l w) as [ | t r] eqn:Hw; [ cbn in Hn; lia | ].
    assert (In t (withKey (dateToString format) l w)) as Ht by (rewrite Hw; left; reflexivity).
    apply withKey_In in Ht. exists t. exact Ht.
  - intros (t & Ht & Hk).
    apply in_map_iff. exists (l, Z.of_nat (length (withKey (dateToString format) l w))).
    split; [ reflexivity | ]. apply Hentries. split; [ | reflexivity ].
    assert (In t (withKey (dateToString format) l w)) as Hin by (apply withKey_In; tauto).
    destruct (withKey (dateToString format) l w); [ destruct Hin | cbn [length]; lia ].
Qed.

(** The growth series of the platform analytics: the labels are the date
    keys of the users and therapists created from [startDate] on, in
    strictly ascending order; at the index of a label stand the number of
    users and the number of therapists created in the window under that
    key, zero included; each series adds up to the number of accounts of
    its kind created in the window. *)
Theorem growthData_counts usersCreatedAt therapistsCreatedAt startDate period :
  StronglySorted (fun a b => String.ltb a b = true)
    (growth_labels (getGrowthData usersCreatedAt therapistsCreatedAt startDate period))
  /\ (forall l,
        In l (growth_labels (getGrowthData usersCreatedAt therapistsCreatedAt startDate period))
        <-> exists t, (In t (createdSince startDate usersCreatedAt)
                       \/ In t (createdSince startDate therapistsCreatedAt))
                      /\ dateToString (revenueFormat period) t = l)
  /\ (forall i l,
        growth_labels (getGrowthData usersCreatedAt therapistsCreatedAt startDate period) !! i
          = Some l ->
        growth_users (getGrowthData usersCreatedAt therapistsCreatedAt startDate period) !! i
          = Some (Z.of_nat (length (withKey (dateToString (revenueFormat period)) l
                                      (createdSince startDate usersCreatedAt))))
        /\ growth_therapists (getGrowthData usersCreatedAt therapistsCreatedAt startDate period) !! i
           = Some (Z.of_nat (length (withKey (dateToString (revenueFormat period)) l
                                       (createdSince startDate therapistsCreatedAt)))))
  /\ sumZ (growth_users (getGrowthData usersCreatedAt therapistsCreatedAt startDate period))
     = Z.of_nat (length (createdSince startDate usersCreatedAt))
  /\ sumZ (growth_therapists (getGrowthData usersCreatedAt therapistsCreatedAt startDate period))
     = Z.of_nat (length (createdSince startDate therapistsCreatedAt)).
Proof.
  unfold getGrowthData. cbv zeta. cbn [growth_labels growth_users growth_therapists].
  fold (revenueFormat period).
  set (fmt := revenueFormat period).
  set (us := growthGroups fmt startDate usersCreatedAt).
  set (ts := growthGroups fmt startDate therapistsCreatedAt).
  set (ls := sortBy byString (distinctStrings [] (map fst us ++ map fst ts))).
  assert (List.NoDup ls) as Hnd
    by (apply (Permutation_NoDup (Permutation_sym (sortBy_Permutation byString _)));
        apply distinctStrings_NoDup).
  assert (forall l, In l ls <-> In l (map fst us) \/ In l (map fst ts)) as Hls.
  { intros l. unfold ls. split.
    - intros Hin. apply (Permutation_in _ (sortBy_Permutation byString _)) in Hin.
      apply distinctStrings_In in Hin as [Hin _]. apply in_app_or. exact Hin.
    - intros Hin. apply (Permutation_in _ (Permutation_sym (sortBy_Permutation byString _))).
      apply distinctStrings_In. split; [ apply in_or_app; exact Hin | intros [] ]. }
  split; [ apply sortBy_byString_ascending; apply distinctStrings_NoDup | ].
  split; [ | split; [ | split ] ].
  - intros l. rewrite Hls. unfold us, ts. rewrite !growthGroups_keys. split.
    + intros [(t & Ht & E) | (t & Ht & E)]; exists t; tauto.
    + intros (t & [Ht | Ht] & E); [ left | right ]; exists t; tauto.
  - intros i l Hi. rewrite !lookup_map, Hi. cbn [option_map].
    unfold us, ts. rewrite !countAt_growthGroups. split; reflexivity.
  - rewrite (map_ext _ (fun l => Z.of_nat (length (withKey (dateToString fmt) l
                                                     (createdSince startDate usersCreatedAt)))))
      by (intros l; apply countAt_growthGroups).
    apply sum_counts_over_labels; [ exact Hnd | ].
    intros t Ht. apply Hls. left. apply growthGroups_keys. exists t. tauto.
  - rewrite (map_ext _ (fun l => Z.of_nat (length (withKey (dateToString fmt) l
                                                     (createdSince startDate therapistsCreatedAt)))))
      by (intros l; apply countAt_growthGroups).
    apply sum_counts_over_labels; [ exact Hnd | ].
    intros t Ht. apply Hls. right. apply growthGroups_keys. exists t. tauto.
Qed.
End GrowthProperties.

(** ** Listings *)

Lemma In_take {A} (n : nat) (l : list A) (x : A) : In x (take n l) -> In x l.
Proof.
  revert l. induction n as [ | n IH]; intros [ | y l]; cbn; try tauto.
  intros [E | Hin]; [ left; exact E | right; apply IH; exact Hin ].
Qed.

Lemma In_drop {A} (n : nat) (l : list A) (x : A) : In x (drop n l) -> In x l.
Proof.
  revert l. induction n as [ | n IH]; intros [ | y l]; cbn; try tauto.
  intros Hin. right. apply IH. exact Hin.
Qed.

Lemma StronglySorted_take {A} (R : A -> A -> Prop) (n : nat) (l : list A) :
  StronglySorted R l -> StronglySorted R (take n l).
Proof.
  intros Hs. revert n. induction Hs as [ | x l Hs IH Hall]; intros [ | n]; cbn;
    try constructor.
  - apply IH.
  - rewrite List.Forall_forall in *. intros y Hy. apply Hall. apply (In_take n). exact Hy.
Qed.

Lemma StronglySorted_drop {A} (R : A -> A -> Prop) (n : nat) (l : list A) :
  StronglySorted R l -> StronglySorted R (drop n l).
Proof.
  intros Hs. revert n. induction Hs as [ | x l Hs IH Hall]; intros [ | n]; cbn.
  - constructor.
  - constructor.
  - constructor; assumption.
  - apply IH.
Qed.

Lemma StronglySorted_impl {A} (R S : A -> A -> Prop) (l : list A) :
  (forall x y, R x y -> S x y) -> StronglySorted R l -> StronglySorted S l.
Proof.
  intros Himp. induction 1 as [ | x l Hs IH Hall]; constructor; [ exact IH | ].
  rewrite List.Forall_forall in *. intros y Hy. apply Himp, Hall. exact Hy.
Qed.

Lemma byDateThenStartTime_totalOrder : totalOrder byDateThenStartTime.
Proof.
  split.
  - intros x y. unfold byDateThenStartTime.
    rewrite (Z.compare_antisym (date x) (date y)).
    destruct (Z.compare (date x) (date y)); cbn [CompOpp]; try lia.
    destruct (String.compare (startTime x) (startTime y)) eqn:E; try lia.
    intros _. apply string_compare_Gt in E. rewrite E. lia.
  - intros x y z. unfold byDateThenStartTime.
    destruct (Z.compare_spec (date x) (date y)) as [E1 | L1 | G1]; try lia;
      destruct (Z.compare_spec (date y) (date z)) as [E2 | L2 | G2]; try lia;
      destruct (Z.compare_spec (date x) (date z)) as [E3 | L3 | G3]; try lia.
    pose proof (@byKey_trans unit (startTime x, tt) (startTime y, tt) (startTime z, tt)) as Ht.
    unfold byKey in Ht. cbn [fst] in Ht. exact Ht.
Qed.

Lemma byDateDescending_totalOrder : totalOrder byDateDescending.
Proof.
  split.
  - intros x y. unfold byDateDescending.
    rewrite (Z.compare_antisym (date x) (date y)).
    destruct (Z.compare (date x) (date y)); cbn [CompOpp]; lia.
  - intros x y z. unfold byDateDescending.
    destruct (Z.compare_spec (date y) (date x)), (Z.compare_spec (date z) (date y)),
      (Z.compare_spec (date z) (date x)); lia.
Qed.

Lemma byDateThenStartTime_le x y : byDateThenStartTime x y <= 0 -> dateThenStartTime x y.
Proof.
  unfold byDateThenStartTime, dateThenStartTime.
  destruct (Z.compare_spec (date x) (date y)) as [E | L | G]; [ | left; exact L | lia ].
  intros Hc. right. split; [ exact E | ].
  destruct (String.compare (startTime x) (startTime y)); [ discriminate | discriminate | lia ].
Qed.

Lemma byDateDescending_le x y : byDateDescending x y <= 0 -> date y <= date x.
Proof.
  unfold byDateDescending. destruct (Z.compare_spec (date y) (date x)); lia.
Qed.

Lemma exampleEngine_lawful : @lawful exampleEngine.
Proof.
  split; [ | split; [ | split ] ].
  - intros A cmp l. apply sortBy_Permutation.
  - intros A cmp l [Htotal Htrans]. apply sortBy_StronglySorted; assumption.
  - intros A n l Hn. cbn [Query_skip exampleEngine]. rewrite (proj2 (Z.leb_le 0 n) Hn). reflexivity.
  - intros A n l Hn. cbn [Query_limit exampleEngine]. rewrite (proj2 (Z.ltb_lt 0 n) Hn). reflexivity.
Qed.

Lemma ceil_div_pos t l : 0 < l -> - ((- t) / l) = (t + l - 1) / l.
Proof.
  intros Hl.
  pose proof (Z.div_mod (t + l - 1) l ltac:(lia)) as Hdm.
  pose proof (Z.mod_pos_bound (t + l - 1) l Hl) as Hr.
  assert (- ((t + l - 1) / l) = (- t) / l) as <-; [ | lia ].
  apply (Z.div_unique_pos (- t) l _ (l - 1 - (t + l - 1) mod l)); lia.
Qed.

Section ListingProperties.
Context `{QueryEngine}.

(** The page the chain [sort], [skip], [limit] of the listing routes
    returns, for a page number and a page size of at least one. *)
Lemma page_of_matching {A} (cmp : A -> A -> Z) (matching : list A) p l :
  lawful -> totalOrder cmp -> 1 <= p -> 1 <= l ->
  exists skipped items,
    Query_skip (JS.mul (JS.add (Some p) (Some (-1))) (Some l)) (Query_sort cmp matching)
      = Some skipped
    /\ Query_limit (JS.mul (Some l) (Some 1)) skipped = Some items
    /\ Z.of_nat (length items) = pageLength (Z.of_nat (length matching)) p l
    /\ (forall a, In a items -> In a matching)
    /\ StronglySorted (fun x y => cmp x y <= 0) items.
Proof.
  intros (Hperm & Hsorted & Hskip & Hlimit) Hcmp Hp Hl.
  exists (drop (Z.to_nat ((p + -1) * l)) (Query_sort cmp matching)),
         (take (Z.to_nat (l * 1)) (drop (Z.to_nat ((p + -1) * l)) (Query_sort cmp matching))).
  cbn [JS.mul JS.add].
  split; [ apply Hskip; nia | ]. split; [ apply Hlimit; lia | ].
  split; [ | split ].
  - rewrite length_take, length_drop, (Permutation_length (Hperm A cmp matching)).
    unfold pageLength. nia.
  - intros a Ha. apply In_take, In_drop in Ha.
    exact (Permutation_in _ (Hperm A cmp matching) Ha).
  - apply StronglySorted_take, StronglySorted_drop, Hsorted. exact Hcmp.
Qed.

(** The therapist listings, for a page number and a page size of at least
    one: the answer counts the provider's appointments that pass the
    optional status and date filters, computes the number of pages by
    rounding up, holds as many appointments as the page has, all of them
    appointments of the acting provider that pass the filters, in
    ascending order of date and start time. *)
Theorem therapist_listing_page apps actor status' date' p l :
  lawful -> 1 <= p -> 1 <= l ->
  exists r,
    listTherapistAppointments apps actor status' date' (Some p) (Some l) = Some r
    /\ list_total r
       = Z.of_nat (length (findAll (therapistListFilter actor status' date') apps))
    /\ list_currentPage r = Some p
    /\ list_totalPages r = Some ((list_total r + l - 1) / l)
    /\ Z.of_nat (length (list_appointments r)) = pageLength (list_total r) p l
    /\ (forall a, In a (list_appointments r) ->
          In a apps /\ therapist a = actor
          /\ statusFilter status' a = true /\ dateFilter date' a = true)
    /\ StronglySorted dateThenStartTime (list_appointments r).
Proof.
  intros Hlaw Hp Hl.
  destruct (page_of_matching byDateThenStartTime
              (findAll (therapistListFilter actor status' date') apps) p l
              Hlaw byDateThenStartTime_totalOrder Hp Hl)
    as (skipped & items & Hskip & Hlimit & Hlen & Hin & Hsorted).
  unfold listTherapistAppointments. cbv zeta.
  fold (therapistListFilter actor status' date').
  rewrite Hskip, Hlimit. eexists. split; [ reflexivity | ].
  cbn [list_total list_currentPage list_totalPages list_appointments Math_ceil_div].
  split; [ reflexivity | ]. split; [ reflexivity | ].
  split; [ rewrite (proj2 (Z.eqb_neq l 0)) by lia; rewrite ceil_div_pos by lia; reflexivity | ].
  split; [ exact Hlen | ]. split.
  - intros a Ha. apply Hin in Ha. unfold findAll in Ha. apply filter_In in Ha as [Ha Hf].
    unfold therapistListFilter in Hf. rewrite !andb_true_iff, Nat.eqb_eq in Hf. tauto.
  - exact (StronglySorted_impl _ _ _ byDateThenStartTime_le Hsorted).
Qed.

(** The user listing and the single read of the user routes, for a page
    number and a page size of at least one: the listing counts the
    client's appointments that pass the optional status filter, computes
    the number of pages by rounding up, and holds as many appointments as
    the page has, all of them appointments of the acting client that pass
    the filter, latest date first; the single read answers an appointment
    exactly when the id is an appointment of the acting client. *)
Theorem user_listing_page apps actor status' p l :
  lawful -> 1 <= p -> 1 <= l ->
  (exists r,
     listUserAppointments apps actor status' (Some p) (Some l) = Some r
     /\ list_total r = Z.of_nat (length (findAll (userListFilter actor status') apps))
     /\ list_currentPage r = Some p
     /\ list_totalPages r = Some ((list_total r + l - 1) / l)
     /\ Z.of_nat (length (list_appointments r)) = pageLength (list_total r) p l
     /\ (forall a, In a (list_appointments r) ->
           In a apps /\ user a = actor /\ statusFilter status' a = true)
     /\ StronglySorted (fun a b => date b <= date a) (list_appointments r))
  /\ (forall id a, getUserAppointment apps id actor = Ok a
                   <-> apps !! id = Some a /\ user a = actor).
Proof.
  intros Hlaw Hp Hl. split.
  - destruct (page_of_matching byDateDescending
                (findAll (userListFilter actor status') apps) p l
                Hlaw byDateDescending_totalOrder Hp Hl)
      as (skipped & items & Hskip & Hlimit & Hlen & Hin & Hsorted).
    unfold listUserAppointments. cbv zeta.
    fold (userListFilter actor status').
    rewrite Hskip, Hlimit. eexists. split; [ reflexivity | ].
    cbn [list_total list_currentPage list_totalPages list_appointments Math_ceil_div].
    split; [ reflexivity | ]. split; [ reflexivity | ].
    split; [ rewrite (proj2 (Z.eqb_neq l 0)) by lia; rewrite ceil_div_pos by lia; reflexivity | ].
    split; [ exact Hlen | ]. split.
    + intros a Ha. apply Hin in Ha. unfold findAll in Ha. apply filter_In in Ha as [Ha Hf].
      unfold userListFilter in Hf. rewrite !andb_true_iff, Nat.eqb_eq in Hf. tauto.
    + exact (StronglySorted_impl _ _ _ byDateDescending_le Hsorted).
  - intros id a. unfold getUserAppointment, findById.
    destruct (apps !! id) as [b | ]; [ | split; [ discriminate | intros [[=] _] ] ].
    destruct (Nat.eqb (user b) actor) eqn:Hu.
    + apply Nat.eqb_eq in Hu. split; [ intros [= <-]; tauto | intros [[= <-] _]; reflexivity ].
    + apply Nat.eqb_neq in Hu. split; [ discriminate | intros [[= <-] E]; contradiction ].
Qed.
End ListingProperties.

Lemma therapist_listing_page_witness :
  exists r,
    listTherapistAppointments fullDay 7 (Some "pending") None (Some 2) (Some 4) = Some r
    /\ list_total r
       = Z.of_nat (length (findAll (therapistListFilter 7 (Some "pending") None) fullDay))
    /\ list_currentPage r = Some 2
    /\ list_totalPages r = Some ((list_total r + 4 - 1) / 4)
    /\ Z.of_nat (length (list_appointments r)) = pageLength (list_total r) 2 4
    /\ (forall a, In a (list_appointments r) ->
          In a fullDay /\ therapist a = 7%nat
          /\ statusFilter (Some "pending") a = true /\ dateFilter None a = true)
    /\ StronglySorted dateThenStartTime (list_appointments r).
Proof.
  apply (therapist_listing_page fullDay 7 (Some "pending") None 2 4 exampleEngine_lawful); lia.
Defined.

Lemma user_listing_page_witness :
  (exists r,
     listUserAppointments fullDay 1 None (Some 3) (Some 4) = Some r
     /\ list_total r = Z.of_nat (length (findAll (userListFilter 1 None) fullDay))
     /\ list_currentPage r = Some 3
     /\ list_totalPages r = Some ((list_total r + 4 - 1) / 4)
     /\ Z.of_nat (length (list_appointments r)) = pageLength (list_total r) 3 4
     /\ (forall a, In a (list_appointments r) ->
           In a fullDay /\ user a = 1%nat /\ statusFilter None a = true)
     /\ StronglySorted (fun a b => date b <= date a) (list_appointments r))
  /\ (forall id a, getUserAppointment fullDay id 1 = Ok a
                   <-> fullDay !! id = Some a /\ user a = 1%nat).
Proof.
  apply (user_listing_page fullDay 1 None 3 4 exampleEngine_lawful); lia.
Defined.

(** ** The therapist collection *)

Lemma book_unavailable `{Runtime} ths now apps r th :
  validBookRequest r = true -> ths (therapistId r) = Some th ->
  isActive th = false \/ isVerified th = false ->
  book ths now apps r = (apps, Err ProviderUnavailable).
Proof.
  intros Hv Hth Hflag. unfold book, prepareBooking. rewrite Hv, Hth. cbn [negb].
  destruct Hflag as [-> | ->]; [ reflexivity | ].
  rewrite orb_true_r. reflexivity.
Qed.

Lemma book_available `{Runtime} ths now apps r th :
  validBookRequest r = true -> providerAvailable ths (therapistId r) th ->
  rateAccepted th ->
  (forall a, In a apps -> ~ conflictsWith r a) ->
  book ths now apps r = (apps ++ [bookedAppointment th now r], Ok (bookedAppointment th now r)).
Proof.
  intros Hv Hp Hrate Hfree.
  destruct (book_outcome ths now apps r th Hv Hp Hrate) as [[(a & Hin & Hc) _] | [_ Hbook]];
    [ exfalso; exact (Hfree a Hin Hc) | exact Hbook ].
Qed.

(** A therapist who has just registered cannot be booked: the saved
    document is active but not verified, and every valid request to it is
    answered 'Therapist not found or unavailable'.  Once an admin has
    verified the therapist, a valid request that meets no conflict is
    booked, at the rate given at registration, which is not negative. *)
Theorem registered_therapist_is_bookable_once_verified `{Runtime}
    therapists rate therapists1 id now apps r :
  registerTherapist therapists true false rate = (therapists1, Ok id) ->
  therapistId r = id -> validBookRequest r = true ->
  book (Therapist_findById therapists1) now apps r = (apps, Err ProviderUnavailable)
  /\ exists th,
       snd (verifyTherapist therapists1 id) = Ok th
       /\ hourlyRate th = rate /\ rateAccepted th
       /\ ((forall a, In a apps -> ~ conflictsWith r a) ->
           book (Therapist_findById (fst (verifyTherapist therapists1 id))) now apps r
           = (apps ++ [bookedAppointment th now r], Ok (bookedAppointment th now r))).
Proof.
  intros Hreg Hid Hv. unfold registerTherapist in Hreg.
  destruct (PrimFloat.leb 0 rate) eqn:Hrate; cbn [andb negb] in Hreg; [ | discriminate Hreg ].
  injection Hreg as <- <-.
  assert ((therapists ++ [ {| isActive := true; isVerified := false; hourlyRate := rate |} ])
            !! length therapists
          = Some {| isActive := true; isVerified := false; hourlyRate := rate |}) as Hnew.
  { rewrite lookup_app_r by lia. rewrite Nat.sub_diag. reflexivity. }
  split.
  - apply (book_unavailable _ _ _ _ {| isActive := true; isVerified := false; hourlyRate := rate |});
      [ exact Hv | unfold Therapist_findById; rewrite Hid; exact Hnew | right; reflexivity ].
  - unfold verifyTherapist. rewrite Hnew. cbv zeta. cbn [fst snd isActive hourlyRate].
    eexists. split; [ reflexivity | ]. split; [ reflexivity | ]. split; [ exact Hrate | ].
    intros Hfree. apply book_available; [ exact Hv | | exact Hrate | exact Hfree ].
    unfold providerAvailable, Therapist_findById. rewrite Hid.
    split; [ | split; reflexivity ].
    apply list_lookup_insert_eq. apply lookup_lt_Some in Hnew. exact Hnew.
Qed.

Lemma registered_therapist_is_bookable_once_verified_witness :
  book (Therapist_findById oneRegistered) 0 [] (requestTo0 "09:00" 60)
    = ([], Err ProviderUnavailable)
  /\ exists th,
       snd (verifyTherapist oneRegistered 0) = Ok th
       /\ hourlyRate th = 90%float /\ rateAccepted th
       /\ ((forall a, In a [] -> ~ conflictsWith (requestTo0 "09:00" 60) a) ->
           book (Therapist_findById (fst (verifyTherapist oneRegistered 0))) 0 []
             (requestTo0 "09:00" 60)
           = ([] ++ [bookedAppointment th 0 (requestTo0 "09:00" 60)],
              Ok (bookedAppointment th 0 (requestTo0 "09:00" 60)))).
Proof.
  apply (registered_therapist_is_bookable_once_verified [] 90%float oneRegistered 0
           0 [] (requestTo0 "09:00" 60)).
  - reflexivity.
  - reflexivity.
  - reflexivity.
Defined.

(** The profile route of the therapists writes whatever fields the body
    names, the flags included: a therapist who sends [isActive: true]
    and [isVerified: true] with the profile becomes bookable, without any
    admin, whatever the flags were: a valid request that meets no
    conflict is then booked, the rate being one the schema accepts;
    before, when one of the flags was off, every request was refused. *)
Theorem therapist_can_raise_own_flags `{Runtime} therapists actor th now apps r :
  therapists !! actor = Some th -> therapistId r = actor -> validBookRequest r = true ->
  (isActive th = false \/ isVerified th = false ->
     book (Therapist_findById therapists) now apps r = (apps, Err ProviderUnavailable))
  /\ snd (updateProfile therapists actor raiseBothFlags)
     = Ok (Some {| isActive := true; isVerified := true; hourlyRate := hourlyRate th |})
  /\ (rateAccepted th -> (forall a, In a apps -> ~ conflictsWith r a) ->
      book (Therapist_findById (fst (updateProfile therapists actor raiseBothFlags))) now apps r
      = (apps ++ [bookedAppointment
                    {| isActive := true; isVerified := true; hourlyRate := hourlyRate th |} now r],
         Ok (bookedAppointment
               {| isActive := true; isVerified := true; hourlyRate := hourlyRate th |} now r))).
Proof.
  intros Hth Hid Hv. split; [ | split ].
  - intros Hflag. apply (book_unavailable _ _ _ _ th);
      [ exact Hv | unfold Therapist_findById; rewrite Hid; exact Hth | exact Hflag ].
  - unfold updateProfile, raiseBothFlags. cbn [upd_hourlyRate negb]. rewrite Hth. reflexivity.
  - intros Hrate Hfree.
    unfold updateProfile, raiseBothFlags. cbn [upd_hourlyRate negb]. rewrite Hth. cbn [fst].
    apply book_available; [ exact Hv | | exact Hrate | exact Hfree ].
    unfold providerAvailable, Therapist_findById. rewrite Hid.
    split; [ | split; reflexivity ].
    apply list_lookup_insert_eq. apply lookup_lt_Some in Hth. exact Hth.
Qed.

Lemma therapist_can_raise_own_flags_witness :
  (isActive {| isActive := true; isVerified := false; hourlyRate := 90%float |} = false
   \/ isVerified {| isActive := true; isVerified := false; hourlyRate := 90%float |} = false ->
     book (Therapist_findById oneRegistered) 0 [] (requestTo0 "09:00" 60)
     = ([], Err ProviderUnavailable))
  /\ snd (updateProfile oneRegistered 0 raiseBothFlags)
     = Ok (Some {| isActive := true; isVerified := true; hourlyRate := 90%float |})
  /\ (rateAccepted {| isActive := true; isVerified := false; hourlyRate := 90%float |} ->
      (forall a, In a [] -> ~ conflictsWith (requestTo0 "09:00" 60) a) ->
      book (Therapist_findById (fst (updateProfile oneRegistered 0 raiseBothFlags))) 0 []
        (requestTo0 "09:00" 60)
      = ([] ++ [bookedAppointment
                  {| isActive := true; isVerified := true; hourlyRate := 90%float |}
                  0 (requestTo0 "09:00" 60)],
         Ok (bookedAppointment
               {| isActive := true; isVerified := true; hourlyRate := 90%float |}
               0 (requestTo0 "09:00" 60)))).
Proof.
  apply (therapist_can_raise_own_flags oneRegistered 0
           {| isActive := true; isVerified := false; hourlyRate := 90%float |}
           0 [] (requestTo0 "09:00" 60)).
  - reflexivity.
  - reflexivity.
  - reflexivity.
Defined.

(** The slot listing asks only whether the therapist exists: for a
    therapist who is deactivated or not verified it still offers every
    hour of the grid that no pending or confirmed appointment starts at,
    while the booking routes refuse every request to that therapist; the
    browse listing, on the other hand, shows a therapist only if the
    booking routes accept the therapist.  Deactivating an active therapist
    is such a case, and the toggle is undone by repeating it. *)
Theorem slots_are_offered_for_therapists_that_cannot_be_booked `{Runtime}
    therapists id th apps d :
  therapists !! id = Some th ->
  (isActive th = false \/ isVerified th = false ->
     (exists slots,
        availableSlots (Therapist_findById therapists) apps id (Some d) = Ok slots
        /\ forall sl, In sl hourlyGrid -> ~ startsAt apps id d (slot_startTime sl) -> In sl slots)
     /\ (forall now r, therapistId r = id -> validBookRequest r = true ->
           book (Therapist_findById therapists) now apps r = (apps, Err ProviderUnavailable)))
  /\ (forall further, browseFilter further th = true ->
        providerAvailable (Therapist_findById therapists) id th)
  /\ (providerAvailable (Therapist_findById therapists) id th ->
        browseFilter (fun _ => true) th = true)
  /\ isActive (match snd (toggleTherapistStatus therapists id) with
               | Ok th' => th'
               | Err _ => th
               end) = negb (isActive th)
  /\ fst (toggleTherapistStatus (fst (toggleTherapistStatus therapists id)) id) = therapists.
Proof.
  intros Hth. split; [ | split; [ | split; [ | split ] ] ].
  - intros Hflag. split.
    + eexists. split.
      * unfold availableSlots, Therapist_findById. rewrite Hth.
        rewrite slotLoop_filter, gridFrom_9_9. reflexivity.
      * intros sl Hsl Hfree. apply filter_In. split; [ exact Hsl | ].
        apply negb_true_iff.
        destruct (includes _ (slot_startTime sl)) eqn:Hinc; [ | reflexivity ].
        apply includes_startsAt in Hinc. contradiction.
    + intros now r Hid Hv. apply (book_unavailable _ _ _ _ th);
        [ exact Hv | unfold Therapist_findById; rewrite Hid; exact Hth | exact Hflag ].
  - intros further Hb. unfold browseFilter in Hb.
    rewrite !andb_true_iff in Hb. destruct Hb as [[Ha Hv] _].
    apply Bool.eqb_prop in Ha, Hv.
    unfold providerAvailable, Therapist_findById. tauto.
  - intros (_ & Ha & Hv). unfold browseFilter. rewrite Ha, Hv. reflexivity.
  - unfold toggleTherapistStatus. rewrite Hth. reflexivity.
  - unfold toggleTherapistStatus. rewrite Hth. cbv zeta. cbn [fst].
    rewrite list_lookup_insert_eq by (apply lookup_lt_Some in Hth; exact Hth).
    cbn [fst isActive isVerified hourlyRate].
    rewrite list_insert_insert_eq, negb_involutive.
    destruct th as [a v h]. cbn [isActive isVerified hourlyRate].
    apply list_insert_id. exact Hth.
Qed.

Lemma slots_are_offered_for_therapists_that_cannot_be_booked_witness :
  (isActive {| isActive := true; isVerified := false; hourlyRate := 90%float |} = false
   \/ isVerified {| isActive := true; isVerified := false; hourlyRate := 90%float |} = false ->
     (exists slots,
        availableSlots (Therapist_findById oneRegistered) [] 0 (Some 1704067200000) = Ok slots
        /\ forall sl, In sl hourlyGrid -> ~ startsAt [] 0 1704067200000 (slot_startTime sl) ->
                      In sl slots)
     /\ (forall now r, therapistId r = 0%nat -> validBookRequest r = true ->
           book (Therapist_findById oneRegistered) now [] r = ([], Err ProviderUnavailable)))
  /\ (forall further,
        browseFilter further
          {| isActive := true; isVerified := false; hourlyRate := 90%float |} = true ->
        providerAvailable (Therapist_findById oneRegistered) 0
          {| isActive := true; isVerified := false; hourlyRate := 90%float |})
  /\ (providerAvailable (Therapist_findById oneRegistered) 0
        {| isActive := true; isVerified := false; hourlyRate := 90%float |} ->
      browseFilter (fun _ => true)
        {| isActive := true; isVerified := false; hourlyRate := 90%float |} = true)
  /\ isActive (match snd (toggleTherapistStatus oneRegistered 0) with
               | Ok th' => th'
               | Err _ => {| isActive := true; isVerified := false;
                             hourlyRate := 90%float |}
               end)
     = negb (isActive {| isActive := true; isVerified := false;
                         hourlyRate := 90%float |})
  /\ fst (toggleTherapistStatus (fst (toggleTherapistStatus oneRegistered 0)) 0) = oneRegistered.
Proof.
  exact (slots_are_offered_for_therapists_that_cannot_be_booked oneRegistered 0
           {| isActive := true; isVerified := false; hourlyRate := 90%float |}
           [] 1704067200000 eq_refl).
Defined.

(** *** The statistics of the therapist collection *)





(** ** Accounts, login and the authentication middleware *)

Lemma String_replace_Bearer token : String_replace "Bearer " "" ("Bearer " ++ token) = token.
Proof. destruct token; reflexivity. Qed.

Lemma findByEmail_lookup email docs start id doc :
  findByEmail email start docs = Some (id, doc) ->
  (start <= id)%nat /\ docs !! (id - start)%nat = Some doc /\ acc_email doc = email.
Proof.
  revert start. induction docs as [ | d docs IH]; intros start; cbn [findByEmail];
    [ discriminate | ].
  destruct (String.eqb (acc_email d) email) eqn:E.
  - intros [= <- <-]. apply String.eqb_eq in E. rewrite Nat.sub_diag. auto.
  - intros Hf. destruct (IH _ Hf) as (Hle & Hl & He).
    split; [ lia | ]. split; [ | exact He ].
    replace (id - start)%nat with (S (id - S start)) by lia. exact Hl.
Qed.

Section AuthenticationProperties.
Context `{Credentials}.

Lemma loginWith_LoggedIn docs userType email password now docs' token id :
  loginWith docs userType email password now = (docs', LoggedIn token id) ->
  token = jwt_sign id userType now
  /\ (id < length docs')%nat
  /\ exists doc, docs !! id = Some doc /\ acc_email doc = email /\ acc_isActive doc = true
                 /\ bcrypt_compare password (acc_password doc) = true
                 /\ docs' = <[id := withLastLogin now doc]> docs.
Proof.
  unfold loginWith. destruct (findByEmail email 0 docs) as [[i doc] | ] eqn:Hf; [ | discriminate ].
  destruct (acc_isActive doc) eqn:Ha; cbn [negb]; [ | discriminate ].
  destruct (bcrypt_compare password (acc_password doc)) eqn:Hp; cbn [negb]; [ | discriminate ].
  intros [= <- <- <-].
  apply findByEmail_lookup in Hf as (_ & Hl & He). rewrite Nat.sub_0_r in Hl.
  split; [ reflexivity | ]. split.
  - rewrite length_insert. apply lookup_lt_Some in Hl. exact Hl.
  - exists doc. auto.
Qed.

Lemma authMiddleware_token db token now id ty :
  tokensVerify -> token <> EmptyString ->
  jwt_verify token now
    = Some {| payload_userId := Some id; payload_userType := Some (userTypeName ty) |} ->
  (id < length (match ty with
                | UserT => db_users db
                | TherapistT => db_therapists db
                | AdminT => db_admins db
                end))%nat ->
  authMiddleware db (bearer token) now = Authenticated id ty.
Proof.
  intros _ Hne Hv Hlen. unfold authMiddleware, bearer. cbn [option_map].
  rewrite String_replace_Bearer.
  destruct token as [ | c token]; [ contradiction | ].
  rewrite Hv. cbn [payload_userId payload_userType].
  destruct ty; cbn [userTypeName String.eqb Ascii.eqb Bool.eqb];
    apply lookup_lt_is_Some_2 in Hlen as [doc ->]; reflexivity.
Qed.

(** The token that POST /login returns for a user, a therapist or an
    admin, sent back as [Bearer <token>] within its seven days, passes the
    middleware as that account and type.  It then passes [requireUser]
    whatever the type, so that therapists and admins reach the routes of
    the clients; it passes [requireTherapist] only as a therapist and
    [requireAdmin] only as an admin.  GET /api/auth/me, which is mounted
    without the middleware, answers 'Not authenticated' all the same. *)
Theorem login_token_passes_the_guards db emailValid email password ty now db' token id now' :
  tokensVerify ->
  login db emailValid email password (userTypeName ty) now = (db', LoggedIn token id) ->
  now <= now' < now + sevenDays ->
  authMiddleware db' (bearer token) now' = Authenticated id ty
  /\ throughMiddleware requireUser db' (bearer token) now' = Some (id, ty)
  /\ throughMiddleware requireTherapist db' (bearer token) now'
     = (if bool_decide (ty = TherapistT) then Some (id, ty) else None)
  /\ throughMiddleware requireAdmin db' (bearer token) now'
     = (if bool_decide (ty = AdminT) then Some (id, ty) else None)
  /\ throughMiddleware (requireRole [UserT]) db' (bearer token) now'
     = (if bool_decide (ty = UserT) then Some (id, ty) else None)
  /\ me_as_mounted db' (bearer token) now' = NotAuthenticated.
Proof.
  intros Hlaw Hlogin Hnow.
  assert (token = jwt_sign id (userTypeName ty) now
          /\ (id < length (match ty with
                           | UserT => db_users db'
                           | TherapistT => db_therapists db'
                           | AdminT => db_admins db'
                           end))%nat) as [-> Hlen].
  { unfold login in Hlogin. destruct (negb _); [ discriminate Hlogin | ].
    destruct ty; cbn [userTypeName String.eqb Ascii.eqb Bool.eqb] in Hlogin.
    - destruct (loginWith (db_users db) _ _ _ _) as [docs r] eqn:Hw.
      injection Hlogin as <- ->. cbn [db_users].
      apply loginWith_LoggedIn in Hw as (Ht & Hl & _). auto.
    - destruct (loginWith (db_therapists db) _ _ _ _) as [docs r] eqn:Hw.
      injection Hlogin as <- ->. cbn [db_therapists].
      apply loginWith_LoggedIn in Hw as (Ht & Hl & _). auto.
    - destruct (loginWith (db_admins db) _ _ _ _) as [docs r] eqn:Hw.
      injection Hlogin as <- ->. cbn [db_admins].
      apply loginWith_LoggedIn in Hw as (Ht & Hl & _). auto. }
  destruct (Hlaw id ty now now' Hnow) as [Hverify Hne].
  pose proof (authMiddleware_token db' _ now' id ty Hlaw Hne Hverify Hlen) as Hauth.
  split; [ exact Hauth | ].
  unfold throughMiddleware. rewrite Hauth.
  repeat split; destruct ty; reflexivity.
Qed.

(** A deactivated therapist is refused by POST /login, with an answer that
    tells a deactivated account from an unknown one whatever password is
    sent; but POST /login/therapist, which does not look at the flag,
    hands the therapist a token for the right password, and the
    middleware, which does not look at it either, lets that token through
    to the therapist routes.  What the middleware answers depends on the
    database only through which ids exist. *)
Theorem deactivated_therapist_keeps_access db email password id doc now now' :
  tokensVerify ->
  findByEmail email 0 (db_therapists db) = Some (id, doc) ->
  acc_isActive doc = false ->
  bcrypt_compare password (acc_password doc) = true ->
  now <= now' < now + sevenDays ->
  (forall sent, sent <> EmptyString ->
     login db true email sent "therapist" now = (db, AccountDeactivated))
  /\ loginTherapist db true email (Some password) now
     = LoggedIn (jwt_sign id "therapist" now) id
  /\ throughMiddleware requireTherapist db (bearer (jwt_sign id "therapist" now)) now'
     = Some (id, TherapistT)
  /\ (forall db2 authorization t,
        sameIds db db2 -> authMiddleware db2 authorization t = authMiddleware db authorization t).
Proof.
  intros Hlaw Hfind Hoff Hpw Hnow. split; [ | split; [ | split ] ].
  - intros sent Hsent. unfold login.
    assert (String.eqb sent "" = false) as -> by (apply String.eqb_neq; exact Hsent).
    cbn [negb andb orb String.eqb Ascii.eqb Bool.eqb].
    unfold loginWith. rewrite Hfind, Hoff. cbn [negb]. destruct db; reflexivity.
  - unfold loginTherapist, loginDirect. cbn [negb]. rewrite Hfind, Hpw. reflexivity.
  - destruct (Hlaw id TherapistT now now' Hnow) as [Hverify Hne].
    apply findByEmail_lookup in Hfind as (_ & Hl & _). rewrite Nat.sub_0_r in Hl.
    pose proof (authMiddleware_token db _ now' id TherapistT Hlaw Hne Hverify
                  (lookup_lt_Some _ _ _ Hl)) as Hauth.
    cbn [userTypeName] in Hauth.
    unfold throughMiddleware. rewrite Hauth. reflexivity.
  - intros db2 authorization t (Hu & Ht & Ha). unfold authMiddleware.
    destruct (option_map _ authorization) as [[ | c token] | ]; try reflexivity.
    destruct (jwt_verify _ t) as [[[uid | ] [ty | ]] | ]; try reflexivity.
    cbn [payload_userId payload_userType].
    assert (forall (l l' : list Account), length l = length l' ->
              forall (k : AuthResult), match l' !! uid with Some _ => k | None => UserNotFound end
                        = match l !! uid with Some _ => k | None => UserNotFound end) as Hsame.
    { intros l l' Hlen k.
      destruct (l !! uid) eqn:E1, (l' !! uid) eqn:E2; try reflexivity.
      - apply lookup_lt_Some in E1. apply lookup_ge_None in E2. lia.
      - apply lookup_lt_Some in E2. apply lookup_ge_None in E1. lia. }
    destruct (String.eqb ty "user"); [ apply Hsame; exact Hu | ].
    destruct (String.eqb ty "therapist"); [ apply Hsame; exact Ht | ].
    destruct (String.eqb ty "admin"); [ apply Hsame; exact Ha | reflexivity ].
Qed.
End AuthenticationProperties.

Lemma unary_length n : String.length (unary n) = n.
Proof. induction n as [ | n IH]; [ reflexivity | cbn [unary String.length]; rewrite IH; reflexivity ]. Qed.

Lemma exampleCredentials_tokensVerify : @tokensVerify exampleCredentials.
Proof.
  intros id ty t t' _. split.
  - destruct ty;
      cbv [jwt_verify jwt_sign exampleCredentials userTypeName String.append stripPrefix
           Ascii.eqb Bool.eqb];
      rewrite unary_length; reflexivity.
  - destruct ty;
      cbv [jwt_sign exampleCredentials userTypeName String.append]; discriminate.
Qed.

Lemma login_token_passes_the_guards_witness :
  authMiddleware
    (fst (login exampleDatabase true "u@example.org" "letmein" "user" 1000))
    (bearer "user:") 2000 = Authenticated 0 UserT
  /\ throughMiddleware requireUser
       (fst (login exampleDatabase true "u@example.org" "letmein" "user" 1000))
       (bearer "user:") 2000 = Some (0%nat, UserT)
  /\ throughMiddleware requireTherapist
       (fst (login exampleDatabase true "u@example.org" "letmein" "user" 1000))
       (bearer "user:") 2000 = None
  /\ throughMiddleware requireAdmin
       (fst (login exampleDatabase true "u@example.org" "letmein" "user" 1000))
       (bearer "user:") 2000 = None
  /\ throughMiddleware (requireRole [UserT])
       (fst (login exampleDatabase true "u@example.org" "letmein" "user" 1000))
       (bearer "user:") 2000 = Some (0%nat, UserT)
  /\ me_as_mounted
       (fst (login exampleDatabase true "u@example.org" "letmein" "user" 1000))
       (bearer "user:") 2000 = NotAuthenticated.
Proof.
  apply (login_token_passes_the_guards exampleDatabase true "u@example.org" "letmein" UserT 1000
           (fst (login exampleDatabase true "u@example.org" "letmein" "user" 1000))
           "user:" 0 2000 exampleCredentials_tokensVerify).
  - reflexivity.
  - unfold sevenDays. lia.
Defined.

Lemma deactivated_therapist_keeps_access_witness :
  (forall sent, sent <> EmptyString ->
     login exampleDatabase true "t@example.org" sent "therapist" 1000
     = (exampleDatabase, AccountDeactivated))
  /\ loginTherapist exampleDatabase true "t@example.org" (Some "secret") 1000
     = LoggedIn (jwt_sign 0 "therapist" 1000) 0
  /\ throughMiddleware requireTherapist exampleDatabase
       (bearer (jwt_sign 0 "therapist" 1000)) 2000 = Some (0%nat, TherapistT)
  /\ (forall db2 authorization t,
        sameIds exampleDatabase db2 ->
        authMiddleware db2 authorization t = authMiddleware exampleDatabase authorization t).
Proof.
  apply (deactivated_therapist_keeps_access exampleDatabase "t@example.org" "secret" 0
           deactivatedTherapist 1000 2000 exampleCredentials_tokensVerify).
  - reflexivity.
  - reflexivity.
  - reflexivity.
  - unfold sevenDays. lia.
Defined.

(** ** Chat *)



Lemma StronglySorted_rev {A} (R : A -> A -> Prop) (l : list A) :
  StronglySorted R l -> StronglySorted (fun x y => R y x) (rev l).
Proof.
  induction 1 as [ | x l Hs IH Hall]; [ constructor | ].
  cbn [rev]. revert IH.
  assert (Forall (fun y => R x y) (rev l)) as Hrev
    by (rewrite List.Forall_forall in *; intros y Hy; apply Hall, in_rev; exact Hy).
  clear Hs Hall. induction (rev l) as [ | y r IHr]; intros Hs; cbn [app].
  - constructor; constructor.
  - inversion Hs as [ | y' r' Hs' Hall' ]; subst. inversion Hrev as [ | y' r' Hxy Hrev' ]; subst.
    constructor; [ apply IHr; assumption | ].
    rewrite List.Forall_forall in *. intros z Hz.
    apply in_app_or in Hz as [Hz | [<- | []]]; [ apply Hall'; exact Hz | exact Hxy ].
Qed.


Lemma byCreatedAtDescending_totalOrder : totalOrder byCreatedAtDescending.
Proof.
  split.
  - intros x y. unfold byCreatedAtDescending.
    rewrite (Z.compare_antisym (chat_createdAt x) (chat_createdAt y)).
    destruct (Z.compare (chat_createdAt x) (chat_createdAt y)); cbn [CompOpp]; lia.
  - intros x y z. unfold byCreatedAtDescending.
    destruct (Z.compare_spec (chat_createdAt y) (chat_createdAt x)),
      (Z.compare_spec (chat_createdAt z) (chat_createdAt y)),
      (Z.compare_spec (chat_createdAt z) (chat_createdAt x)); lia.
Qed.


Lemma byCreatedAtDescending_le x y :
  byCreatedAtDescending x y <= 0 -> chat_createdAt y <= chat_createdAt x.
Proof.
  unfold byCreatedAtDescending.
  destruct (Z.compare_spec (chat_createdAt y) (chat_createdAt x)); lia.
Qed.


Section ChatProperties.
Context `{QueryEngine} `{ChatModel}.


End ChatProperties.


(** *** The history and the sessions of a user *)

Lemma perKey_last {A K V} `{EqDecision K} (key : A -> K) (f : A -> V) k (l : list A) acc :
  perKey key (fun x _ => f x) k l acc
  = match list.last (withKey key k l) with
    | Some x => Some (f x)
    | None => acc
    end.
Proof.
  revert acc. induction l as [ | x l IH]; intros acc; [ reflexivity | ].
  rewrite perKey_cons, IH. unfold withKey. cbn [List.filter].
  destruct (decide (key x = k)) as [E | N].
  - rewrite (bool_decide_eq_true_2 _ E), last_cons.
    destruct (list.last (List.filter _ l)); reflexivity.
  - rewrite (bool_decide_eq_false_2 _ N). reflexivity.
Qed.

Lemma byLastTimestampDescending_totalOrder : totalOrder byLastTimestampDescending.
Proof.
  split.
  - intros x y. unfold byLastTimestampDescending.
    rewrite (Z.compare_antisym (lastTimestamp x) (lastTimestamp y)).
    destruct (Z.compare (lastTimestamp x) (lastTimestamp y)); cbn [CompOpp]; lia.
  - intros x y z. unfold byLastTimestampDescending.
    destruct (Z.compare_spec (lastTimestamp y) (lastTimestamp x)),
      (Z.compare_spec (lastTimestamp z) (lastTimestamp y)),
      (Z.compare_spec (lastTimestamp z) (lastTimestamp x)); lia.
Qed.

Lemma byLastTimestampDescending_le x y :
  byLastTimestampDescending x y <= 0 -> lastTimestamp y <= lastTimestamp x.
Proof.
  unfold byLastTimestampDescending.
  destruct (Z.compare_spec (lastTimestamp y) (lastTimestamp x)); lia.
Qed.

(** The history of a user, for a page number and a page size of at least
    one, counts the user's own messages (of one session, when a session
    is named), computes the number of pages by rounding up, and holds as
    many messages as the page has, all of them the user's own, oldest
    first.  The session list of a user has one entry for each session the
    user has written in, with the text and the time of the user's last
    message in it, latest session first. *)
Theorem chat_history_and_sessions_are_the_users_own `{QueryEngine}
    messages actor sessionId p l :
  lawful -> 1 <= p -> 1 <= l ->
  (exists r,
     history messages actor sessionId (Some p) (Some l) = Some r
     /\ history_total r
        = Z.of_nat (length (List.filter (historyFilter actor sessionId) messages))
     /\ history_currentPage r = Some p
     /\ history_totalPages r = Some ((history_total r + l - 1) / l)
     /\ Z.of_nat (length (history_messages r)) = pageLength (history_total r) p l
     /\ (forall m, In m (history_messages r) ->
           In m messages /\ historyFilter actor sessionId m = true /\ chat_user m = actor)
     /\ StronglySorted (fun a b => chat_createdAt a <= chat_createdAt b) (history_messages r))
  /\ List.NoDup (map session_id (sessions messages actor))
  /\ (forall sid text time,
        In (mkSession sid text time) (sessions messages actor)
        <-> exists m, list.last (ownMessagesIn messages actor sid) = Some m
                      /\ text = chat_message m /\ time = chat_createdAt m)
  /\ StronglySorted (fun a b => lastTimestamp b <= lastTimestamp a) (sessions messages actor).
Proof.
  intros Hlaw Hp Hl. split; [ | split; [ | split ] ].
  - destruct (page_of_matching byCreatedAtDescending
                (List.filter (historyFilter actor sessionId) messages) p l
                Hlaw byCreatedAtDescending_totalOrder Hp Hl)
      as (skipped & items & Hskip & Hlimit & Hlen & Hin & Hsorted).
    unfold history. cbv zeta. fold (historyFilter actor sessionId).
    rewrite Hskip, Hlimit. eexists. split; [ reflexivity | ].
    cbn [history_total history_currentPage history_totalPages history_messages Math_ceil_div].
    split; [ reflexivity | ]. split; [ reflexivity | ].
    split; [ rewrite (proj2 (Z.eqb_neq l 0)) by lia; rewrite ceil_div_pos by lia; reflexivity | ].
    split; [ rewrite length_rev; exact Hlen | ]. split.
    + intros m Hm. apply in_rev, Hin, filter_In in Hm as [Hm Hf].
      split; [ exact Hm | ]. split; [ exact Hf | ].
      unfold historyFilter in Hf. apply andb_true_iff in Hf as [Hu _].
      apply Nat.eqb_eq. exact Hu.
    + apply (StronglySorted_impl (fun x y => byCreatedAtDescending y x <= 0)).
      * intros x y. apply byCreatedAtDescending_le.
      * apply StronglySorted_rev. exact Hsorted.
  - unfold sessions.
    apply (Permutation_NoDup
             (Permutation_sym (Permutation_map session_id (sortBy_Permutation _ _)))).
    rewrite map_map. cbn [session_id].
    apply (fold_upsert_NoDup chat_sessionId
             (fun msg _ => (chat_message msg, chat_createdAt msg))). constructor.
  - intros sid text time. unfold sessions, ownMessagesIn.
    set (own := List.filter (fun m => Nat.eqb (chat_user m) actor) messages).
    set (groups := fold_left _ own []).
    assert (List.NoDup (map fst groups)) as Hnd
      by (apply (fold_upsert_NoDup chat_sessionId
                   (fun msg _ => (chat_message msg, chat_createdAt msg))); constructor).
    assert (In (mkSession sid text time)
              (sortBy byLastTimestampDescending
                 (map (fun g : string * (string * Z) =>
                         {| session_id := fst g; lastMessage := fst (snd g);
                            lastTimestamp := snd (snd g) |}) groups))
            <-> In (sid, (text, time)) groups) as ->.
    { split.
      - intros Hin. apply (Permutation_in _ (sortBy_Permutation _ _)) in Hin.
        apply in_map_iff in Hin as ([k [t c]] & E & Hg). cbn [fst snd] in E.
        injection E as -> -> ->. exact Hg.
      - intros Hg. apply (Permutation_in _ (Permutation_sym (sortBy_Permutation _ _))).
        apply in_map_iff. exists (sid, (text, time)). split; [ reflexivity | exact Hg ]. }
    rewrite (Map_get_In sid (text, time) groups Hnd). unfold groups.
    rewrite (fold_upsert_get chat_sessionId
               (fun msg _ => (chat_message msg, chat_createdAt msg))).
    cbn [Map_get].
    rewrite (perKey_last chat_sessionId (fun msg => (chat_message msg, chat_createdAt msg))).
    destruct (list.last (withKey chat_sessionId sid own)) as [m | ].
    + split; [ intros [= <- <-]; exists m; auto | intros (m' & [= <-] & -> & ->); reflexivity ].
    + split; [ discriminate | intros (m' & [=] & _) ].
  - unfold sessions.
    apply (StronglySorted_impl _ _ _ byLastTimestampDescending_le).
    destruct byLastTimestampDescending_totalOrder as [Htotal Htrans].
    apply sortBy_StronglySorted; assumption.
Qed.

Lemma chat_history_and_sessions_are_the_users_own_witness :
  (exists r,
     history twentyMessages 2 (Some "s") (Some 2) (Some 8) = Some r
     /\ history_total r
        = Z.of_nat (length (List.filter (historyFilter 2 (Some "s")) twentyMessages))
     /\ history_currentPage r = Some 2
     /\ history_totalPages r = Some ((history_total r + 8 - 1) / 8)
     /\ Z.of_nat (length (history_messages r)) = pageLength (history_total r) 2 8
     /\ (forall m, In m (history_messages r) ->
           In m twentyMessages /\ historyFilter 2 (Some "s") m = true /\ chat_user m = 2%nat)
     /\ StronglySorted (fun a b => chat_createdAt a <= chat_createdAt b) (history_messages r))
  /\ List.NoDup (map session_id (sessions twentyMessages 2))
  /\ (forall sid text time,
        In (mkSession sid text time) (sessions twentyMessages 2)
        <-> exists m, list.last (ownMessagesIn twentyMessages 2 sid) = Some m
                      /\ text = chat_message m /\ time = chat_createdAt m)
  /\ StronglySorted (fun a b => lastTimestamp b <= lastTimestamp a) (sessions twentyMessages 2).
Proof.
  apply (chat_history_and_sessions_are_the_users_own twentyMessages 2 (Some "s") 2 8
           exampleEngine_lawful); lia.
Defined.
